(** * UEDocsScraper: a shallow embedding of [Tools/UEDocsScraper/ue_docs_scraper.py]

    The scraper fetches documentation pages (with an on-disk cache, a retry
    loop and a politeness delay), converts their markup to Markdown lines and
    crawls the links it finds breadth-first up to a depth bound.  Its command
    line writes the pages scraped to the output directory: one file per page,
    one combined file or one condensed context file.

    Conventions of the embedding:
    - a Python [str] is a [string]; a character is a code point below 256;
    - a Python [int] is a [Z]; the float [REQUEST_DELAY = 1.0] is the integer
      number of seconds [1];
    - [None] is [None]; an uncaught exception is the absence of a result
      ([None] of the surrounding [option]);
    - the libraries the script imports ([requests], [hashlib], [bs4],
      [urllib.parse], [datetime]) are not part of the repository: they are
      the fields of the class [Externals].  What they raise is modelled where
      the input of the script decides it: the [requests.RequestException] of
      [session.get] and [raise_for_status], which the script catches, and,
      uncaught, the [ParserRejectedMarkup] of the parser and the
      [ValueError] of [urljoin];
    - the interpreter ends a call of [_process_element] nested deeper than
      its stack allows in a [RecursionError]; making a directory or writing
      a file that the file system does not take ends in an [OSError]; both
      are uncaught.
      Failures of the platform that no input decides (a full disk, a missing
      permission) are not modelled;
    - files are read and written in text mode: [write_text] writes each
      newline of the text as [os.linesep] and [read_text] reads every line
      end as a newline.  The cache directory holds what is on disk, the
      output directory, which the script never reads, the texts given to
      [write_text];
    - a parsed document is a [Node] tree; [print] calls are not modelled;
    - the output directory is a map from file names to texts; the regular
      expressions of the writers are written out as functions on strings. *)

From stdpp Require Import gmap strings list sorting.
From Stdlib Require Import ZArith Ascii DecimalString.

#[local] Set Warnings "-clear-no-such-hyp".


(** ** Python string methods *)

Module PyStr.

(** [str.isspace] on one character (code points below 256). *)
Definition isspace (c : ascii) : bool :=
  let n := nat_of_ascii c in
  ((9 <=? n) && (n <=? 13)) || ((28 <=? n) && (n <=? 32))
  || (n =? 133) || (n =? 160).

Fixpoint lstrip (s : string) : string :=
  match s with
  | "" => ""
  | String c s' => if isspace c then lstrip s' else s
  end.

Fixpoint rstrip (s : string) : string :=
  match s with
  | "" => ""
  | String c s' =>
      match rstrip s' with
      | "" => if isspace c then "" else String c ""
      | r => String c r
      end
  end.

(** [s.strip()] *)
Definition strip (s : string) : string := rstrip (lstrip s).

(** [s.startswith(p)] *)
Definition startswith (s p : string) : bool := String.prefix p s.

(** [needle in hay] *)
Fixpoint contains (needle hay : string) : bool :=
  String.prefix needle hay ||
  match hay with
  | "" => false
  | String _ hay' => contains needle hay'
  end.

(** [s.split(sep)[0]] for a one-character separator. *)
Fixpoint split_head (sep : ascii) (s : string) : string :=
  match s with
  | "" => ""
  | String c s' => if Ascii.eqb c sep then "" else String c (split_head sep s')
  end.

(** [s.split(sep)] for a one-character separator. *)
Fixpoint split (sep : ascii) (s : string) : list string :=
  match s with
  | "" => [""]
  | String c s' =>
      if Ascii.eqb c sep then "" :: split sep s'
      else match split sep s' with
           | [] => [String c ""]
           | w :: ws => String c w :: ws
           end
  end.

(** [sep.join(l)] *)
Fixpoint join (sep : string) (l : list string) : string :=
  match l with
  | [] => ""
  | [x] => x
  | x :: l' => x +:+ sep +:+ join sep l'
  end.

(** [s * n] *)
Fixpoint repeat (s : string) (n : nat) : string :=
  match n with
  | O => ""
  | S n' => s +:+ repeat s n'
  end.

Definition lower_char (c : ascii) : ascii :=
  let n := nat_of_ascii c in
  if ((65 <=? n) && (n <=? 90))
     || ((192 <=? n) && (n <=? 222) && negb (n =? 215))
  then ascii_of_nat (n + 32) else c.

(** [s.lower()] *)
Fixpoint lower (s : string) : string :=
  match s with
  | "" => ""
  | String c s' => String (lower_char c) (lower s')
  end.

(** [s.replace(old, new)] for a non-empty [old]: [skip] counts the
    characters of a match that remain to be dropped. *)
Fixpoint replace_from (skip : nat) (old new s : string) : string :=
  match s with
  | "" => ""
  | String c s' =>
      match skip with
      | S k => replace_from k old new s'
      | O =>
          if String.prefix old s
          then new +:+ replace_from (String.length old - 1) old new s'
          else String c (replace_from 0 old new s')
      end
  end.

Definition replace (old new s : string) : string := replace_from 0 old new s.

(** [re.sub(r"\n{3,}", "\n\n", s)]: [run] is the number of newlines read
    just before the current position. *)
Fixpoint collapse_newlines (run : nat) (s : string) : string :=
  match s with
  | "" => ""
  | String c s' =>
      if Ascii.eqb c "010"%char
      then if run <? 2
           then String c (collapse_newlines (S run) s')
           else collapse_newlines (S run) s'
      else String c (collapse_newlines 0 s')
  end.

(** [str(n)] for a natural number. *)
Definition of_nat (n : nat) : string := NilEmpty.string_of_uint (Nat.to_uint n).

(** [s[i]]; [None] stands for the [IndexError]. *)
Definition index (s : string) (i : nat) : option ascii := String.get i s.

(** [int(c)] for a one-character string; [None] stands for the
    [ValueError]. *)
Definition int_of_char (c : ascii) : option nat := Ascii.is_nat c.

End PyStr.

(** What reading a file in text mode does to its line ends: a carriage
    return, with the newline after it if there is one, is read as one
    newline. *)
Fixpoint universal_newlines (s : string) : string :=
  match s with
  | "" => ""
  | String c s' =>
      if Ascii.eqb c "013" then
        String "010"
          match s' with
          | "" => ""
          | String c' s'' =>
              if Ascii.eqb c' "010" then universal_newlines s''
              else universal_newlines s'
          end
      else String c (universal_newlines s')
  end.

(** What writing a file in text mode does to the line ends: each newline of
    the text is written as [os.linesep]. *)
Fixpoint os_newlines (sep s : string) : string :=
  match s with
  | "" => ""
  | String c s' =>
      if Ascii.eqb c "010" then sep +:+ os_newlines sep s'
      else String c (os_newlines sep s')
  end.

(** ** The parsed document *)

(** The classes of the strings of a parsed document: [NavigableString] and
    its subclasses.  The parser gives the text inside a [style], [script],
    [template], [rt] or [rp] element a class of its own. *)
Inductive StringClass : Type :=
| NavigableString
| CData
| Comment
| Declaration
| Doctype
| ProcessingInstruction
| Stylesheet
| Script
| TemplateString
| RubyTextString
| RubyParenthesisString.

#[global] Instance StringClass_eq_dec : EqDecision StringClass.
Proof. solve_decision. Defined.

(** A node of the tree [BeautifulSoup(html, "html.parser")] builds: a string
    ([element.name is None]) of some class, or a tag.  [bs4] keeps the
    [class] attribute as the list of its tokens; [classes] is that list
    (empty when the attribute is absent) and [attrs] holds the other,
    single-valued attributes. *)
#[warnings="-register-all"]
Inductive Node : Type :=
| Text (kind : StringClass) (s : string)
| Tag (name : string) (classes : list string) (attrs : list (string * string))
      (children : list Node).

(** ** The outside world *)

Inductive RequestException : Type :=
| Timeout
| ConnectionError
| HTTPError (status_code : Z).

(** What [session.get(url, timeout=30)] does: it returns a response or raises
    a [requests.RequestException]. *)
Inductive GetOutcome : Type :=
| Response (status_code : Z) (text : string)
| Raises (e : RequestException).

(** The imported libraries and the platform.  [Env] is the state of
    everything outside the process (servers, network, wall clock). *)
Class Externals : Type := {
  Env : Type;
  (** [requests.Session.get] *)
  http_get : Env -> string -> GetOutcome * Env;
  (** [hashlib.md5(url.encode()).hexdigest()] *)
  md5_hexdigest : string -> string;
  (** the children of [BeautifulSoup(html, "html.parser")]; [None] stands
      for the [ParserRejectedMarkup] the constructor raises on markup that
      [html.parser] gives up on *)
  html_parser : string -> option (list Node);
  (** [urllib.parse.urljoin]; [None] stands for the [ValueError] it raises
      on a reference it cannot split *)
  urljoin : string -> string -> option string;
  (** [datetime.now().isoformat()] *)
  now_isoformat : Env -> string;
  (** the deepest nesting of calls of [_process_element] that fits the
      stack of the interpreter; a call nested deeper ends in a
      [RecursionError] *)
  recursion_limit : nat;
  (** whether the file system takes a file of that name in the output
      directory; [write_text] raises an [OSError] when it does not *)
  name_fits : string -> bool;
  (** whether the output directory ([None]: the default one) can be made;
      [mkdir] raises an [OSError] when it cannot *)
  mkdir_ok : option string -> bool;
  (** [os.linesep]: a newline, or a carriage return and a newline *)
  linesep : string;
}.

(** ** Configuration *)

Definition BASE_URL : string :=
  "https://dev.epicgames.com/documentation/en-us/unreal-engine".
Definition REQUEST_DELAY : Z := 1.
Definition MAX_RETRIES : nat := 3.

Definition TOPIC_SHORTCUTS : gmap string string :=
  list_to_map [
    ("behavior-tree", "behavior-tree-in-unreal-engine");
    ("bt", "behavior-tree-in-unreal-engine");
    ("ai", "artificial-intelligence");
    ("ai-perception", "ai-perception-in-unreal-engine");
    ("perception", "ai-perception-in-unreal-engine");
    ("blackboard", "blackboard-in-unreal-engine");
    ("eqs", "environment-query-system-in-unreal-engine");
    ("navigation", "navigation-system-in-unreal-engine");
    ("nav-mesh", "navigation-mesh-in-unreal-engine");
    ("gameplay-ability", "gameplay-ability-system-for-unreal-engine");
    ("gas", "gameplay-ability-system-for-unreal-engine");
    ("enhanced-input", "enhanced-input-in-unreal-engine");
    ("input", "enhanced-input-in-unreal-engine");
    ("niagara", "niagara-visual-effects");
    ("vfx", "niagara-visual-effects");
    ("materials", "unreal-engine-materials");
    ("blueprints", "blueprints-visual-scripting-in-unreal-engine");
    ("bp", "blueprints-visual-scripting-in-unreal-engine");
    ("cpp", "programming-with-cplusplus-in-unreal-engine");
    ("c++", "programming-with-cplusplus-in-unreal-engine");
    ("umg", "umg-ui-designer-in-unreal-engine");
    ("ui", "umg-ui-designer-in-unreal-engine");
    ("widgets", "creating-widgets-in-unreal-engine");
    ("animation", "skeletal-mesh-animation-system-in-unreal-engine");
    ("physics", "physics-in-unreal-engine");
    ("collision", "collision-in-unreal-engine");
    ("networking", "networking-and-multiplayer-in-unreal-engine");
    ("replication", "property-replication-in-unreal-engine");
    ("packaging", "packaging-unreal-engine-projects");
    ("build", "packaging-unreal-engine-projects")
  ].

(** ** Effects *)

(** The two [time.sleep] call sites of [_fetch_page]. *)
Inductive SleepReason : Type :=
| RateLimiting
| ExponentialBackoff.

(** What a run does to the outside, in order. *)
Inductive Event : Type :=
| EvGet (url : string)
| EvSleep (why : SleepReason) (seconds : Z).

(** The state the scraper acts on: the outside world, the files of
    [CACHE_DIR] (file name to content) and the history of requests and
    sleeps. *)
Record World `{Externals} : Type := mkWorld {
  env : Env;
  cache_files : gmap string string;
  trace : list Event;
}.

(** A computation on the world that may end in an uncaught exception. *)
Definition M `{Externals} (A : Type) : Type := World -> option (A * World).

#[global] Instance M_ret `{Externals} : MRet M := fun A a w => Some (a, w).

#[global] Instance M_bind `{Externals} : MBind M :=
  fun A B k m w => match m w with
                   | Some (a, w') => k a w'
                   | None => None
                   end.

(** An uncaught exception. *)
Definition raise `{Externals} {A} : M A := fun _ => None.

Section Effects.
Context `{Externals}.

Definition session_get (url : string) : M GetOutcome :=
  fun w =>
    let '(r, e) := http_get (env w) url in
    Some (r, mkWorld _ e (cache_files w) (trace w ++ [EvGet url])).

Definition sleep (why : SleepReason) (seconds : Z) : M unit :=
  fun w => Some (tt, mkWorld _ (env w) (cache_files w)
                             (trace w ++ [EvSleep why seconds])).

(** [cache_path.exists()] and [cache_path.read_text(encoding="utf-8")]: the
    text of the file with its line ends translated. *)
Definition read_cache (path : string) : M (option string) :=
  fun w => Some (universal_newlines <$> cache_files w !! path, w).

(** [cache_path.write_text(text, encoding="utf-8")] *)
Definition write_text (path text : string) : M unit :=
  fun w => Some (tt, mkWorld _ (env w)
                       (<[path := os_newlines linesep text]> (cache_files w))
                       (trace w)).

Definition datetime_now : M string :=
  fun w => Some (now_isoformat (env w), w).
End Effects.

(** ** The fetcher *)

Section Fetcher.
Context `{Externals}.

(** [response.raise_for_status()] followed by [response.text]: the body, or
    the exception the [try] block ends in. *)
Definition raise_for_status (r : GetOutcome) : RequestException + string :=
  match r with
  | Response status_code text =>
      if ((400 <=? status_code) && (status_code <? 600))%Z
      then inl (HTTPError status_code)
      else inr text
  | Raises e => inl e
  end.

Definition _get_cache_path (url : string) : string :=
  md5_hexdigest url +:+ ".html".

(** The body of [for attempt in range(MAX_RETRIES)], over the attempts
    that remain. *)
Fixpoint fetch_attempts (use_cache : bool) (url : string)
    (attempts : list nat) : M (option string) :=
  match attempts with
  | [] => mret None
  | attempt :: rest =>
      r ← session_get url;
      match raise_for_status r with
      | inr text =>
          (if use_cache then write_text (_get_cache_path url) text
           else mret tt);;
          sleep RateLimiting REQUEST_DELAY;;
          mret (Some text)
      | inl _ =>
          (if attempt <? MAX_RETRIES - 1
           then sleep ExponentialBackoff (2 ^ Z.of_nat attempt)
           else mret tt);;
          fetch_attempts use_cache url rest
      end
  end.

Definition _fetch_page (use_cache : bool) (url : string) : M (option string) :=
  cached ← (if use_cache then read_cache (_get_cache_path url)
            else mret None);
  match cached with
  | Some text => mret (Some text)
  | None => fetch_attempts use_cache url (seq 0 MAX_RETRIES)
  end.
End Fetcher.

(** The spec's two kinds of failed attempt (section 4.2): transient is a
    timeout, a 5xx status or a connection failure; permanent is a 4xx status
    other than the rate-limit code 429.  The script has no such
    classification; these predicates only serve to state the claims. *)
Definition is_transient (e : RequestException) : bool :=
  match e with
  | Timeout | ConnectionError => true
  | HTTPError status_code => ((500 <=? status_code) && (status_code <? 600))%Z
  end.

Definition is_permanent (e : RequestException) : bool :=
  match e with
  | Timeout | ConnectionError => false
  | HTTPError status_code =>
      ((400 <=? status_code) && (status_code <? 500)
       && negb (status_code =? 429))%Z
  end.

(** The requests of a history, and its politeness delays. *)
Definition is_get (ev : Event) : bool :=
  match ev with EvGet _ => true | EvSleep _ _ => false end.

Definition is_rate_limit_sleep (ev : Event) : bool :=
  match ev with EvSleep RateLimiting _ => true | _ => false end.

Definition network_attempts (evs : list Event) : nat :=
  length (filter (fun ev => is_get ev = true) evs).

Definition politeness_delays (evs : list Event) : list Event :=
  filter (fun ev => is_rate_limit_sleep ev = true) evs.

(** The events of one failed attempt: the request, then the backoff unless
    the attempt is the last one. *)
Definition failed_attempt_events (url : string) (attempt : nat) : list Event :=
  EvGet url ::
  (if attempt <? MAX_RETRIES - 1
   then [EvSleep ExponentialBackoff (2 ^ Z.of_nat attempt)] else []).

(** An attempt fails when the [try] block ends in a [RequestException]. *)
Definition attempt_fails_with `{Externals} (e : Env) (url : string)
    (exn : RequestException) : Prop :=
  raise_for_status (http_get e url).1 = inl exn.

(** A URL is absent from the cache, or the cache is not in use. *)
Definition cache_miss `{Externals} (use_cache : bool) (url : string)
    (w : World) : Prop :=
  use_cache = true -> cache_files w !! _get_cache_path url = None.

(** ** Navigating the parsed document *)

(** [tag.interesting_string_types]: the classes of the strings that count
    as the text of a tag of that name. *)
Definition interesting_string_types (name : string) : list StringClass :=
  if bool_decide (name = "rt") then [RubyTextString]
  else if bool_decide (name = "rp") then [RubyParenthesisString]
  else if bool_decide (name = "style") then [Stylesheet]
  else if bool_decide (name = "script") then [Script]
  else if bool_decide (name = "template") then [TemplateString]
  else [NavigableString; CData].

(** The strings of the classes [types] at and below a node, in document
    order, joined. *)
Fixpoint all_strings (types : list StringClass) (n : Node) : string :=
  match n with
  | Text kind s => if bool_decide (kind ∈ types) then s else ""
  | Tag _ _ _ children =>
      (fix go (cs : list Node) : string :=
         match cs with
         | [] => ""
         | c :: cs' => all_strings types c +:+ go cs'
         end) children
  end.

(** [element.get_text()]: a string of the class [NavigableString] or
    [CData] is its own text and a string of another class has none; the text
    of a tag is made of the strings below it that are of the classes the
    tag is interested in, so a comment, or the text of a [script] inside a
    paragraph, is no part of it. *)
Definition get_text (n : Node) : string :=
  match n with
  | Text _ _ => all_strings [NavigableString; CData] n
  | Tag name _ _ _ => all_strings (interesting_string_types name) n
  end.

(** [element.name]; [None] for a string. *)
Definition node_name (n : Node) : option string :=
  match n with
  | Text _ _ => None
  | Tag name _ _ _ => Some name
  end.

Definition is_named (names : list string) (n : Node) : bool :=
  match n with
  | Text _ _ => false
  | Tag name _ _ _ => bool_decide (name ∈ names)
  end.

(** [element.get("class", [])] *)
Definition node_classes (n : Node) : list string :=
  match n with
  | Text _ _ => []
  | Tag _ classes _ _ => classes
  end.

(** [element.children] *)
Definition node_children (n : Node) : list Node :=
  match n with
  | Text _ _ => []
  | Tag _ _ _ children => children
  end.

(** [element.get(key)] for a single-valued attribute. *)
Definition get_attr (n : Node) (key : string) : option string :=
  match n with
  | Text _ _ => None
  | Tag _ _ attrs _ =>
      snd <$> List.find (fun kv => String.eqb (fst kv) key) attrs
  end.

(** [element.get(key, default)] *)
Definition get_attr_or (n : Node) (key fallback : string) : string :=
  default fallback (get_attr n key).

(** The nodes strictly below [n] in document order, each with the name of
    its parent. *)
Fixpoint descendants (n : Node) : list (string * Node) :=
  match n with
  | Text _ _ => []
  | Tag name _ _ children =>
      (fix go (cs : list Node) : list (string * Node) :=
         match cs with
         | [] => []
         | c :: cs' => (name, c) :: descendants c ++ go cs'
         end) children
  end.

(** [element.find_all(...)] with the test [p] *)
Definition find_all (p : Node -> bool) (n : Node) : list Node :=
  snd <$> filter (fun d => p (snd d) = true) (descendants n).

(** [element.find_all(..., recursive=False)] *)
Definition find_all_children (p : Node -> bool) (n : Node) : list Node :=
  filter (fun c => p c = true) (node_children n).

(** [element.find(...)], with the name of the parent of what is found. *)
Definition find_with_parent (p : Node -> bool) (n : Node)
    : option (string * Node) :=
  head (filter (fun d => p (snd d) = true) (descendants n)).

Definition find (p : Node -> bool) (n : Node) : option Node :=
  snd <$> find_with_parent p n.

(** [element.decompose()] on every tag below [n] that [bad] selects. *)
Fixpoint decompose_all (bad : Node -> bool) (n : Node) : Node :=
  match n with
  | Text _ _ => n
  | Tag name classes attrs children =>
      Tag name classes attrs
        ((fix go (cs : list Node) : list Node :=
            match cs with
            | [] => []
            | c :: cs' =>
                if bad c then go cs' else decompose_all bad c :: go cs'
            end) children)
  end.

(** The CSS selectors [_html_to_markdown] passes to [select]. *)
Inductive Selector : Type :=
| ByClass (cls : string)
| ByAttr (key value : string).

Definition selects (sel : Selector) (n : Node) : bool :=
  match n, sel with
  | Text _ _, _ => false
  | Tag _ classes _ _, ByClass cls => bool_decide (cls ∈ classes)
  | Tag _ _ _ _, ByAttr key value =>
      bool_decide (get_attr n key = Some value)
  end.

(** The document object: a tag named [[document]] above the parsed nodes. *)
Definition BeautifulSoup `{Externals} (html : string) : option Node :=
  Tag "[document]" [] [] <$> html_parser html.

(** ** The document converter *)

(** Truth value of a string: [if text:] *)
Definition truthy (s : string) : bool := negb (String.eqb s "").

Definition is_http (s : string) : bool :=
  PyStr.startswith s "http://" || PyStr.startswith s "https://".

Section Converter.
Context `{Externals}.

(** [href] made absolute, as the three places that resolve a reference do:
    [if not href.startswith(("http://", "https://")): href = urljoin(...)]. *)
Definition resolve (base_url href : string) : option string :=
  if is_http href then Some href else urljoin base_url href.

(** One element of [parts] in [_get_inline_text]. *)
Definition inline_part (base_url : string) (child : Node) : option string :=
  match node_name child with
  | None => Some (get_text child)
  | Some name =>
      if bool_decide (name = "strong") || bool_decide (name = "b")
      then Some ("**" +:+ get_text child +:+ "**")
      else if bool_decide (name = "em") || bool_decide (name = "i")
      then Some ("*" +:+ get_text child +:+ "*")
      else if bool_decide (name = "code")
      then Some ("`" +:+ get_text child +:+ "`")
      else if bool_decide (name = "a")
      then
        let href := get_attr_or child "href" "" in
        let text := get_text child in
        if truthy href
        then href ← resolve base_url href;
             Some ("[" +:+ text +:+ "](" +:+ href +:+ ")")
        else Some text
      else Some (get_text child)
  end.

Definition _get_inline_text (element : Node) (base_url : string)
    : option string :=
  parts ← mapM (inline_part base_url) (node_children element);
  Some (PyStr.strip (PyStr.join "" parts)).

(** The stripped texts of the cells of a row:
    [[c.get_text().strip() for c in row.find_all(["th", "td"])]]. *)
Definition row_cells (row : Node) : list string :=
  (fun c => PyStr.strip (get_text c)) <$> find_all (is_named ["th"; "td"]) row.

(** ["| " + " | ".join(cells) + " |"] *)
Definition table_line (cells : list string) : string :=
  "| " +:+ PyStr.join " | " cells +:+ " |".

(** [rows[0]]; [None] stands for the [IndexError]. *)
Definition first_row (rows : list Node) : option Node := rows !! 0.

Definition _process_table (table : Node) (lines : list string)
    : option (list string) :=
  let lines := lines ++ [""] in
  let rows := find_all (is_named ["tr"]) table in
  match rows with
  | [] => Some lines
  | _ =>
      header_row ← first_row rows;
      let headers := row_cells header_row in
      let lines :=
        match headers with
        | [] => lines
        | _ => lines ++ [table_line headers;
                         table_line (replicate (length headers) "---")]
        end in
      let lines :=
        foldl (fun lines row =>
                 match row_cells row with
                 | [] => lines
                 | cells => lines ++ [table_line cells]
                 end) lines (tail rows) in
      Some (lines ++ [""])
  end.

(** The language of a code block, from the classes of its [code] element. *)
Fixpoint code_language (classes : list string) : string :=
  match classes with
  | [] => ""
  | cls :: rest =>
      if PyStr.startswith cls "language-"
      then PyStr.replace "language-" "" cls
      else if bool_decide (cls ∈ ["cpp"; "c++"; "python"; "blueprint"; "ini"; "json"])
      then cls
      else code_language rest
  end.

(** The items of a list: [prefix] and inline text of each direct [li]. *)
Definition list_lines (ordered : bool) (base_url : string) (items : list Node)
    : option (list string) :=
  texts ← mapM (fun li => _get_inline_text li base_url) items;
  Some (imap (fun i text =>
                (if ordered then PyStr.of_nat (i + 1) +:+ "." else "-")
                +:+ " " +:+ text) texts).

(** The lines of a block quote: ["> "] and the stripped line, for each line
    of [text] that is not blank. *)
Definition quote_lines (text : string) : list string :=
  (fun line => "> " +:+ PyStr.strip line)
  <$> filter (fun line => truthy (PyStr.strip line) = true)
             (PyStr.split "010" text).

Definition HEADINGS : list string := ["h1"; "h2"; "h3"; "h4"; "h5"; "h6"].
Definition CONTAINERS : list string :=
  ["div"; "section"; "article"; "main"; "span"; "body"].

(** Whether a call of [_process_element] at nesting [depth] fits the stack
    of the interpreter; the root is called at depth 0. *)
Definition fits_stack (depth : Z) : bool :=
  (depth <=? Z.of_nat recursion_limit)%Z.

(** [_process_element(element, lines, base_url, depth)].  [lines] is the
    list the method appends to; the result is that list afterwards.
    [parent] is [element.parent.name] where [element] has a parent.  The
    call for a child is made at the depth of the element plus one, and ends
    in a [RecursionError] when it does not fit the stack. *)
Fixpoint _process_element (parent : option string) (element : Node)
    (lines : list string) (base_url : string) (depth : Z) {struct element}
    : option (list string) :=
  match element with
  | Text _ _ =>
      let text := PyStr.strip (get_text element) in
      Some (if truthy text then lines ++ [text] else lines)
  | Tag name classes attrs children =>
      let tag := PyStr.lower name in
      if bool_decide (tag ∈ HEADINGS) then
        digit ← PyStr.index tag 1;
        level ← PyStr.int_of_char digit;
        let text := PyStr.strip (get_text element) in
        Some (if truthy text
              then lines ++ [""; PyStr.repeat "#" level +:+ " " +:+ text; ""]
              else lines)
      else if bool_decide (tag = "p") then
        text ← _get_inline_text element base_url;
        Some (if truthy (PyStr.strip text)
              then lines ++ [""; text; ""]
              else lines)
      else if bool_decide (tag = "pre") then
        let code := get_text element in
        let lang :=
          match find (is_named ["code"]) element with
          | Some code_elem => code_language (node_classes code_elem)
          | None => ""
          end in
        Some (lines ++ [""; "```" +:+ lang; PyStr.strip code; "```"; ""])
      else
        inline_code ←
          (if bool_decide (tag = "code")
           then parent_name ← parent;
                Some (negb (bool_decide (parent_name = "pre")))
           else Some false);
        if inline_code : bool then
          Some (lines ++ ["`" +:+ get_text element +:+ "`"])
        else if bool_decide (tag ∈ ["ul"; "ol"]) then
          items ← list_lines (bool_decide (tag = "ol")) base_url
                     (find_all_children (is_named ["li"]) element);
          Some (lines ++ [""] ++ items ++ [""])
        else if bool_decide (tag = "table") then
          _process_table element lines
        else if bool_decide (tag = "a") then
          let href := get_attr_or element "href" "" in
          let text := PyStr.strip (get_text element) in
          if truthy href && truthy text
          then href ← resolve base_url href;
               Some (lines ++ ["[" +:+ text +:+ "](" +:+ href +:+ ")"])
          else Some lines
        else if bool_decide (tag = "img") then
          let alt := get_attr_or element "alt" "Image" in
          let src := get_attr_or element "src" "" in
          if truthy src
          then src ← resolve base_url src;
               Some (lines ++ ["![" +:+ alt +:+ "](" +:+ src +:+ ")"])
          else Some lines
        else if bool_decide (tag = "blockquote")
                || (bool_decide (tag = "div")
                    && PyStr.contains "callout" (PyStr.join " " classes)) then
          let text := PyStr.strip (get_text element) in
          Some (if truthy text
                then lines ++ [""] ++ quote_lines text ++ [""]
                else lines)
        else if bool_decide (tag ∈ CONTAINERS) then
          (fix go (cs : list Node) (lines : list string)
             : option (list string) :=
             match cs with
             | [] => Some lines
             | child :: cs' =>
                 lines' ← (if fits_stack (depth + 1)
                           then _process_element (Some name) child lines
                                  base_url (depth + 1)
                           else None);
                 go cs' lines'
             end) children lines
        else
          let text := PyStr.strip (get_text element) in
          Some (if truthy text then lines ++ [text] else lines)
  end.

(** The loop [for child in element.children] of the container case, with
    the children called at [depth]. *)
Fixpoint process_children (parent_name : string) (children : list Node)
    (lines : list string) (base_url : string) (depth : Z)
    : option (list string) :=
  match children with
  | [] => Some lines
  | child :: rest =>
      lines' ← (if fits_stack depth
                then _process_element (Some parent_name) child lines base_url
                       depth
                else None);
      process_children parent_name rest lines' base_url depth
  end.




(** An element of the container case: one of [CONTAINERS] that is not a
    callout [div]. *)
Definition recurses (n : Node) : bool :=
  match n with
  | Text _ _ => false
  | Tag name classes _ _ =>
      let tag := PyStr.lower name in
      bool_decide (tag ∈ CONTAINERS)
      && negb (bool_decide (tag = "div")
               && PyStr.contains "callout" (PyStr.join " " classes))
  end.


(** The content root and the name of its parent:
    [soup.find("main") or soup.find("article") or soup.find(class_="content")],
    then [soup.body or soup]. *)
Definition find_content (soup : Node) : option string * Node :=
  let found :=
    match find_with_parent (is_named ["main"]) soup with
    | Some r => Some r
    | None =>
        match find_with_parent (is_named ["article"]) soup with
        | Some r => Some r
        | None => find_with_parent (selects (ByClass "content")) soup
        end
    end in
  match found with
  | Some (parent_name, content) => (Some parent_name, content)
  | None =>
      match find_with_parent (is_named ["body"]) soup with
      | Some (parent_name, body) => (Some parent_name, body)
      | None => (None, soup)
      end
  end.

Definition UNWANTED : list string :=
  ["script"; "style"; "nav"; "footer"; "header"; "aside"].
Definition NOISE : list Selector :=
  [ByClass "breadcrumb"; ByClass "sidebar"; ByClass "toc";
   ByClass "navigation"; ByAttr "role" "navigation"].

(** The content root with the unwanted elements removed. *)
Definition clean_content (content : Node) : Node :=
  foldl (fun content sel => decompose_all (selects sel) content)
        (decompose_all (is_named UNWANTED) content) NOISE.

Definition _html_to_markdown (html base_url : string) : option string :=
  soup ← BeautifulSoup html;
  let '(parent, content) := find_content soup in
  let content := clean_content content in
  markdown_lines ← _process_element parent content [] base_url 0;
  let markdown := PyStr.join (String "010" "") markdown_lines in
  let markdown := PyStr.collapse_newlines 0 markdown in
  Some (PyStr.strip markdown).

End Converter.

(** ** The link extractor *)

Section Links.
Context `{Externals}.

(** [a["href"]] for the anchors [soup.find_all("a", href=True)] returns. *)
Definition has_href (n : Node) : bool :=
  is_named ["a"] n && bool_decide (is_Some (get_attr n "href")).

Definition anchor_hrefs (soup : Node) : list string :=
  (fun a => get_attr_or a "href" "") <$> find_all has_href soup.

(** The body of the loop of [_extract_links] for one [href]. *)
Definition add_link (base_url : string) (links : list string) (href : string)
    : option (list string) :=
  if PyStr.contains "/documentation/en-us/unreal-engine" href
     || PyStr.startswith href "/"
  then
    full_url ← urljoin base_url href;
    if PyStr.contains "dev.epicgames.com/documentation" full_url
    then
      let full_url := PyStr.split_head "?" (PyStr.split_head "#" full_url) in
      Some (if bool_decide (full_url ∈ links) then links
            else links ++ [full_url])
    else Some links
  else Some links.

(** The loop of [_extract_links] over the references that remain. *)
Fixpoint add_links (base_url : string) (links hrefs : list string)
    : option (list string) :=
  match hrefs with
  | [] => Some links
  | href :: rest =>
      links ← add_link base_url links href;
      add_links base_url links rest
  end.

Definition _extract_links (html base_url : string) : option (list string) :=
  soup ← BeautifulSoup html;
  add_links base_url [] (anchor_hrefs soup).

End Links.

(** [c in s] for a character. *)
Fixpoint has_char (c : ascii) (s : string) : bool :=
  match s with
  | "" => false
  | String c' s' => Ascii.eqb c' c || has_char c s'
  end.


(** ** Scraping one page *)

(** The dictionary [scrape_page] returns. *)
Record Page : Type := mkPage {
  url : string;
  title : string;
  markdown : string;
  links : list string;
  scraped_at : string;
}.

Section ScrapePage.
Context `{Externals}.

Definition page_title (soup : Node) : string :=
  let title_elem :=
    match find (is_named ["h1"]) soup with
    | Some e => Some e
    | None => find (is_named ["title"]) soup
    end in
  match title_elem with
  | Some e =>
      PyStr.replace " | Unreal Engine Documentation" ""
        (PyStr.strip (get_text e))
  | None => "Untitled"
  end.

(** An exception of the parser, the converter or the link extractor is not
    caught: it ends the computation. *)
Definition lift_option {A} (o : option A) : M A :=
  match o with
  | Some a => mret a
  | None => raise
  end.

Definition scrape_page (use_cache : bool) (url : string) : M (option Page) :=
  fetched ← _fetch_page use_cache url;
  match fetched with
  | None => mret None
  | Some html =>
      if truthy html then
        soup ← lift_option (BeautifulSoup html);
        let title := page_title soup in
        markdown ← lift_option (_html_to_markdown html url);
        links ← lift_option (_extract_links html url);
        scraped_at ← datetime_now;
        mret (Some (mkPage url title markdown links scraped_at))
      else mret None
  end.

End ScrapePage.

(** ** The crawl *)

(** One call of [scrape_page] by the crawl: the URL, the depth of its
    frontier entry and whether the call produced a page.  The script keeps
    no such record; the model does, to state what the crawl fetched. *)
Record Call : Type := mkCall {
  call_url : string;
  call_depth : Z;
  call_ok : bool;
}.

(** The local variables of [scrape_topic], and the calls made so far. *)
Record Crawl : Type := mkCrawl {
  scraped : list Page;
  visited : gset string;
  to_visit : list (string * Z);
  calls : list Call;
}.

(** How a run of the loop bounded by [fuel] iterations ends. *)
Inductive Run `{Externals} (A : Type) : Type :=
| Returned (result : A) (w : World)
| Raised
| OutOfFuel.
Arguments Returned {_ A} result w.
Arguments Raised {_ A}.
Arguments OutOfFuel {_ A}.

Section ScrapeTopic.
Context `{Externals}.

(** The frontier entries a scraped page adds. *)
Definition child_entries (visited : gset string) (current_depth : Z)
    (result : Page) : list (string * Z) :=
  (fun link => (link, (current_depth + 1)%Z))
  <$> filter (fun link => link ∉ visited) (links result).

(** One iteration of [while to_visit:]. *)
Definition crawl_iteration (use_cache : bool) (depth : Z) (c : Crawl)
    : M Crawl :=
  match to_visit c with
  | [] => mret c
  | (current_url, current_depth) :: rest =>
      if bool_decide (current_url ∈ visited c) then
        mret (mkCrawl (scraped c) (visited c) rest (calls c))
      else if (depth <? current_depth)%Z then
        mret (mkCrawl (scraped c) (visited c) rest (calls c))
      else
        let visited' := visited c ∪ {[current_url]} in
        result ← scrape_page use_cache current_url;
        match result with
        | Some page =>
            mret (mkCrawl
                    (scraped c ++ [page])
                    visited'
                    (if (current_depth <? depth)%Z
                     then rest ++ child_entries visited' current_depth page
                     else rest)
                    (calls c ++ [mkCall current_url current_depth true]))
        | None =>
            mret (mkCrawl (scraped c) visited' rest
                    (calls c ++ [mkCall current_url current_depth false]))
        end
  end.

(** The state after at most [n] iterations of the loop; the loop is over
    when [to_visit] is empty. *)
Fixpoint crawl_after (use_cache : bool) (depth : Z) (n : nat) (c : Crawl)
    : M Crawl :=
  match n with
  | O => mret c
  | S n' =>
      match to_visit c with
      | [] => mret c
      | _ => c' ← crawl_iteration use_cache depth c;
             crawl_after use_cache depth n' c'
      end
  end.

Definition topic_url (topic : string) : string :=
  let topic_slug := default topic (TOPIC_SHORTCUTS !! PyStr.lower topic) in
  BASE_URL +:+ "/" +:+ topic_slug.

Definition crawl_init (topic : string) : Crawl :=
  mkCrawl [] ∅ [(topic_url topic, 0%Z)] [].

(** The loop of [scrape_topic] with all its variables at the end. *)
Definition crawl_run (use_cache : bool) (topic : string) (depth : Z)
    (fuel : nat) (w : World) : Run Crawl :=
  match crawl_after use_cache depth fuel (crawl_init topic) w with
  | None => Raised
  | Some (c, w') =>
      match to_visit c with
      | [] => Returned c w'
      | _ => OutOfFuel
      end
  end.

(** [scrape_topic(topic, depth)]: the list [scraped]. *)
Definition scrape_topic (use_cache : bool) (topic : string) (depth : Z)
    (fuel : nat) (w : World) : Run (list Page) :=
  match crawl_run use_cache topic depth fuel w with
  | Returned c w' => Returned (scraped c) w'
  | Raised => Raised
  | OutOfFuel => OutOfFuel
  end.

End ScrapeTopic.

(** ** A small site to run the scraper on *)

Module Site.

Definition A : string := BASE_URL +:+ "/behavior-tree-in-unreal-engine".
Definition B : string := BASE_URL +:+ "/blackboard-in-unreal-engine".
Definition C : string := BASE_URL +:+ "/artificial-intelligence".
Definition D : string := BASE_URL +:+ "/navigation-system-in-unreal-engine".
Definition missing : string := BASE_URL +:+ "/missing".
Definition flaky : string := BASE_URL +:+ "/flaky".
Definition blank : string := BASE_URL +:+ "/blank".
Definition broken : string := BASE_URL +:+ "/broken".
Definition unjoinable : string := BASE_URL +:+ "/unjoinable".
Definition long_title : string := BASE_URL +:+ "/long-title".

(** A link to a copy of a documentation page kept by another site. *)
Definition archived : string :=
  "https://web.archive.org/web/2024/https://dev.epicgames.com/documentation/en-us/unreal-engine/foo".

(** The server: [A], [B], [C] and [D] are pages, [blank] answers with an
    empty body, [broken] with markup the parser gives up on, [unjoinable]
    with a link [urljoin] raises on, [long_title] with a heading of 300
    letters, [flaky] times out and everything else is not found. *)
Definition respond (url : string) : GetOutcome :=
  if String.eqb url A then Response 200 "page-a"
  else if String.eqb url B then Response 200 "page-b"
  else if String.eqb url C then Response 200 "page-c"
  else if String.eqb url D then Response 200 "page-d"
  else if String.eqb url blank then Response 200 ""
  else if String.eqb url broken then Response 200 "<![foo[bar]]>"
  else if String.eqb url unjoinable
  then Response 200 "<body><a href=//[>x</a></body>"
  else if String.eqb url long_title then Response 200 "page-long"
  else if String.eqb url flaky then Raises Timeout
  else Response 404 "Not Found".

(** An element no case of the converter recognises, with text in it. *)
Definition stray : Node := Tag "foo" [] [] [Text NavigableString "hello"].

Definition anchor (href text : string) : Node :=
  Tag "a" [] [("href", href)] [Text NavigableString text].

Definition page (heading : string) (body : list Node) : list Node :=
  [Tag "html" [] []
     [Tag "body" [] []
        (Tag "h1" [] [] [Text NavigableString heading] :: body)]].

(** [n] [div] elements, each the only child of the one before, around a
    text. *)
Fixpoint nested (n : nat) (text : string) : Node :=
  match n with
  | O => Text NavigableString text
  | S n' => Tag "div" [] [] [nested n' text]
  end.


(** Reading [div]s nested in each other around a text: what
    [nested_markup] wrote after [<body>]. *)
Fixpoint read_nested (s : string) : Node :=
  match s with
  | String "<" (String "d" (String "i" (String "v" (String ">" rest)))) =>
      Tag "div" [] [] [read_nested rest]
  | _ => Text NavigableString (PyStr.split_head "<" s)
  end.

(** The parser on the bodies the server sends: [A] links to [B] and [C],
    [B] links to [D] and [C] links to [missing].  A body that starts with
    two [div]s is read as [nested_markup] wrote it.  The parser gives up on
    a marked section with an unknown keyword, as [html.parser] does. *)
Definition parse (html : string) : option (list Node) :=
  if String.eqb html "page-a"
  then Some (page "Behavior Trees" [anchor B "Blackboard"; anchor C "AI"])
  else if String.eqb html "page-b"
  then Some (page "Blackboard" [anchor D "Navigation"])
  else if String.eqb html "page-c"
  then Some (page "AI" [anchor missing "Missing"])
  else if String.eqb html "page-d"
  then Some (page "Navigation" [])
  else if String.eqb html "page-mirror"
  then Some (page "Mirror" [anchor archived "Archived copy"])
  else if String.eqb html "page-long"
  then Some (page (PyStr.repeat "a" 300) [])
  else if String.eqb html "<body><table>hello</table></body>"
  then Some [Tag "body" [] [] [Tag "table" [] []
                                 [Text NavigableString "hello"]]]
  else if String.eqb html "<body><ul><foo>hello</foo></ul></body>"
  then Some [Tag "body" [] [] [Tag "ul" [] [] [stray]]]
  else if String.eqb html "<body><div><foo>hello</foo></div></body>"
  then Some [Tag "body" [] [] [Tag "div" [] [] [stray]]]
  else if String.eqb html "<body><a href=//[>x</a></body>"
  then Some [Tag "body" [] [] [anchor "//[" "x"]]
  else if PyStr.startswith html "<body><div><div>"
  then Some [Tag "body" [] []
               [read_nested (String.substring 6 (String.length html) html)]]
  else if String.eqb html "<![foo[bar]]>"
  then None
  else Some [].

(** The references of the site are absolute, and [urljoin] leaves an
    absolute reference as it is; it raises on [//[], the start of an
    address that is never closed. *)
Definition join_reference (base_url href : string) : option string :=
  if String.eqb href "//[" then None else Some href.

Definition externals : Externals := {|
  Env := unit;
  http_get := fun e url => (respond url, e);
  md5_hexdigest := fun url => url;
  html_parser := parse;
  urljoin := join_reference;
  now_isoformat := fun _ => "2026-01-25T12:00:00";
  recursion_limit := 1000;
  name_fits := fun name => String.length name <=? 255;
  mkdir_ok := fun _ => true;
  linesep := String "010" "";
|}.

(** The world before anything was fetched and cached. *)
Definition fresh : World := mkWorld externals tt ∅ [].

(** A world in which the cache file of [A] exists. *)
Definition warm : World :=
  mkWorld externals tt {[ _get_cache_path (H := externals) A := "page-a" ]} [].

End Site.

(** The crawl of the topic [bt] to depth 2, without the cache: [A], then
    [B] and [C], then [D] and the missing page. *)
Definition site_crawl : Crawl * World :=
  Eval vm_compute in
    default (crawl_init "bt", Site.fresh)
            (crawl_after (H := Site.externals) false 2 10
               (crawl_init "bt") Site.fresh).

(** The first three calls of [scrape_page] of the crawl of [bt] with the
    cache in use, for [A], [B] and [C]: what each returns and the world it
    leaves, with the cache files written so far. *)
Definition site_scrape (url : string) (w : World) : Page * World :=
  match scrape_page (H := Site.externals) true url w with
  | Some (Some page, w') => (page, w')
  | _ => (mkPage url "" "" [] "", w)
  end.

Definition site_cached_A : Page * World :=
  Eval vm_compute in site_scrape Site.A Site.fresh.

Definition site_cached_B : Page * World :=
  Eval vm_compute in site_scrape Site.B site_cached_A.2.

Definition site_cached_C : Page * World :=
  Eval vm_compute in site_scrape Site.C site_cached_B.2.

(** ** Tables as they are written *)

(** A cell, a row and a table with nothing but text in the cells: a header
    row of [th] cells followed by body rows of [td] cells. *)
Definition text_cell (tag text : string) : Node :=
  Tag tag [] [] [Text NavigableString text].

Definition text_row (tag : string) (texts : list string) : Node :=
  Tag "tr" [] [] (text_cell tag <$> texts).

Definition text_table (header : list string) (rows : list (list string))
    : Node :=
  Tag "table" [] [] (text_row "th" header :: (text_row "td" <$> rows)).

Definition strip_cells (cells : list string) : list string :=
  PyStr.strip <$> cells.

(** The Markdown lines of a table whose header cells are [headers] and
    whose body rows are [rows], each row with its own cells. *)
Definition table_lines (headers : list string) (rows : list (list string))
    : list string :=
  [""]
  ++ match headers with
     | [] => []
     | _ => [table_line headers;
             table_line (replicate (length headers) "---")]
     end
  ++ (table_line <$> filter (fun cells => cells ≠ []) rows)
  ++ [""].

(** ** What the crawl keeps true *)

(** The relation between the variables of the loop and the calls made so
    far, for a crawl to depth [depth]. *)
Record crawl_inv (depth : Z) (c : Crawl) : Prop := mkCrawlInv {
  (** no URL was asked for twice *)
  inv_calls_nodup : NoDup (call_url <$> calls c);
  (** the visited set is the set of the URLs asked for *)
  inv_visited : visited c = list_to_set (call_url <$> calls c);
  (** the pages are those of the calls that gave one, in the order of the
      calls *)
  inv_scraped :
    url <$> scraped c
    = call_url <$> filter (fun k => call_ok k = true) (calls c);
  (** a call is made for a frontier entry of depth at most [depth] *)
  inv_call_depth : Forall (fun k => (0 ≤ call_depth k ≤ depth)%Z) (calls c);
  (** the depths of the frontier entries *)
  inv_frontier : Forall (fun e => (0 ≤ e.2 ≤ Z.max depth 0)%Z) (to_visit c);
}.

(** The calls that gave no page. *)
Definition failed_calls (c : Crawl) : list Call :=
  filter (fun k => call_ok k = false) (calls c).

(** The levels a frontier entry still has below it: the measure by which
    the loop of [scrape_topic] ends. *)
Definition budget (depth : Z) (e : string * Z) : nat :=
  Z.to_nat (depth + 1 - e.2).

(** Breadth first: the frontier holds entries of one depth [d] followed by
    entries of depth [d + 1], and the calls made so far are at depths up to
    [d], in non-decreasing order. *)
Definition bfs_inv (c : Crawl) : Prop :=
  exists (d : Z) (q1 q2 : list (string * Z)),
    to_visit c = q1 ++ q2
    /\ Forall (fun e => e.2 = d) q1
    /\ Forall (fun e => e.2 = (d + 1)%Z) q2
    /\ Forall (fun k => (call_depth k ≤ d)%Z) (calls c)
    /\ StronglySorted Z.le (call_depth <$> calls c).

(** ** Counting requests *)

#[global] Instance SleepReason_eq_dec : EqDecision SleepReason.
Proof. solve_decision. Defined.

#[global] Instance Event_eq_dec : EqDecision Event.
Proof. solve_decision. Defined.

(** The requests a history sends to [u]. *)
Definition requests_to (u : string) (evs : list Event) : nat :=
  length (filter (fun ev => ev = EvGet u) evs).

(** The calls of [scrape_page] a crawl made for [u]. *)
Definition calls_for (u : string) (c : Crawl) : nat :=
  length (filter (fun k => call_url k = u) (calls c)).

(** What a crawl has sent since [w0]: at most [MAX_RETRIES] requests for
    each call of [scrape_page], all to the URL of the call. *)
Definition requests_inv `{Externals} (w0 : World) (c : Crawl) (w : World)
    : Prop :=
  exists evs,
    trace w = trace w0 ++ evs
    /\ forall u, requests_to u evs ≤ MAX_RETRIES * calls_for u c.

(** ** Measures of a history *)

(** The seconds a history spends in [time.sleep]. *)
Definition total_sleep (evs : list Event) : Z :=
  foldr (fun ev acc =>
           match ev with
           | EvSleep _ seconds => (seconds + acc)%Z
           | EvGet _ => acc
           end) 0%Z evs.

(** The longest a retry loop over [attempts] can sleep in backoff. *)
Definition backoff_budget (attempts : list nat) : Z :=
  foldr (fun (attempt : nat) acc =>
           ((if (attempt <? MAX_RETRIES - 1)%nat
             then 2 ^ Z.of_nat attempt else 0) + acc)%Z) 0%Z attempts.

(** ** The references the link extractor keeps *)




(** ** Where the URLs of a crawl come from *)

(** A URL at depth [d] is the start URL at depth 0, or a link of a page the
    crawl scraped at depth [d - 1]. *)
Definition discovered (start : string) (c : Crawl) (u : string) (d : Z)
    : Prop :=
  (u = start /\ d = 0%Z)
  \/ exists page,
       page ∈ scraped c
       /\ u ∈ links page
       /\ mkCall (url page) (d - 1) true ∈ calls c.

(** Every frontier entry and every call of a crawl is discovered. *)
Definition provenance_inv (start : string) (c : Crawl) : Prop :=
  Forall (fun e => discovered start c e.1 e.2) (to_visit c)
  /\ Forall (fun k => discovered start c (call_url k) (call_depth k)) (calls c).

(** ** Shapes of text *)

(** Three newlines in a row, what [_html_to_markdown] collapses. *)
Definition NEWLINE : ascii := "010"%char.
Definition three_newlines : string :=
  String NEWLINE (String NEWLINE (String NEWLINE "")).

(** The number of newlines a string begins with. *)
Fixpoint leading_newlines (s : string) : nat :=
  match s with
  | "" => 0
  | String c s' => if Ascii.eqb c NEWLINE then S (leading_newlines s') else 0
  end.

(** A string that does not begin with white space. *)
Definition starts_clean (s : string) : Prop :=
  match s with
  | "" => True
  | String c _ => PyStr.isspace c = false
  end.

(** ** What the converter is given *)

(** An element [_html_to_markdown] removes before it converts: one of the
    unwanted tags, or a match of one of the noise selectors. *)
Definition is_noise (n : Node) : bool :=
  is_named UNWANTED n || existsb (fun sel => selects sel n) NOISE.

(** A test that looks at the tag, the classes and the attributes of a node
    only, not at what is below it. *)
Definition shallow (p : Node -> bool) : Prop :=
  forall bad n, p (decompose_all bad n) = p n.

(** The content [_html_to_markdown] converts, with the name of its parent:
    the content root of the parsed document, cleaned. *)
Definition content_of `{Externals} (html : string)
    : option (option string * Node) :=
  soup ← BeautifulSoup html;
  Some ((find_content soup).1, clean_content (find_content soup).2).

(** What [scrape_page] makes of a body that is not empty, at the time
    [now]; [None] stands for the exception of the parser, the converter or
    the link extractor. *)
Definition page_of `{Externals} (url html now : string) : option Page :=
  soup ← BeautifulSoup html;
  markdown ← _html_to_markdown html url;
  links ← _extract_links html url;
  Some (mkPage url (page_title soup) markdown links now).

(** ** What makes the converter raise *)




(** ** Reading a table line *)

(** The cells a reader of Markdown finds in a table line [| a | b |]: the
    texts between the bars, stripped. *)
Definition md_cells (line : string) : list string :=
  PyStr.strip <$> removelast (tail (PyStr.split "|" line)).

(** ** Regular expressions of the output writers *)

(** Every character of a string passes a test. *)
Fixpoint all_chars (P : ascii -> bool) (s : string) : bool :=
  match s with
  | "" => true
  | String c s' => P c && all_chars P s'
  end.

Module Re.

(** [\w] on one character (code points below 256): a letter, a digit or
    other numeric character, or the underscore. *)
Definition is_word (c : ascii) : bool :=
  let n := nat_of_ascii c in
  ((48 <=? n) && (n <=? 57)) || ((65 <=? n) && (n <=? 90)) || (n =? 95)
  || ((97 <=? n) && (n <=? 122))
  || (n =? 170) || (n =? 178) || (n =? 179) || (n =? 181) || (n =? 185)
  || (n =? 186) || ((188 <=? n) && (n <=? 190))
  || ((192 <=? n) && (n <=? 214)) || ((216 <=? n) && (n <=? 246))
  || (248 <=? n).

(** The class [[\w\s-]]. *)
Definition is_word_space_dash (c : ascii) : bool :=
  is_word c || PyStr.isspace c || Ascii.eqb c "-".

(** [re.sub(r"[^\w\s-]", "", s)] *)
Fixpoint sub_other (s : string) : string :=
  match s with
  | "" => ""
  | String c s' =>
      if is_word_space_dash c then String c (sub_other s') else sub_other s'
  end.

(** [re.sub(r"\s+", "-", s)]: [in_run] tells that the character before was
    white space. *)
Fixpoint sub_spaces (in_run : bool) (s : string) : string :=
  match s with
  | "" => ""
  | String c s' =>
      if PyStr.isspace c
      then if in_run then sub_spaces true s'
           else String "-" (sub_spaces true s')
      else String c (sub_spaces false s')
  end.

(** The part [.*?\]\(] of the image pattern: the number of characters up to
    and including the first [](] of the line, and what follows it. *)
Fixpoint to_bracket_paren (s : string) : option (nat * string) :=
  match s with
  | "" => None
  | String c s' =>
      match s' with
      | "" => None
      | String c' rest =>
          if Ascii.eqb c "]" && Ascii.eqb c' "(" then Some (2, rest)
          else if Ascii.eqb c NEWLINE then None
          else '(n, rest) ← to_bracket_paren s'; Some (S n, rest)
      end
  end.

(** The part [.*?\)]: the number of characters up to and including the first
    [)] of the line. *)
Fixpoint to_paren (s : string) : option nat :=
  match s with
  | "" => None
  | String c s' =>
      if Ascii.eqb c ")" then Some 1
      else if Ascii.eqb c NEWLINE then None
      else S <$> to_paren s'
  end.

(** The length of the match of [!\[.*?\]\(.*?\)] at the start of [s]. *)
Definition image_match (s : string) : option nat :=
  match s with
  | String c (String c' s') =>
      if Ascii.eqb c "!" && Ascii.eqb c' "[" then
        '(n1, rest) ← to_bracket_paren s';
        n2 ← to_paren rest;
        Some (2 + n1 + n2)
      else None
  | _ => None
  end.

(** [re.sub(r"!\[.*?\]\(.*?\)", "", s)]: [skip] counts the characters of a
    match that remain to be dropped. *)
Fixpoint sub_images_from (skip : nat) (s : string) : string :=
  match s with
  | "" => ""
  | String c s' =>
      match skip with
      | S k => sub_images_from k s'
      | O =>
          match image_match s with
          | Some n => sub_images_from (n - 1) s'
          | None => String c (sub_images_from 0 s')
          end
      end
  end.

Definition sub_images (s : string) : string := sub_images_from 0 s.

End Re.

(** ** Writing the output *)

(** The files of [output_dir] are a map from the name given to
    [output_dir / name] to the text written; [write_text] replaces what a
    file held, and raises an [OSError] for a name the file system does not
    take. *)

Definition NL : string := String NEWLINE "".
Definition DQUOTE : string := String "034" "".

(** A text given by its lines, as the triple-quoted strings of the script
    are. *)
Definition text_of_lines (lines : list string) : string := PyStr.join NL lines.

Section Writers.
Context `{Externals}.

(** The file name [save_markdown] makes of a title. *)
Definition markdown_filename (title : string) : string :=
  PyStr.lower (Re.sub_spaces false (Re.sub_other title)) +:+ ".md".

(** The text [save_markdown] writes. *)
Definition markdown_file (data : Page) : string :=
  text_of_lines
    ["---";
     "title: " +:+ title data;
     "source: " +:+ url data;
     "scraped_at: " +:+ scraped_at data;
     "---";
     "";
     "# " +:+ title data;
     "";
     markdown data;
     ""].

(** [save_markdown(data, filename)]: the files afterwards and the path
    returned.  [if not filename] holds for [None] and for the empty
    string. *)
(** [filepath.write_text(content, encoding="utf-8")] in the output
    directory; [None] stands for the [OSError]. *)
Definition write_output (filename content : string)
    (out : gmap string string) : option (gmap string string) :=
  if name_fits filename then Some (<[filename := content]> out) else None.

Definition save_markdown (data : Page) (filename : option string)
    (out : gmap string string) : option (gmap string string * string) :=
  let filename :=
    match filename with
    | Some name => if truthy name then name else markdown_filename (title data)
    | None => markdown_filename (title data)
    end in
  out ← write_output filename (markdown_file data) out;
  Some (out, filename).

(** The anchor [save_combined] makes of a title. *)
Definition anchor_of (title : string) : string :=
  PyStr.replace " " "-" (PyStr.lower (Re.sub_other title)).

Definition toc_entry (i : nat) (data : Page) : string :=
  PyStr.of_nat i +:+ ". [" +:+ title data +:+ "](#"
  +:+ anchor_of (title data) +:+ ")".

Definition combined_section (data : Page) : string :=
  text_of_lines
    ["";
     "---";
     "";
     "<a name=" +:+ DQUOTE +:+ anchor_of (title data) +:+ DQUOTE +:+ "></a>";
     "";
     "# " +:+ title data;
     "";
     "**Source:** " +:+ url data;
     "";
     markdown data;
     ""].

(** The text [save_combined] writes at the time [now]. *)
Definition combined_file (results : list Page) (now : string) : string :=
  let toc :=
    ("# Table of Contents" +:+ NL)
    :: imap (fun i data => toc_entry (i + 1) data) results in
  let sections := combined_section <$> results in
  text_of_lines
    ["---";
     "title: Unreal Engine Documentation (Combined)";
     "scraped_at: " +:+ now;
     "page_count: " +:+ PyStr.of_nat (length results);
     "---";
     "";
     PyStr.join NL toc;
     "";
     PyStr.join "" sections;
     ""].

Definition save_combined (results : list Page) (filename : string)
    (w : World) (out : gmap string string)
    : option (gmap string string * string) :=
  out ← write_output filename
          (combined_file results (now_isoformat (env w))) out;
  Some (out, filename).

(** The condensed text of a page in [create_claude_context]. *)
Definition condense (markdown : string) : string :=
  PyStr.collapse_newlines 0 (Re.sub_images markdown).

Definition context_section (data : Page) : string :=
  text_of_lines ["## " +:+ title data; ""; condense (markdown data); ""].

Definition context_file (results : list Page) (now : string) : string :=
  text_of_lines
    ["# Unreal Engine Reference Documentation";
     "";
     "This file contains scraped UE5 documentation for offline Claude context.";
     "Generated: " +:+ now;
     "Pages: " +:+ PyStr.of_nat (length results);
     "";
     "---";
     "";
     PyStr.join "---" (context_section <$> results);
     ""].

Definition create_claude_context (results : list Page) (filename : string)
    (w : World) (out : gmap string string)
    : option (gmap string string * string) :=
  out ← write_output filename
          (context_file results (now_isoformat (env w))) out;
  Some (out, filename).

End Writers.

(** ** The command line *)

(** What [parser.parse_args()] returns. *)
Record Args : Type := mkArgs {
  arg_url : option string;
  arg_topic : option string;
  arg_depth : Z;
  arg_combined : bool;
  arg_claude_context : bool;
  arg_output_dir : option string;
  arg_no_cache : bool;
  arg_list_topics : bool;
}.

(** Truth value of an optional string argument. *)
Definition given (o : option string) : bool :=
  match o with
  | Some s => truthy s
  | None => false
  end.

Section Main.
Context `{Externals}.

(** The pages [main] scrapes: one page for [--url], a crawl for
    [--topic]. *)
Definition main_results (args : Args) (fuel : nat) (w : World)
    : Run (list Page) :=
  let use_cache := negb (arg_no_cache args) in
  if given (arg_url args) then
    match scrape_page use_cache (default "" (arg_url args)) w with
    | Some (result, w') => Returned (option_list result) w'
    | None => Raised
    end
  else if given (arg_topic args) then
    scrape_topic use_cache (default "" (arg_topic args)) (arg_depth args)
      fuel w
  else Returned [] w.

(** The loop [for result in results: scraper.save_markdown(result)]. *)
Fixpoint save_each (results : list Page) (out : gmap string string)
    : option (gmap string string) :=
  match results with
  | [] => Some out
  | result :: rest =>
      saved ← save_markdown result None out;
      save_each rest saved.1
  end.

(** The files [main] writes for the pages it scraped; [None] stands for
    the [OSError] of a write. *)
Definition main_save (args : Args) (results : list Page) (w : World)
    (out : gmap string string) : option (gmap string string) :=
  if arg_combined args || arg_claude_context args then
    out ← (if arg_combined args
           then fst <$> save_combined results "ue_docs_combined.md" w out
           else Some out);
    if arg_claude_context args
    then fst <$> create_claude_context results "UE_CONTEXT.md" w out
    else Some out
  else save_each results out.

(** [Path(args.output_dir) if args.output_dir else None] *)
Definition output_dir_of (args : Args) : option string :=
  if given (arg_output_dir args) then arg_output_dir args else None.

(** [main()]: the exit status (0 for a normal return, 1 for [sys.exit(1)])
    and the files of the output directory afterwards. *)
Definition main (args : Args) (fuel : nat) (w : World)
    (out : gmap string string) : Run (Z * gmap string string) :=
  if arg_list_topics args then Returned (0%Z, out) w
  else if negb (given (arg_url args)) && negb (given (arg_topic args))
  then Returned (1%Z, out) w
  else if negb (mkdir_ok (output_dir_of args)) then Raised
  else
    match main_results args fuel w with
    | Returned results w' =>
        match results with
        | [] => Returned (1%Z, out) w'
        | _ =>
            match main_save args results w' out with
            | Some out' => Returned (0%Z, out') w'
            | None => Raised
            end
        end
    | Raised => Raised
    | OutOfFuel => OutOfFuel
    end.

End Main.

(** ** The command line on the small site *)

(** [--topic bt --depth 1 --no-cache], the same with [--combined], and
    [--url A --topic bt]. *)
Definition site_args : Args :=
  mkArgs None (Some "bt") 1 false false None true false.

Definition site_args_combined : Args :=
  mkArgs None (Some "bt") 1 true false None true false.

Definition site_args_url : Args :=
  mkArgs (Some Site.A) (Some "bt") 1 false false None false false.

(** The pages [main] scrapes on the small site with [site_args], and the
    world afterwards. *)
Definition site_pages : list Page * World :=
  Eval vm_compute in
    match main_results (H := Site.externals) site_args 3 Site.fresh with
    | Returned results w => (results, w)
    | _ => ([], Site.fresh)
    end.

(** The output directory after [main] with [site_args] and with
    [site_args_combined], started with no file in it. *)
Definition site_saved : gmap string string :=
  default ∅ (main_save (H := Site.externals) site_args
               site_pages.1 site_pages.2 ∅).

Definition site_saved_combined : gmap string string :=
  default ∅ (main_save (H := Site.externals) site_args_combined
               site_pages.1 site_pages.2 ∅).

(** * Properties *)

(** An equation between closed terms, decided by evaluating its left side. *)
Ltac by_evaluation :=
  match goal with |- _ = ?y => vm_cast_no_check (@eq_refl _ y) end.

(** ** Python string methods *)

Example strip_example : PyStr.strip "  a b " = "a b".
Proof. reflexivity. Qed.

Example collapse_example :
  PyStr.collapse_newlines 0 (String "010" (String "010" (String "010" (String "010" "x"))))
  = String "010" (String "010" "x").
Proof. reflexivity. Qed.

Example replace_example : PyStr.replace "ab" "-" "xabyabab" = "x-y--".
Proof. reflexivity. Qed.

Example split_example : PyStr.split "," "a,,b" = ["a"; ""; "b"].
Proof. reflexivity. Qed.


(** ** The fetcher *)

Section FetcherFacts.
Context `{Externals}.

Lemma bind_some {A B} (m : M A) (k : A -> M B) w a w' :
  m w = Some (a, w') -> (m ≫= k) w = k a w'.
Proof. intros Hm. unfold mbind, M_bind. by rewrite Hm. Qed.

(** One failed attempt: whatever the exception is, the loop sleeps (unless
    the attempt is the last) and goes on with the remaining attempts. *)
Lemma fetch_attempts_failure use_cache url attempt rest w exn :
  attempt_fails_with (env w) url exn ->
  fetch_attempts use_cache url (attempt :: rest) w =
  fetch_attempts use_cache url rest
    (mkWorld _ (http_get (env w) url).2 (cache_files w)
             (trace w ++ failed_attempt_events url attempt)).
Proof.
  unfold attempt_fails_with. intros Hfail. cbn [fetch_attempts].
  unfold mbind, M_bind, session_get, failed_attempt_events.
  destruct (http_get (env w) url) as [r e] eqn:Hget. cbn [fst snd] in *.
  rewrite Hfail. destruct (attempt <? MAX_RETRIES - 1); cbn.
  - by rewrite <- app_assoc.
  - done.
Qed.

(** When every attempt fails the loop runs to its end and returns [None]. *)
Lemma fetch_attempts_all_fail use_cache url attempts w :
  (forall e, exists exn, attempt_fails_with e url exn) ->
  exists w',
    fetch_attempts use_cache url attempts w = Some (None, w')
    /\ cache_files w' = cache_files w
    /\ trace w' = trace w ++ flat_map (failed_attempt_events url) attempts.
Proof.
  intros Hall. revert w. induction attempts as [|a rest IH]; intros w.
  - exists w. cbn. by rewrite app_nil_r.
  - destruct (Hall (env w)) as [exn Hexn].
    rewrite (fetch_attempts_failure _ _ _ _ _ _ Hexn).
    edestruct IH as (w' & Hrun & Hfiles & Htrace). exists w'.
    rewrite Hrun, Hfiles, Htrace. cbn [flat_map cache_files trace].
    by rewrite <- app_assoc.
Qed.

Lemma fetch_page_miss use_cache url w :
  cache_miss use_cache url w ->
  _fetch_page use_cache url w =
  fetch_attempts use_cache url (seq 0 MAX_RETRIES) w.
Proof.
  intros Hmiss. unfold _fetch_page, mbind, M_bind.
  destruct use_cache; cbn; [|done].
  unfold read_cache. by rewrite (Hmiss eq_refl).
Qed.

Lemma fetch_page_all_fail use_cache url w :
  cache_miss use_cache url w ->
  (forall e, exists exn, attempt_fails_with e url exn) ->
  exists w',
    _fetch_page use_cache url w = Some (None, w')
    /\ cache_files w' = cache_files w
    /\ trace w' = trace w ++
         [EvGet url; EvSleep ExponentialBackoff (2 ^ 0);
          EvGet url; EvSleep ExponentialBackoff (2 ^ 1);
          EvGet url].
Proof.
  intros Hmiss Hall. rewrite fetch_page_miss by done.
  destruct (fetch_attempts_all_fail use_cache url (seq 0 MAX_RETRIES) w Hall)
    as (w' & Hrun & Hfiles & Htrace).
  exists w'. by rewrite Hrun, Hfiles, Htrace.
Qed.

(** A successful fetch from the network ends with the request that
    succeeded followed by the one politeness delay; no other politeness delay
    precedes it. *)
Lemma fetch_attempts_success use_cache url attempts w body w' :
  fetch_attempts use_cache url attempts w = Some (Some body, w') ->
  exists evs,
    trace w' = trace w ++ evs ++ [EvGet url; EvSleep RateLimiting REQUEST_DELAY]
    /\ politeness_delays evs = [].
Proof.
  revert w. induction attempts as [|a rest IH]; intros w; [done|].
  destruct (raise_for_status (http_get (env w) url).1) as [exn|text] eqn:Hout.
  - rewrite (fetch_attempts_failure _ _ _ _ _ _ Hout). intros Hrun.
    apply IH in Hrun as (evs & Htrace & Hnone). cbn [trace] in Htrace.
    exists (failed_attempt_events url a ++ evs). split.
    + by rewrite Htrace, <- !app_assoc.
    + unfold politeness_delays in *. rewrite filter_app, Hnone, app_nil_r.
      unfold failed_attempt_events. by destruct (a <? MAX_RETRIES - 1).
  - cbn [fetch_attempts]. unfold mbind, M_bind, session_get.
    destruct (http_get (env w) url) as [r e]. cbn [fst] in Hout. rewrite Hout.
    destruct use_cache; cbn; intros [= <- <-]; exists []; cbn;
      by rewrite <- app_assoc.
Qed.

(** The fetcher always returns: it catches every failure of an attempt. *)
Lemma fetch_attempts_returns use_cache url attempts w :
  exists r w', fetch_attempts use_cache url attempts w = Some (r, w').
Proof.
  revert w. induction attempts as [|a rest IH]; intros w; [by eexists _, _|].
  destruct (raise_for_status (http_get (env w) url).1) as [exn|text] eqn:Hout.
  - rewrite (fetch_attempts_failure _ _ _ _ _ _ Hout). apply IH.
  - cbn [fetch_attempts]. unfold mbind, M_bind, session_get.
    destruct (http_get (env w) url) as [r e]. cbn [fst] in Hout. rewrite Hout.
    destruct use_cache; cbn; by eexists _, _.
Qed.

Lemma fetch_page_returns use_cache url w :
  exists r w', _fetch_page use_cache url w = Some (r, w').
Proof.
  unfold _fetch_page, mbind, M_bind. destruct use_cache.
  - unfold read_cache. cbv beta iota.
    destruct (cache_files w !! _get_cache_path url); [by eexists _, _|].
    apply fetch_attempts_returns.
  - unfold mret, M_ret. apply fetch_attempts_returns.
Qed.

(** C5: against an endpoint whose every attempt fails with a transient
    failure, a fetch that goes to the network makes exactly [MAX_RETRIES = 3]
    requests, sleeps [2 ^ attempt] seconds after the first and the second one
    (attempts are numbered from 0) and not after the third, and then returns
    [None], the script's failure value, instead of a body. *)
Theorem C5_transient_endpoint_three_attempts use_cache url w :
  cache_miss use_cache url w ->
  (forall e, exists exn,
      attempt_fails_with e url exn /\ is_transient exn = true) ->
  exists w',
    _fetch_page use_cache url w = Some (None, w')
    /\ trace w' = trace w ++
         [EvGet url; EvSleep ExponentialBackoff (2 ^ 0);
          EvGet url; EvSleep ExponentialBackoff (2 ^ 1);
          EvGet url]
    /\ network_attempts
         [EvGet url; EvSleep ExponentialBackoff (2 ^ 0);
          EvGet url; EvSleep ExponentialBackoff (2 ^ 1);
          EvGet url] = MAX_RETRIES.
Proof.
  intros Hmiss Hall.
  destruct (fetch_page_all_fail use_cache url w Hmiss) as (w' & Hrun & _ & Htr).
  { intros e. destruct (Hall e) as (exn & Hexn & _). by exists exn. }
  exists w'. by rewrite Hrun, Htr.
Qed.

(** C2 as the script has it: a failed attempt is retried whatever the failure
    is.  A permanent failure (a 4xx status) is handled like a timeout: the loop
    sleeps and asks again, and an endpoint that always answers with a
    permanent failure is requested [MAX_RETRIES] times, with both backoff
    sleeps, before the fetch returns [None]. *)
Theorem C2_permanent_failure_is_retried use_cache url w :
  cache_miss use_cache url w ->
  (forall e, exists exn,
      attempt_fails_with e url exn /\ is_permanent exn = true) ->
  (forall attempt rest exn,
      attempt_fails_with (env w) url exn ->
      fetch_attempts use_cache url (attempt :: rest) w =
      fetch_attempts use_cache url rest
        (mkWorld _ (http_get (env w) url).2 (cache_files w)
                 (trace w ++ failed_attempt_events url attempt)))
  /\ exists w',
    _fetch_page use_cache url w = Some (None, w')
    /\ trace w' = trace w ++
         [EvGet url; EvSleep ExponentialBackoff (2 ^ 0);
          EvGet url; EvSleep ExponentialBackoff (2 ^ 1);
          EvGet url].
Proof.
  intros Hmiss Hall. split.
  - intros attempt rest exn Hexn. by eapply fetch_attempts_failure.
  - destruct (fetch_page_all_fail use_cache url w Hmiss) as (w' & Hrun & _ & Htr).
    { intros e. destruct (Hall e) as (exn & Hexn & _). by exists exn. }
    exists w'. by rewrite Hrun, Htr.
Qed.

(** A text without carriage returns is read as it is. *)
Lemma universal_newlines_id s :
  has_char "013" s = false -> universal_newlines s = s.
Proof.
  induction s as [|c s IH]; [done|]. cbn [has_char universal_newlines].
  intros [-> Hs]%orb_false_iff. by rewrite IH.
Qed.

(** C6: with the cache in use, a URL whose cache file exists is answered
    with the content of that file, as [read_text] gives it (the content
    itself when it holds no carriage return), and the world is left as it
    was: no request and no sleep.  A fetch that goes to the
    network and succeeds ends with the successful request followed by one
    politeness delay of [REQUEST_DELAY] seconds, and that is the only
    politeness delay of the fetch. *)
Theorem C6_cache_hit_skips_delay url w :
  (forall body,
      cache_files w !! _get_cache_path url = Some body ->
      _fetch_page true url w = Some (Some (universal_newlines body), w)
      /\ (has_char "013" body = false -> universal_newlines body = body))
  /\ (forall use_cache body w',
      cache_miss use_cache url w ->
      _fetch_page use_cache url w = Some (Some body, w') ->
      exists evs,
        trace w' = trace w ++ evs
        /\ 1 <= network_attempts evs
        /\ politeness_delays evs = [EvSleep RateLimiting REQUEST_DELAY]).
Proof.
  split.
  - intros body Hhit. split; [|apply universal_newlines_id].
    unfold _fetch_page, mbind, M_bind, read_cache. cbn. by rewrite Hhit.
  - intros use_cache body w' Hmiss. rewrite fetch_page_miss by done.
    intros Hrun. apply fetch_attempts_success in Hrun as (evs & Htr & Hnone).
    exists (evs ++ [EvGet url; EvSleep RateLimiting REQUEST_DELAY]).
    split; [done|]. split.
    + unfold network_attempts. rewrite filter_app, length_app.
      change (length (filter _ [EvGet url; _])) with 1. lia.
    + unfold politeness_delays in *. by rewrite filter_app, Hnone.
Qed.

End FetcherFacts.

(** *** The fetcher on the small site *)

Section FetcherOnSite.
#[local] Existing Instance Site.externals.

(** C5 on the small site: [Site.flaky] times out at every attempt. *)
Lemma C5_witness :
  exists w',
    _fetch_page true Site.flaky Site.fresh = Some (None, w')
    /\ trace w' = trace Site.fresh ++
         [EvGet Site.flaky; EvSleep ExponentialBackoff (2 ^ 0);
          EvGet Site.flaky; EvSleep ExponentialBackoff (2 ^ 1);
          EvGet Site.flaky]
    /\ network_attempts
         [EvGet Site.flaky; EvSleep ExponentialBackoff (2 ^ 0);
          EvGet Site.flaky; EvSleep ExponentialBackoff (2 ^ 1);
          EvGet Site.flaky] = MAX_RETRIES.
Proof.
  apply (C5_transient_endpoint_three_attempts true Site.flaky Site.fresh).
  - intros _. reflexivity.
  - intros e. exists Timeout. split; reflexivity.
Defined.

(** C2, as the spec states it, fails: the first attempt on [Site.missing] is
    answered 404, a permanent failure, and the fetch does not fail at once:
    it asks three times and sleeps 1 and 2 seconds in between. *)
Lemma C2_not_found_is_requested_three_times :
  attempt_fails_with tt Site.missing (HTTPError 404)
  /\ is_permanent (HTTPError 404) = true
  /\ exists w',
       _fetch_page true Site.missing Site.fresh = Some (None, w')
       /\ network_attempts (trace w') = 3
       /\ trace w' =
            [EvGet Site.missing; EvSleep ExponentialBackoff 1;
             EvGet Site.missing; EvSleep ExponentialBackoff 2;
             EvGet Site.missing].
Proof.
  split; [reflexivity|]. split; [reflexivity|].
  eexists. split; [vm_compute; reflexivity|]. split; reflexivity.
Qed.

(** C2 as the script has it, on the small site: [Site.missing] is answered
    404 at every attempt. *)
Lemma C2_witness :
  (forall attempt rest exn,
      attempt_fails_with (env Site.fresh) Site.missing exn ->
      fetch_attempts true Site.missing (attempt :: rest) Site.fresh =
      fetch_attempts true Site.missing rest
        (mkWorld _ (http_get (env Site.fresh) Site.missing).2
                 (cache_files Site.fresh)
                 (trace Site.fresh ++ failed_attempt_events Site.missing attempt)))
  /\ exists w',
    _fetch_page true Site.missing Site.fresh = Some (None, w')
    /\ trace w' = trace Site.fresh ++
         [EvGet Site.missing; EvSleep ExponentialBackoff (2 ^ 0);
          EvGet Site.missing; EvSleep ExponentialBackoff (2 ^ 1);
          EvGet Site.missing].
Proof.
  apply (C2_permanent_failure_is_retried true Site.missing Site.fresh).
  - intros _. reflexivity.
  - intros e. exists (HTTPError 404). split; reflexivity.
Defined.

(** C6 on the small site: [Site.A] from a warm cache and from the
    network. *)
Lemma C6_witness :
  _fetch_page true Site.A Site.warm = Some (Some "page-a", Site.warm)
  /\ exists w' evs,
       _fetch_page true Site.A Site.fresh = Some (Some "page-a", w')
       /\ trace w' = trace Site.fresh ++ evs
       /\ 1 <= network_attempts evs
       /\ politeness_delays evs = [EvSleep RateLimiting REQUEST_DELAY].
Proof.
  destruct (C6_cache_hit_skips_delay Site.A Site.warm) as [Hhit _].
  destruct (C6_cache_hit_skips_delay Site.A Site.fresh) as [_ Hnet].
  split.
  - refine (proj1 (Hhit "page-a" _)). vm_compute. reflexivity.
  - eexists.
    destruct (Hnet true "page-a" _ ltac:(intros _; reflexivity) eq_refl)
      as (evs & Hevs).
    exists evs. split; [reflexivity|]. exact Hevs.
Defined.

End FetcherOnSite.

(** ** The shape of text *)

Section TextShape.

Lemma append_empty_r (s : string) : s +:+ "" = s.
Proof.
  induction s as [|c s IH]; [done|].
  change (String c s +:+ "") with (String c (s +:+ "")). by rewrite IH.
Qed.

Lemma append_assoc (s1 s2 s3 : string) :
  (s1 +:+ s2) +:+ s3 = s1 +:+ (s2 +:+ s3).
Proof.
  induction s1 as [|c s1 IH]; [done|].
  change (String c s1 +:+ s2) with (String c (s1 +:+ s2)).
  change (String c (s1 +:+ s2) +:+ s3) with (String c ((s1 +:+ s2) +:+ s3)).
  by rewrite IH.
Qed.

Lemma append_cons c (s1 s2 : string) :
  String c s1 +:+ s2 = String c (s1 +:+ s2).
Proof. done. Qed.

Lemma append_nil_l (s : string) : "" +:+ s = s.
Proof. done. Qed.

Lemma length_append (s1 s2 : string) :
  String.length (s1 +:+ s2) = String.length s1 + String.length s2.
Proof.
  induction s1 as [|c s1 IH]; [done|]. rewrite append_cons.
  cbn [String.length]. by rewrite IH.
Qed.
Lemma lstrip_starts_clean s : starts_clean (PyStr.lstrip s).
Proof.
  induction s as [|c s IH]; [done|]. cbn.
  by destruct (PyStr.isspace c) eqn:Hc.
Qed.

Lemma lstrip_clean s : starts_clean s -> PyStr.lstrip s = s.
Proof. destruct s as [|c s]; [done|]. cbn. by intros ->. Qed.

Lemma rstrip_starts_clean s : starts_clean s -> starts_clean (PyStr.rstrip s).
Proof.
  destruct s as [|c s]; [done|]. cbn. intros Hc.
  destruct (PyStr.rstrip s); [by rewrite Hc|done].
Qed.

Lemma rstrip_rstrip s : PyStr.rstrip (PyStr.rstrip s) = PyStr.rstrip s.
Proof.
  induction s as [|c s IH]; [done|]. cbn.
  destruct (PyStr.rstrip s) as [|c2 r] eqn:Hr.
  - destruct (PyStr.isspace c) eqn:Hc; [done|]. cbn. by rewrite Hc.
  - cbn [PyStr.rstrip]. cbn [PyStr.rstrip] in IH.
    destruct (PyStr.rstrip r) as [|c3 r3] eqn:Hr3.
    + destruct (PyStr.isspace c2); [done|].
      by injection IH as ->.
    + by rewrite IH.
Qed.

(** [strip] is idempotent. *)
Lemma strip_strip s : PyStr.strip (PyStr.strip s) = PyStr.strip s.
Proof.
  unfold PyStr.strip.
  rewrite (lstrip_clean (PyStr.rstrip (PyStr.lstrip s)))
    by apply rstrip_starts_clean, lstrip_starts_clean.
  apply rstrip_rstrip.
Qed.

Lemma prefix_trans a : forall b c,
  String.prefix a b = true -> String.prefix b c = true ->
  String.prefix a c = true.
Proof.
  induction a as [|x a IH]; intros [|y b] [|z c]; cbn; try done.
  destruct (ascii_dec x y) as [->|]; [|done].
  destruct (ascii_dec y z) as [->|]; [|done].
  apply IH.
Qed.

Lemma rstrip_prefix s : String.prefix (PyStr.rstrip s) s = true.
Proof.
  induction s as [|c s IH]; [done|]. cbn [PyStr.rstrip].
  destruct (PyStr.rstrip s) as [|c2 r].
  - destruct (PyStr.isspace c); [done|]. cbn. by destruct (ascii_dec c c).
  - cbn. by destruct (ascii_dec c c).
Qed.

Lemma contains_of_prefix needle p : forall s,
  String.prefix p s = true ->
  PyStr.contains needle p = true -> PyStr.contains needle s = true.
Proof.
  induction p as [|c p IH]; intros s Hp.
  - destruct needle as [|x needle]; [|done]. intros _. by destruct s.
  - destruct s as [|c' s]; [done|]. cbn in Hp.
    destruct (ascii_dec c c') as [<-|]; [|done].
    cbn [PyStr.contains]. intros [Hn|Hn]%orb_prop.
    + assert (String.prefix needle (String c s) = true) as ->; [|done].
      eapply prefix_trans; [done|]. cbn. by destruct (ascii_dec c c).
    + rewrite (IH s Hp Hn). apply orb_true_r.
Qed.

Lemma contains_of_lstrip needle s :
  PyStr.contains needle (PyStr.lstrip s) = true ->
  PyStr.contains needle s = true.
Proof.
  induction s as [|c s IH]; [done|]. cbn [PyStr.lstrip].
  destruct (PyStr.isspace c); [|done].
  intros Hn%IH. cbn [PyStr.contains]. rewrite Hn. apply orb_true_r.
Qed.

(** What is in the stripped string is in the string. *)
Lemma contains_of_strip needle s :
  PyStr.contains needle (PyStr.strip s) = true ->
  PyStr.contains needle s = true.
Proof.
  unfold PyStr.strip. intros Hn. apply contains_of_lstrip.
  eapply contains_of_prefix; [apply rstrip_prefix|done].
Qed.

Lemma prefix_three_newlines c s :
  String.prefix three_newlines (String c s)
  = Ascii.eqb c NEWLINE && (2 <=? leading_newlines s).
Proof.
  unfold three_newlines. cbn [String.prefix].
  destruct (ascii_dec NEWLINE c) as [<-|Hne].
  - cbn [Ascii.eqb]. rewrite Ascii.eqb_refl. cbn [andb].
    destruct s as [|c1 s]; [done|]. cbn [String.prefix leading_newlines].
    destruct (ascii_dec NEWLINE c1) as [<-|Hne1].
    + rewrite Ascii.eqb_refl. destruct s as [|c2 s]; [done|].
      cbn [String.prefix leading_newlines].
      destruct (ascii_dec NEWLINE c2) as [<-|Hne2].
      * rewrite Ascii.eqb_refl. by destruct s.
      * by apply not_eq_sym, Ascii.eqb_neq in Hne2 as ->.
    + by apply not_eq_sym, Ascii.eqb_neq in Hne1 as ->.
  - by apply not_eq_sym, Ascii.eqb_neq in Hne as ->.
Qed.

(** After [re.sub(r"\n{3,}", "\n\n", s)] no three newlines are left. *)
Lemma collapse_newlines_shape s : forall run,
  leading_newlines (PyStr.collapse_newlines run s) ≤ 2 - run
  /\ PyStr.contains three_newlines (PyStr.collapse_newlines run s) = false.
Proof.
  induction s as [|c s IH]; intros run; [split; [cbn; lia|done]|].
  cbn [PyStr.collapse_newlines]. fold NEWLINE.
  destruct (Ascii.eqb c NEWLINE) eqn:Hc.
  - destruct (IH (S run)) as [Hlead Hnone].
    destruct (run <? 2) eqn:Hrun.
    + apply Nat.ltb_lt in Hrun. split.
      * cbn [leading_newlines]. rewrite Hc. lia.
      * cbn [PyStr.contains]. rewrite prefix_three_newlines, Hc, Hnone.
        cbn [andb]. rewrite orb_false_r. apply Nat.leb_gt. lia.
    + split; [lia|done].
  - destruct (IH 0) as [_ Hnone]. split.
    + cbn [leading_newlines]. rewrite Hc. lia.
    + cbn [PyStr.contains]. by rewrite prefix_three_newlines, Hc, Hnone.
Qed.




Lemma rstrip_append a b :
  PyStr.rstrip (a +:+ b)
  = match PyStr.rstrip b with
    | "" => PyStr.rstrip a
    | r => a +:+ r
    end.
Proof.
  induction a as [|c a IH].
  - rewrite append_nil_l. by destruct (PyStr.rstrip b).
  - rewrite append_cons. cbn [PyStr.rstrip]. rewrite IH.
    destruct (PyStr.rstrip b) as [|c' r]; [done|].
    rewrite append_cons. by destruct a.
Qed.












End TextShape.

(** ** The document converter *)

Section NodeInduction.
Variable P : Node -> Prop.
Hypothesis P_text : forall kind s, P (Text kind s).
Hypothesis P_tag : forall name classes attrs children,
  Forall P children -> P (Tag name classes attrs children).

Fixpoint Node_ind_nested (n : Node) : P n :=
  match n with
  | Text kind s => P_text kind s
  | Tag name classes attrs children =>
      P_tag name classes attrs children
        ((fix go (cs : list Node) : Forall P cs :=
            match cs with
            | [] => Forall_nil_2 P
            | c :: cs' => Forall_cons_2 P c cs' (Node_ind_nested c) (go cs')
            end) children)
  end.
End NodeInduction.

Section ConverterTraversal.
Context `{Externals}.

Lemma container_not_other tag :
  tag ∈ CONTAINERS ->
  (tag ∉ HEADINGS) ∧ tag ≠ "p" ∧ tag ≠ "pre" ∧ tag ≠ "code"
  ∧ (tag ∉ ["ul"; "ol"]) ∧ tag ≠ "table" ∧ tag ≠ "a" ∧ tag ≠ "img"
  ∧ tag ≠ "blockquote".
Proof.
  unfold CONTAINERS, HEADINGS. rewrite !elem_of_cons, elem_of_nil.
  intros [->|[->|[->|[->|[->|[->|[]]]]]]]; repeat split; compute_done.
Qed.

(** The container case is the loop over the children. *)
Lemma process_element_container parent name classes attrs children lines
    base_url depth :
  recurses (Tag name classes attrs children) = true ->
  _process_element parent (Tag name classes attrs children) lines base_url depth
  = process_children name children lines base_url (depth + 1).
Proof.
  cbn [recurses]. intros [Hc Hcallout]%andb_prop.
  apply bool_decide_eq_true in Hc.
  destruct (container_not_other _ Hc)
    as (Hh & Hp & Hpre & Hcode & Hlist & Htable & Ha & Himg & Hquote).
  cbn [_process_element].
  rewrite (bool_decide_eq_false_2 _ Hh), (bool_decide_eq_false_2 _ Hp),
    (bool_decide_eq_false_2 _ Hpre), (bool_decide_eq_false_2 _ Hcode).
  cbn [mbind option_bind].
  rewrite (bool_decide_eq_false_2 _ Hlist), (bool_decide_eq_false_2 _ Htable),
    (bool_decide_eq_false_2 _ Ha), (bool_decide_eq_false_2 _ Himg),
    (bool_decide_eq_false_2 _ Hquote).
  apply negb_true_iff in Hcallout. rewrite Hcallout. cbn [orb].
  rewrite (bool_decide_eq_true_2 _ Hc).
  revert lines. induction children as [|child rest IH]; intros lines; [done|].
  cbn [process_children]. destruct (fits_stack (depth + 1)); [|done].
  destruct (_process_element (Some name) child lines base_url (depth + 1));
    [apply IH|done].
Qed.




End ConverterTraversal.

Section ConverterFacts.
Context `{Externals}.











End ConverterFacts.

Section ConverterOutput.
Context `{Externals}.








End ConverterOutput.

Section ConverterReturns.
Context `{Externals}.




(** The conversion is the traversal of the cleaned content, joined,
    collapsed and stripped; it raises when the parser does. *)
Lemma html_to_markdown_of_content html base_url :
  _html_to_markdown html base_url
  = '(parent, content) ← content_of html;
    lines ← _process_element parent content [] base_url 0;
    Some (PyStr.strip (PyStr.collapse_newlines 0
                         (PyStr.join (String NEWLINE "") lines))).
Proof.
  unfold _html_to_markdown, content_of.
  destruct (BeautifulSoup html) as [soup|]; [|done]. cbn [mbind option_bind].
  by destruct (find_content soup).
Qed.




End ConverterReturns.

Section ConverterOnSite.
#[local] Existing Instance Site.externals.



End ConverterOnSite.

(** *** The converter and the link extractor at work *)

Section Examples.
#[local] Existing Instance Site.externals.

Example heading_example :
  _process_element (Some "body")
    (Tag "h2" [] [] [Text NavigableString " Overview "]) [] Site.A 0
  = Some [""; "## Overview"; ""].
Proof. vm_compute. reflexivity. Qed.

Example ordered_list_example :
  _process_element (Some "body")
    (Tag "ol" [] []
       [Tag "li" [] [] [Text NavigableString "one"];
        Text NavigableString "outside an item";
        Tag "li" [] [] [Tag "b" [] [] [Text NavigableString "two"]]])
    [] Site.A 0
  = Some [""; "1. one"; "2. **two**"; ""].
Proof. vm_compute. reflexivity. Qed.

Example code_block_example :
  _process_element (Some "body")
    (Tag "pre" [] []
       [Tag "code" ["language-cpp"] [] [Text NavigableString "int x;"]]) []
    Site.A 0
  = Some [""; "```cpp"; "int x;"; "```"; ""].
Proof. vm_compute. reflexivity. Qed.

Example callout_example :
  _process_element (Some "body")
    (Tag "div" ["note"; "callout"] [] [Text NavigableString "Mind the gap."])
    [] Site.A 0
  = Some [""; "> Mind the gap."; ""].
Proof. vm_compute. reflexivity. Qed.

Example inline_code_needs_parent :
  _process_element None (Tag "code" [] [] [Text NavigableString "x"]) []
    Site.A 0 = None
  /\ _process_element (Some "div")
       (Tag "code" [] [] [Text NavigableString "x"]) [] Site.A 0
     = Some ["`x`"].
Proof. split; vm_compute; reflexivity. Qed.

(** The text of a heading leaves out a comment and the text of a script
    inside it. *)
Example get_text_example :
  get_text (Tag "h1" [] []
              [Text NavigableString "Title";
               Text Comment "hidden";
               Tag "script" [] [] [Text Script "track()"]])
  = "Title"
  /\ get_text (Tag "script" [] [] [Text Script "track()"]) = "track()"
  /\ get_text (Text Comment "hidden") = "".
Proof. repeat split; vm_compute; reflexivity. Qed.

Example links_example :
  add_links Site.A []
    [Site.B +:+ "#top"; Site.B +:+ "?page=2"; "https://example.com/";
     "mailto:docs@example.com"; Site.C]
  = Some [Site.B; Site.C].
Proof. vm_compute. reflexivity. Qed.

Example scrape_page_example :
  fst <$> scrape_page false Site.B Site.fresh
  = Some (Some (mkPage Site.B "Blackboard"
                  ("# Blackboard" +:+ String "010" (String "010"
                     ("[Navigation](" +:+ Site.D +:+ ")")))
                  [Site.D] "2026-01-25T12:00:00")).
Proof. vm_compute. reflexivity. Qed.

End Examples.

(** ** Tables *)

Section TableFacts.
Context `{Externals}.

Lemma get_text_text_cell tag text :
  tag ∈ ["th"; "td"] -> get_text (text_cell tag text) = text.
Proof.
  intros [->|[->|[]%elem_of_nil]%elem_of_cons]%elem_of_cons;
    cbn; apply append_empty_r.
Qed.

Lemma descendants_text_row tag texts :
  descendants (text_row tag texts)
  = flat_map (fun text => [("tr", text_cell tag text);
                           (tag, Text NavigableString text)]) texts.
Proof.
  unfold text_row. cbn [descendants].
  induction texts as [|text texts IH]; [done|].
  cbn [fmap list_fmap flat_map]. cbn. by rewrite IH.
Qed.

Lemma row_cells_text_row tag texts :
  tag ∈ ["th"; "td"] ->
  row_cells (text_row tag texts) = PyStr.strip <$> texts.
Proof.
  intros Htag. unfold row_cells, find_all. rewrite descendants_text_row.
  induction texts as [|text texts IH]; [done|].
  cbn [flat_map app]. rewrite filter_cons_True.
  2:{ cbn. by apply bool_decide_eq_true. }
  rewrite filter_cons_False by done.
  cbn [fmap list_fmap]. cbn [fmap list_fmap] in IH.
  cbn [snd]. by rewrite IH, get_text_text_cell.
Qed.

Lemma find_all_tr_text_row tag texts :
  tag ∈ ["th"; "td"] ->
  filter (fun d => is_named ["tr"] d.2 = true) (descendants (text_row tag texts))
  = [].
Proof.
  intros Htag. rewrite descendants_text_row.
  induction texts as [|text texts IH]; [done|].
  cbn [flat_map app]. rewrite filter_cons_False.
  2:{ cbn. rewrite bool_decide_eq_true, list_elem_of_singleton.
      intros ->. revert Htag. compute_done. }
  by rewrite filter_cons_False.
Qed.

Lemma find_all_tr_body rows :
  find_all (is_named ["tr"])
    (Tag "table" [] [] (text_row "td" <$> rows))
  = text_row "td" <$> rows.
Proof.
  unfold find_all. cbn [descendants].
  induction rows as [|row rows IH]; [done|].
  cbn [fmap list_fmap]. cbn [fmap list_fmap] in IH.
  rewrite filter_cons_True by done.
  rewrite filter_app, find_all_tr_text_row by set_solver.
  cbn [app fmap list_fmap]. by rewrite IH.
Qed.

Lemma find_all_tr_text_table header rows :
  find_all (is_named ["tr"]) (text_table header rows)
  = text_row "th" header :: (text_row "td" <$> rows).
Proof.
  pose proof (find_all_tr_body rows) as Hbody.
  unfold find_all, text_table in *. cbn [descendants] in *.
  rewrite filter_cons_True by done.
  rewrite filter_app, find_all_tr_text_row by set_solver.
  cbn [app fmap list_fmap]. by rewrite Hbody.
Qed.

Lemma table_body_lines rows lines :
  foldl (fun lines row =>
           match row_cells row with
           | [] => lines
           | cells => lines ++ [table_line cells]
           end) lines (text_row "td" <$> rows)
  = lines ++ (table_line <$> filter (fun cells => cells ≠ [])
                               ((fun row => PyStr.strip <$> row) <$> rows)).
Proof.
  revert lines. induction rows as [|row rows IH]; intros lines.
  - cbn. by rewrite app_nil_r.
  - cbn [fmap list_fmap foldl]. cbn [fmap list_fmap] in IH.
    rewrite IH, row_cells_text_row by set_solver.
    destruct (PyStr.strip <$> row) as [|cell cells] eqn:Hrow.
    + by rewrite filter_cons_False by (intros Hne; by apply Hne).
    + rewrite filter_cons_True by done. cbn [fmap list_fmap].
      by rewrite <- app_assoc.
Qed.

(** A table is converted row by row, each row from its own cells. *)
Lemma process_text_table (header : list string) (rows : list (list string))
    (lines : list string) :
  _process_table (text_table header rows) lines
  = Some (lines ++ table_lines (strip_cells header) (strip_cells <$> rows)).
Proof.
  unfold _process_table. rewrite find_all_tr_text_table.
  cbn [first_row lookup list_lookup mbind option_bind tail].
  rewrite table_body_lines, row_cells_text_row by set_solver.
  unfold table_lines, strip_cells. f_equal.
  destruct (PyStr.strip <$> header); by rewrite <- !app_assoc.
Qed.

End TableFacts.

(** *** Reading the lines of a table *)

Section TableLines.

Lemma split_no_sep sep s :
  has_char sep s = false -> PyStr.split sep s = [s].
Proof.
  induction s as [|c s IH]; [done|]. cbn [has_char PyStr.split].
  intros [-> Hs]%orb_false_elim. by rewrite IH.
Qed.

Lemma split_append sep a b :
  has_char sep a = false ->
  PyStr.split sep (a +:+ String sep b) = a :: PyStr.split sep b.
Proof.
  induction a as [|c a IH].
  - intros _. rewrite append_nil_l. cbn [PyStr.split].
    by rewrite Ascii.eqb_refl.
  - cbn [has_char]. intros [Hc Ha]%orb_false_elim. rewrite append_cons.
    cbn [PyStr.split]. by rewrite Hc, IH.
Qed.

Lemma has_char_append c a b :
  has_char c (a +:+ b) = has_char c a || has_char c b.
Proof.
  induction a as [|x a IH]; [done|]. rewrite append_cons. cbn [has_char].
  by rewrite IH, orb_assoc.
Qed.

Lemma has_char_lstrip c s :
  has_char c s = false -> has_char c (PyStr.lstrip s) = false.
Proof.
  induction s as [|x s IH]; [done|]. cbn [has_char PyStr.lstrip].
  intros [Hx Hs]%orb_false_elim.
  destruct (PyStr.isspace x); [by apply IH|]. cbn [has_char]. by rewrite Hx, Hs.
Qed.

Lemma has_char_rstrip c s :
  has_char c s = false -> has_char c (PyStr.rstrip s) = false.
Proof.
  induction s as [|x s IH]; [done|]. cbn [has_char PyStr.rstrip].
  intros [Hx Hs]%orb_false_elim. specialize (IH Hs).
  destruct (PyStr.rstrip s) as [|y r].
  - destruct (PyStr.isspace x); [done|]. cbn. by rewrite Hx.
  - cbn [has_char] in *. by rewrite Hx, IH.
Qed.

(** A stripped text holds no character that the text does not hold. *)
Lemma has_char_strip c s :
  has_char c s = false -> has_char c (PyStr.strip s) = false.
Proof. intros Hs. by apply has_char_rstrip, has_char_lstrip. Qed.

Lemma lstrip_append a b :
  PyStr.lstrip (a +:+ b)
  = match PyStr.lstrip a with
    | "" => PyStr.lstrip b
    | r => r +:+ b
    end.
Proof.
  induction a as [|c a IH]; [done|]. rewrite append_cons.
  cbn [PyStr.lstrip]. destruct (PyStr.isspace c); [done|].
  by rewrite append_cons.
Qed.

(** The blanks [table_line] puts around a cell are stripped with it. *)
Lemma strip_padded s : PyStr.strip (" " +:+ s +:+ " ") = PyStr.strip s.
Proof.
  unfold PyStr.strip. change (" " +:+ s +:+ " ") with (String " " (s +:+ " ")).
  cbn [PyStr.lstrip]. change (PyStr.isspace " ") with true. cbv iota.
  rewrite lstrip_append. destruct (PyStr.lstrip s) as [|c r]; [done|].
  by rewrite rstrip_append.
Qed.

(** The pieces of a table line between its bars. *)
Lemma split_table_cells (cells : list string) :
  cells <> [] ->
  Forall (fun cell => has_char "|" cell = false) cells ->
  PyStr.split "|" (" " +:+ PyStr.join " | " cells +:+ " |")
  = ((fun cell => " " +:+ cell +:+ " ") <$> cells) ++ [""].
Proof.
  induction cells as [|cell cells IH]; [done|]. intros _ Hcells.
  apply Forall_cons in Hcells as [Hcell Hcells].
  assert (has_char "|" (" " +:+ cell +:+ " ") = false) as Hpad.
  { by rewrite !has_char_append, Hcell. }
  destruct cells as [|cell' cells].
  - cbn [PyStr.join fmap list_fmap app].
    replace (" " +:+ cell +:+ " |")
      with ((" " +:+ cell +:+ " ") +:+ String "|" "")
      by by rewrite !append_assoc.
    by rewrite split_append.
  - change (PyStr.join " | " (cell :: cell' :: cells))
      with (cell +:+ " | " +:+ PyStr.join " | " (cell' :: cells)).
    replace (" " +:+ (cell +:+ " | " +:+ PyStr.join " | " (cell' :: cells))
             +:+ " |")
      with ((" " +:+ cell +:+ " ")
            +:+ String "|" (" " +:+ PyStr.join " | " (cell' :: cells)
                            +:+ " |")).
    2:{ by rewrite !append_assoc. }
    rewrite split_append by done. by rewrite IH.
Qed.

(** A reader of Markdown finds in a table line the cells it was made of,
    when no cell holds a bar. *)
Lemma md_cells_table_line (cells : list string) :
  cells <> [] ->
  Forall (fun cell => has_char "|" cell = false) cells ->
  md_cells (table_line cells) = PyStr.strip <$> cells.
Proof.
  intros Hne Hcells. unfold md_cells, table_line.
  change ("| " +:+ PyStr.join " | " cells +:+ " |")
    with ("" +:+ String "|" (" " +:+ PyStr.join " | " cells +:+ " |")).
  rewrite split_append, split_table_cells by done.
  cbn [tail]. rewrite removelast_last, <- list_fmap_compose.
  apply list_fmap_ext. intros _ cell _. apply strip_padded.
Qed.

End TableLines.

Section TableClaim.
Context `{Externals}.

Lemma process_element_table parent classes attrs children lines base_url depth :
  _process_element parent (Tag "table" classes attrs children) lines
    base_url depth
  = _process_table (Tag "table" classes attrs children) lines.
Proof. reflexivity. Qed.

Lemma length_strip_cells cells : length (strip_cells cells) = length cells.
Proof. unfold strip_cells. apply length_fmap. Qed.

Lemma strip_cells_no_bar cells :
  Forall (fun text => has_char "|" text = false) cells ->
  Forall (fun cell => has_char "|" cell = false) (strip_cells cells).
Proof.
  intros Hcells. unfold strip_cells. apply Forall_fmap.
  eapply Forall_impl; [done|]. intros text. apply has_char_strip.
Qed.

Lemma filter_all {A} (P : A -> Prop) `{!forall x, Decision (P x)}
    (l : list A) :
  Forall P l -> filter P l = l.
Proof.
  induction 1 as [|x l Hx _ IH]; [done|].
  by rewrite filter_cons_True, IH.
Qed.

Lemma strip_strip_cells cells :
  PyStr.strip <$> strip_cells cells = strip_cells cells.
Proof.
  unfold strip_cells. rewrite <- list_fmap_compose.
  apply list_fmap_ext. intros _ text _. apply strip_strip.
Qed.

(** C9: a table is converted row by row, each line from the cells of its own
    row.  When the header row and every body row have cells and no cell
    holds a bar, the table gives a blank line, a header line in which a
    reader of Markdown finds the stripped header cells, a separator line of
    as many cells, one line for each body row in which the reader finds the
    stripped cells of that row, and a blank line: each line has the number of
    cells of its own row, whatever the header has. *)
Theorem C9_ragged_table_passes_through parent lines base_url depth
    (header : list string) (rows : list (list string)) :
  header <> [] ->
  Forall (fun row => row <> []) rows ->
  Forall (fun text => has_char "|" text = false) (header ++ concat rows) ->
  exists table,
    _process_element parent (text_table header rows) lines base_url depth
    = Some (lines ++ [""] ++ table ++ [""])
    /\ md_cells <$> table
       = strip_cells header :: replicate (length header) "---"
         :: (strip_cells <$> rows)
    /\ length <$> (md_cells <$> table)
       = length header :: length header :: (length <$> rows).
Proof.
  intros Hheader Hrows [Hbar_header Hbar_rows]%Forall_app.
  exists (table_line (strip_cells header)
          :: table_line (replicate (length (strip_cells header)) "---")
          :: (table_line <$> (strip_cells <$> rows))).
  assert (strip_cells header <> []) as Hstripped.
  { destruct header; [done|]. done. }
  assert (md_cells
            <$> table_line (strip_cells header)
                :: table_line (replicate (length (strip_cells header)) "---")
                :: (table_line <$> (strip_cells <$> rows))
          = strip_cells header :: replicate (length header) "---"
            :: (strip_cells <$> rows)) as Hcells.
  { cbn [fmap list_fmap]. f_equal; [|f_equal].
    - rewrite md_cells_table_line, strip_strip_cells;
        [done|done|by apply strip_cells_no_bar].
    - rewrite length_strip_cells, md_cells_table_line.
      + clear. induction (length header) as [|n IH]; [done|].
        cbn [replicate fmap list_fmap]. f_equal. apply IH.
      + by destruct header.
      + by apply Forall_replicate.
    - clear Hheader Hstripped Hbar_header.
      induction rows as [|row rows IH]; [done|].
      apply Forall_cons in Hrows as [Hrow Hrows].
      cbn [concat] in Hbar_rows. apply Forall_app in Hbar_rows as [Hb Hbs].
      cbn [fmap list_fmap]. f_equal; [|by apply IH].
      rewrite md_cells_table_line, strip_strip_cells;
        [done|by destruct row|by apply strip_cells_no_bar]. }
  split; [|split; [done|]].
  - unfold text_table at 1. rewrite process_element_table.
    fold (text_table header rows). rewrite process_text_table.
    unfold table_lines. do 3 f_equal.
    destruct (strip_cells header) as [|cell cells] eqn:Hh; [done|].
    cbn [app]. do 2 f_equal. rewrite filter_all; [done|].
    apply Forall_fmap. eapply Forall_impl; [done|].
    intros [|text row]; [done|]. done.
  - rewrite Hcells. cbn [fmap list_fmap]. rewrite length_strip_cells.
    rewrite length_replicate. do 2 f_equal.
    rewrite <- list_fmap_compose. apply list_fmap_ext.
    intros _ row _. apply length_strip_cells.
Qed.

End TableClaim.

Section TableOnSite.
#[local] Existing Instance Site.externals.

(** C9 on a table of 1 header row with 4 cells and 2 body rows, the second
    one with 3 cells. *)
Lemma C9_witness :
  _process_element (Some "body")
    (text_table ["Node"; "Type"; "Input"; "Output"]
       [["Selector"; "Composite"; "any"; "any"]; ["Wait"; "Task"; "seconds"]])
    [] Site.A 0
  = Some [""; "| Node | Type | Input | Output |";
          "| --- | --- | --- | --- |";
          "| Selector | Composite | any | any |";
          "| Wait | Task | seconds |"; ""]
  /\ exists table,
      _process_element (Some "body")
        (text_table ["Node"; "Type"; "Input"; "Output"]
           [["Selector"; "Composite"; "any"; "any"];
            ["Wait"; "Task"; "seconds"]])
        [] Site.A 0
      = Some ([] ++ [""] ++ table ++ [""])
      /\ md_cells <$> table
         = [["Node"; "Type"; "Input"; "Output"];
            ["---"; "---"; "---"; "---"];
            ["Selector"; "Composite"; "any"; "any"];
            ["Wait"; "Task"; "seconds"]]
      /\ length <$> (md_cells <$> table) = [4; 4; 4; 3].
Proof.
  split; [vm_compute; reflexivity|].
  apply (C9_ragged_table_passes_through (Some "body") [] Site.A 0
           ["Node"; "Type"; "Input"; "Output"]
           [["Selector"; "Composite"; "any"; "any"];
            ["Wait"; "Task"; "seconds"]]).
  - done.
  - by repeat constructor.
  - by repeat constructor.
Defined.

End TableOnSite.

(** ** The link extractor *)

Section LinkFacts.
Context `{Externals}.






End LinkFacts.

Section LinksOnSite.
#[local] Existing Instance Site.externals.

(** C8 fails on a page that links to an archived copy of a documentation
    page: the reference contains the two substrings the extractor looks for,
    so it is returned, although it is a URL of another site and not under
    the documentation prefix. *)
Theorem C8_archived_link_is_returned :
  _extract_links "page-mirror" Site.A = Some [Site.archived]
  /\ PyStr.startswith Site.archived BASE_URL = false
  /\ PyStr.startswith Site.archived "https://dev.epicgames.com/documentation"
     = false.
Proof. repeat split; reflexivity. Qed.

End LinksOnSite.

(** ** Scraping one page *)

Section ScrapePageFacts.
Context `{Externals}.

(** [scrape_page] in terms of what the fetcher returned. *)
Lemma scrape_page_after_fetch use_cache u w fetched w1 :
  _fetch_page use_cache u w = Some (fetched, w1) ->
  scrape_page use_cache u w =
  match fetched with
  | None => Some (None, w1)
  | Some html =>
      if truthy html
      then match page_of u html (now_isoformat (env w1)) with
           | Some page => Some (Some page, w1)
           | None => None
           end
      else Some (None, w1)
  end.
Proof.
  intros Hfetch. unfold scrape_page.
  rewrite (bind_some _ _ _ _ _ Hfetch).
  destruct fetched as [html|]; [|done].
  destruct (truthy html); [|done].
  unfold page_of, mbind at 1 2 3, M_bind, lift_option.
  destruct (BeautifulSoup html) as [soup|]; [|done].
  cbn [mbind option_bind].
  destruct (_html_to_markdown html u) as [md|]; [|done].
  cbn [mbind option_bind].
  by destruct (_extract_links html u).
Qed.

Lemma page_of_url u html now page :
  page_of u html now = Some page -> url page = u.
Proof.
  unfold page_of.
  destruct (BeautifulSoup html); [|done]. cbn [mbind option_bind].
  destruct (_html_to_markdown html u); [|done]. cbn [mbind option_bind].
  destruct (_extract_links html u); [|done]. cbn [mbind option_bind].
  by intros [= <-].
Qed.

(** [scrape_page] ends, in an exception or in a result, and a page it
    returns is the page of the URL it was asked for. *)
Lemma scrape_page_ends use_cache u w :
  scrape_page use_cache u w = None
  \/ exists result w',
       scrape_page use_cache u w = Some (result, w')
       /\ forall page, result = Some page -> url page = u.
Proof.
  destruct (fetch_page_returns use_cache u w) as (fetched & w1 & Hfetch).
  rewrite (scrape_page_after_fetch _ _ _ _ _ Hfetch).
  destruct fetched as [html|]; [|right; by eexists _, _].
  destruct (truthy html); [|right; by eexists _, _].
  destruct (page_of u html (now_isoformat (env w1))) as [page|] eqn:Hpage;
    [|by left].
  right. eexists _, _. split; [done|]. intros ? [= <-].
  by eapply page_of_url.
Qed.

Lemma scrape_page_url use_cache u w page w' :
  scrape_page use_cache u w = Some (Some page, w') -> url page = u.
Proof.
  intros Hrun. destruct (scrape_page_ends use_cache u w)
    as [Hnone|(result & w1 & Hsome & Hurl)]; [congruence|].
  rewrite Hrun in Hsome. injection Hsome as <- <-. by apply Hurl.
Qed.

End ScrapePageFacts.

(** ** The crawl *)

Section CrawlFacts.
Context `{Externals}.

(** The ways an iteration goes: [scrape_page] raises, the entry is
    discarded, the page cannot be scraped, or a page is added. *)
Lemma crawl_iteration_ends use_cache depth c w u d rest :
  to_visit c = (u, d) :: rest ->
  ((u ∉ visited c) ∧ (d ≤ depth)%Z
   ∧ scrape_page use_cache u w = None
   ∧ crawl_iteration use_cache depth c w = None)
  ∨ ((u ∈ visited c ∨ (depth < d)%Z)
     ∧ crawl_iteration use_cache depth c w
       = Some (mkCrawl (scraped c) (visited c) rest (calls c), w))
  ∨ ((u ∉ visited c) ∧ (d ≤ depth)%Z
     ∧ ∃ w', scrape_page use_cache u w = Some (None, w')
       ∧ crawl_iteration use_cache depth c w
         = Some (mkCrawl (scraped c) (visited c ∪ {[u]}) rest
                   (calls c ++ [mkCall u d false]), w'))
  ∨ ((u ∉ visited c) ∧ (d ≤ depth)%Z
     ∧ ∃ page w', scrape_page use_cache u w = Some (Some page, w')
       ∧ url page = u
       ∧ crawl_iteration use_cache depth c w
         = Some (mkCrawl (scraped c ++ [page]) (visited c ∪ {[u]})
                   (if (d <? depth)%Z
                    then rest ++ child_entries (visited c ∪ {[u]}) d page
                    else rest)
                   (calls c ++ [mkCall u d true]), w')).
Proof.
  intros Hq. unfold crawl_iteration. rewrite Hq.
  case_bool_decide as Hv; [right; left; by auto|].
  destruct (depth <? d)%Z eqn:Hd; [right; left; split; [right; lia|done]|].
  apply Z.ltb_ge in Hd.
  destruct (scrape_page_ends use_cache u w)
    as [Hnone|(result & w' & Hrun & Hurl)].
  { left. unfold mbind, M_bind. by rewrite Hnone. }
  right. right. rewrite (bind_some _ _ _ _ _ Hrun).
  destruct result as [page|].
  - right. split; [done|]. split; [done|]. exists page, w'. auto.
  - left. split; [done|]. split; [done|]. by exists w'.
Qed.

(** The three ways an iteration that returns goes: the entry is discarded,
    the page cannot be scraped, or a page is added. *)
Lemma crawl_iteration_cases use_cache depth c w u d rest :
  to_visit c = (u, d) :: rest ->
  is_Some (crawl_iteration use_cache depth c w) ->
  ((u ∈ visited c ∨ (depth < d)%Z)
   ∧ crawl_iteration use_cache depth c w
     = Some (mkCrawl (scraped c) (visited c) rest (calls c), w))
  ∨ ((u ∉ visited c) ∧ (d ≤ depth)%Z
     ∧ ∃ w', scrape_page use_cache u w = Some (None, w')
       ∧ crawl_iteration use_cache depth c w
         = Some (mkCrawl (scraped c) (visited c ∪ {[u]}) rest
                   (calls c ++ [mkCall u d false]), w'))
  ∨ ((u ∉ visited c) ∧ (d ≤ depth)%Z
     ∧ ∃ page w', scrape_page use_cache u w = Some (Some page, w')
       ∧ url page = u
       ∧ crawl_iteration use_cache depth c w
         = Some (mkCrawl (scraped c ++ [page]) (visited c ∪ {[u]})
                   (if (d <? depth)%Z
                    then rest ++ child_entries (visited c ∪ {[u]}) d page
                    else rest)
                   (calls c ++ [mkCall u d true]), w')).
Proof.
  intros Hq [r Hsome].
  destruct (crawl_iteration_ends use_cache depth c w u d rest Hq)
    as [(_ & _ & _ & Hnone)|Hcases]; [congruence|done].
Qed.

Lemma crawl_init_inv depth topic : crawl_inv depth (crawl_init topic).
Proof.
  split; cbn; try done.
  - apply NoDup_nil_2.
  - apply Forall_singleton. cbn. lia.
Qed.

Lemma crawl_iteration_inv use_cache depth c w c' w' :
  crawl_inv depth c ->
  crawl_iteration use_cache depth c w = Some (c', w') ->
  crawl_inv depth c'.
Proof.
  intros [Hnd Hvis Hscr Hcd Hfr].
  destruct (to_visit c) as [|[u d] rest] eqn:Hq.
  { unfold crawl_iteration. rewrite Hq. intros [= <- <-].
    split; by rewrite ?Hq. }
  apply Forall_cons in Hfr as [Hd Hrest]. cbn in Hd. intros Hit.
  destruct (crawl_iteration_cases use_cache depth c w u d rest Hq
              (mk_is_Some _ _ Hit))
    as [[_ Heq]|[(Hnv & Hle & w1 & _ & Heq)
                |(Hnv & Hle & page & w1 & _ & Hurl & Heq)]];
    rewrite Heq in Hit; injection Hit as <- <-; split; cbn; try done.
  - rewrite fmap_app. apply NoDup_app. split; [done|].
    split; [|apply NoDup_singleton].
    intros x Hx ->%list_elem_of_singleton. apply Hnv. rewrite Hvis.
    by apply elem_of_list_to_set.
  - rewrite fmap_app, list_to_set_app_L, Hvis. cbn. set_solver.
  - rewrite filter_app, filter_cons_False, filter_nil, app_nil_r by done. done.
  - apply Forall_app. split; [done|]. apply Forall_singleton. cbn. lia.
  - rewrite fmap_app. apply NoDup_app. split; [done|].
    split; [|apply NoDup_singleton].
    intros x Hx ->%list_elem_of_singleton. apply Hnv. rewrite Hvis.
    by apply elem_of_list_to_set.
  - rewrite fmap_app, list_to_set_app_L, Hvis. cbn. set_solver.
  - rewrite filter_app, filter_cons_True, filter_nil by done.
    rewrite !fmap_app, Hscr. cbn. by rewrite Hurl.
  - apply Forall_app. split; [done|]. apply Forall_singleton. cbn. lia.
  - destruct (d <? depth)%Z eqn:Hlt; [|done].
    apply Z.ltb_lt in Hlt. apply Forall_app. split; [done|].
    unfold child_entries. apply Forall_fmap, Forall_forall.
    intros link _. cbn. lia.
Qed.

Lemma crawl_after_inv use_cache depth n c w c' w' :
  crawl_inv depth c ->
  crawl_after use_cache depth n c w = Some (c', w') ->
  crawl_inv depth c'.
Proof.
  revert c w. induction n as [|n IH]; intros c w Hinv.
  - by intros [= <- <-].
  - cbn [crawl_after]. destruct (to_visit c) eqn:Hq; [by intros [= <- <-]|].
    unfold mbind, M_bind.
    destruct (crawl_iteration use_cache depth c w) as [[c1 w1]|] eqn:Hit;
      [|done].
    apply IH. by eapply crawl_iteration_inv.
Qed.

End CrawlFacts.

(** *** The loop ends *)

Section CrawlTermination.
Context `{Externals}.

Lemma crawl_after_done use_cache depth n c w :
  to_visit c = [] -> crawl_after use_cache depth n c w = Some (c, w).
Proof. intros Hq. destruct n; cbn; [done|]. by rewrite Hq. Qed.

Lemma crawl_after_step use_cache depth n c w c1 w1 :
  to_visit c ≠ [] ->
  crawl_iteration use_cache depth c w = Some (c1, w1) ->
  crawl_after use_cache depth (S n) c w = crawl_after use_cache depth n c1 w1.
Proof.
  intros Hq Hit. cbn [crawl_after]. destruct (to_visit c); [done|].
  by rewrite (bind_some _ _ _ _ _ Hit).
Qed.

Lemma crawl_after_add use_cache depth n1 n2 c w c1 w1 :
  crawl_after use_cache depth n1 c w = Some (c1, w1) ->
  crawl_after use_cache depth (n1 + n2) c w
  = crawl_after use_cache depth n2 c1 w1.
Proof.
  revert c w. induction n1 as [|n1 IH]; intros c w.
  - by intros [= <- <-].
  - cbn [crawl_after Nat.add].
    destruct (to_visit c) eqn:Hq.
    + intros [= <- <-]. by rewrite crawl_after_done.
    + unfold mbind, M_bind.
      destruct (crawl_iteration use_cache depth c w) as [[c' w']|]; [|done].
      apply IH.
Qed.

(** An iteration takes the first entry away and adds entries of a smaller
    budget at the end. *)
Lemma crawl_iteration_frontier use_cache depth c w e rest :
  to_visit c = e :: rest ->
  crawl_iteration use_cache depth c w = None
  \/ exists c1 w1 new,
       crawl_iteration use_cache depth c w = Some (c1, w1)
       /\ to_visit c1 = rest ++ new
       /\ Forall (fun e' => S (budget depth e') ≤ budget depth e) new.
Proof.
  destruct e as [u d]. intros Hq.
  destruct (crawl_iteration_ends use_cache depth c w u d rest Hq)
    as [(_ & _ & _ & Hnone)
       |[[_ ->]|[(_ & _ & w1 & _ & ->)|(_ & Hle & page & w1 & _ & _ & ->)]]];
    [by left|right..].
  - eexists _, _, []. by rewrite app_nil_r.
  - eexists _, _, []. by rewrite app_nil_r.
  - destruct (d <? depth)%Z eqn:Hlt.
    + eexists _, _, _. split; [done|]. split; [done|].
      apply Z.ltb_lt in Hlt. unfold child_entries.
      apply Forall_fmap, Forall_forall. intros link _.
      unfold budget. cbn. lia.
    + eexists _, _, []. by rewrite app_nil_r.
Qed.

Lemma crawl_after_raised use_cache depth n c w :
  to_visit c ≠ [] ->
  crawl_iteration use_cache depth c w = None ->
  crawl_after use_cache depth (S n) c w = None.
Proof.
  intros Hq Hit. cbn [crawl_after]. destruct (to_visit c); [done|].
  unfold mbind, M_bind. by rewrite Hit.
Qed.

(** An exception is final: more iterations do not undo it. *)
Lemma crawl_after_add_raised use_cache depth n1 n2 c w :
  crawl_after use_cache depth n1 c w = None ->
  crawl_after use_cache depth (n1 + n2) c w = None.
Proof.
  revert c w. induction n1 as [|n1 IH]; intros c w; [done|].
  cbn [crawl_after Nat.add]. destruct (to_visit c) eqn:Hq; [done|].
  unfold mbind, M_bind.
  destruct (crawl_iteration use_cache depth c w) as [[c' w']|]; [|done].
  apply IH.
Qed.

(** The entries of budget at most [m] are worked off, leaving entries of a
    smaller budget. *)
Lemma crawl_drains_level use_cache depth m q1 :
  forall q2 c w,
    to_visit c = q1 ++ q2 ->
    Forall (fun e => budget depth e ≤ m) q1 ->
    exists n,
      crawl_after use_cache depth n c w = None
      \/ exists c' w' q3,
           crawl_after use_cache depth n c w = Some (c', w')
           /\ to_visit c' = q2 ++ q3
           /\ Forall (fun e => S (budget depth e) ≤ m) q3.
Proof.
  induction q1 as [|e q1 IH]; intros q2 c w Hq Hm.
  - exists 0. right. exists c, w, []. by rewrite app_nil_r.
  - apply Forall_cons in Hm as [He Hm].
    assert (to_visit c ≠ []) as Hne by by rewrite Hq.
    destruct (crawl_iteration_frontier use_cache depth c w e (q1 ++ q2) Hq)
      as [Hnone|(c1 & w1 & new & Hit & Hq1 & Hnew)].
    { exists 1. left. by apply crawl_after_raised. }
    rewrite <- app_assoc in Hq1.
    destruct (IH (q2 ++ new) c1 w1 Hq1 Hm)
      as (n & [Hnone|(c' & w' & q3 & Hrun & Hq' & Hq3)]).
    { exists (S n). left. by rewrite (crawl_after_step _ _ _ _ _ _ _ Hne Hit). }
    exists (S n). right. exists c', w', (new ++ q3).
    split; [|split].
    + by rewrite (crawl_after_step _ _ _ _ _ _ _ Hne Hit).
    + by rewrite Hq', app_assoc.
    + apply Forall_app. split; [|done].
      eapply Forall_impl; [done|]. cbn. lia.
Qed.

Lemma crawl_empties_frontier use_cache depth m :
  forall c w,
    Forall (fun e => budget depth e ≤ m) (to_visit c) ->
    exists n,
      crawl_after use_cache depth n c w = None
      \/ exists c' w',
           crawl_after use_cache depth n c w = Some (c', w')
           /\ to_visit c' = [].
Proof.
  induction m as [|m IH]; intros c w Hm.
  - destruct (crawl_drains_level use_cache depth 0 (to_visit c) [] c w)
      as (n & [Hnone|(c' & w' & q3 & Hrun & Hq' & Hq3)]);
      [by rewrite app_nil_r|done|by exists n; left|].
    exists n. right. exists c', w'. split; [done|].
    destruct q3 as [|e q3]; [done|].
    apply Forall_cons in Hq3 as [He _]. lia.
  - destruct (crawl_drains_level use_cache depth (S m) (to_visit c) [] c w)
      as (n & [Hnone|(c1 & w1 & q3 & Hrun & Hq1 & Hq3)]);
      [by rewrite app_nil_r|done|by exists n; left|].
    destruct (IH c1 w1) as (n2 & Hrun2).
    { rewrite Hq1. cbn. eapply Forall_impl; [done|]. cbn. lia. }
    exists (n + n2). by rewrite (crawl_after_add _ _ _ _ _ _ _ _ Hrun).
Qed.

(** More fuel does not change how a crawl that has ended ended. *)
Lemma crawl_run_more_fuel use_cache topic depth fuel fuel' w :
  crawl_run use_cache topic depth fuel w ≠ OutOfFuel ->
  crawl_run use_cache topic depth (fuel + fuel') w
  = crawl_run use_cache topic depth fuel w.
Proof.
  unfold crawl_run.
  destruct (crawl_after use_cache depth fuel (crawl_init topic) w)
    as [[c1 w1]|] eqn:Hrun.
  - destruct (to_visit c1) eqn:Hq; [|done]. intros _.
    rewrite (crawl_after_add _ _ _ _ _ _ _ _ Hrun), crawl_after_done by done.
    by rewrite Hq.
  - intros _. by rewrite crawl_after_add_raised.
Qed.

(** The loop of [scrape_topic] always ends: after enough iterations the
    frontier is empty or [scrape_page] has raised, whatever the pages are. *)
Lemma crawl_terminates use_cache topic depth w :
  exists fuel, crawl_run use_cache topic depth fuel w ≠ OutOfFuel.
Proof.
  destruct (crawl_empties_frontier use_cache depth
              (budget depth (topic_url topic, 0%Z)) (crawl_init topic) w)
    as (n & [Hnone|(c & w' & Hrun & Hq)]).
  { apply Forall_singleton. done. }
  - exists n. unfold crawl_run. by rewrite Hnone.
  - exists n. unfold crawl_run. by rewrite Hrun, Hq.
Qed.

End CrawlTermination.


(** *** Breadth-first order *)

Section CrawlOrder.
Context `{Externals}.

Lemma crawl_init_bfs topic : bfs_inv (crawl_init topic).
Proof.
  exists 0%Z, [(topic_url topic, 0%Z)], []. cbn.
  repeat split; try done.
  - by apply Forall_singleton.
  - constructor.
Qed.

Lemma sorted_snoc (l : list Z) (d : Z) :
  Forall (fun x => (x ≤ d)%Z) l ->
  StronglySorted Z.le l ->
  StronglySorted Z.le (l ++ [d]).
Proof.
  intros Hle Hs. apply StronglySorted_app_2; [|done|].
  - intros x1 x2 Hx1 ->%list_elem_of_singleton.
    by eapply Forall_forall in Hle.
  - repeat constructor.
Qed.

Lemma crawl_iteration_bfs use_cache depth c w c' w' :
  bfs_inv c ->
  crawl_iteration use_cache depth c w = Some (c', w') ->
  bfs_inv c'.
Proof.
  intros (d0 & q1 & q2 & Hq & Hq1 & Hq2 & Hcalls & Hsorted).
  (* the entry at the front, with the depth [d] of the front block *)
  assert (to_visit c = [] ∨
          exists d u r1 r2,
            to_visit c = (u, d) :: r1 ++ r2
            /\ Forall (fun e => e.2 = d) r1
            /\ Forall (fun e => e.2 = (d + 1)%Z) r2
            /\ Forall (fun k => (call_depth k ≤ d)%Z) (calls c))
    as [Hempty|(d & u & r1 & r2 & Hfront & Hr1 & Hr2 & Hcd)].
  { destruct q1 as [|[u d1] r1].
    - destruct q2 as [|[u d2] r2]; [by left|]. right.
      apply Forall_cons in Hq2 as [Hd2 Hq2]. cbn in Hd2.
      exists (d0 + 1)%Z, u, r2, []. rewrite app_nil_r.
      repeat split; try done.
      + by rewrite Hq, Hd2.
      + eapply Forall_impl; [done|]. cbn. lia.
    - right. apply Forall_cons in Hq1 as [Hd1 Hq1]. cbn in Hd1.
      exists d0, u, r1, q2. by rewrite Hq, Hd1. }
  { unfold crawl_iteration. rewrite Hempty. intros [= <- <-].
    exists d0, q1, q2. auto. }
  assert (Forall (fun x => (x ≤ d)%Z) (call_depth <$> calls c)) as Hcd'.
  { by apply Forall_fmap. }
  intros Hit.
  destruct (crawl_iteration_cases use_cache depth c w u d (r1 ++ r2) Hfront
              (mk_is_Some _ _ Hit))
    as [[_ Heq]|[(_ & _ & w1 & _ & Heq)|(_ & _ & page & w1 & _ & _ & Heq)]];
    rewrite Heq in Hit; injection Hit as <- <-.
  - exists d, r1, r2. auto.
  - exists d, r1, r2. cbn. repeat split; try done.
    + apply Forall_app. split; [done|]. by apply Forall_singleton.
    + rewrite fmap_app. by apply sorted_snoc.
  - exists d, r1,
      (if (d <? depth)%Z
       then r2 ++ child_entries (visited c ∪ {[u]}) d page else r2).
    cbn. repeat split; try done.
    + destruct (d <? depth)%Z; [|done]. by rewrite app_assoc.
    + destruct (d <? depth)%Z; [|done]. apply Forall_app. split; [done|].
      unfold child_entries. apply Forall_fmap, Forall_forall. by intros link _.
    + apply Forall_app. split; [done|]. by apply Forall_singleton.
    + rewrite fmap_app. by apply sorted_snoc.
Qed.

Lemma crawl_after_bfs use_cache depth n c w c' w' :
  bfs_inv c ->
  crawl_after use_cache depth n c w = Some (c', w') ->
  bfs_inv c'.
Proof.
  revert c w. induction n as [|n IH]; intros c w Hinv.
  - by intros [= <- <-].
  - cbn [crawl_after]. destruct (to_visit c) eqn:Hq; [by intros [= <- <-]|].
    unfold mbind, M_bind.
    destruct (crawl_iteration use_cache depth c w) as [[c1 w1]|] eqn:Hit;
      [|done].
    apply IH. by eapply crawl_iteration_bfs.
Qed.

End CrawlOrder.

(** *** The requests of a crawl *)

Section CrawlRequests.
Context `{Externals}.

Lemma requests_to_app u evs1 evs2 :
  requests_to u (evs1 ++ evs2) = requests_to u evs1 + requests_to u evs2.
Proof. unfold requests_to. by rewrite filter_app, length_app. Qed.

Lemma requests_to_failed_attempt u' u attempt :
  requests_to u' (failed_attempt_events u attempt)
  = if decide (u' = u) then 1 else 0.
Proof.
  unfold requests_to, failed_attempt_events.
  destruct (attempt <? MAX_RETRIES - 1);
    case_decide as Hu; subst;
    rewrite ?filter_cons_True, ?filter_cons_False, ?filter_nil by congruence;
    done.
Qed.

(** The requests of a fetch all go to its URL, one for each attempt made. *)
Lemma fetch_attempts_requests use_cache u attempts w r w' :
  fetch_attempts use_cache u attempts w = Some (r, w') ->
  exists evs,
    trace w' = trace w ++ evs
    /\ forall u', requests_to u' evs
                  ≤ if decide (u' = u) then length attempts else 0.
Proof.
  revert w. induction attempts as [|a rest IH]; intros w.
  - intros [= <- <-]. exists []. rewrite app_nil_r. split; [done|].
    intros u'. by case_decide.
  - destruct (raise_for_status (http_get (env w) u).1) as [exn|text] eqn:Hout.
    + rewrite (fetch_attempts_failure _ _ _ _ _ _ Hout). intros Hrun.
      apply IH in Hrun as (evs & Htr & Hreq). cbn [trace] in Htr.
      exists (failed_attempt_events u a ++ evs).
      split; [by rewrite Htr, <- app_assoc|].
      intros u'. rewrite requests_to_app, requests_to_failed_attempt.
      specialize (Hreq u'). cbn [length]. case_decide; lia.
    + cbn [fetch_attempts]. unfold mbind, M_bind, session_get.
      destruct (http_get (env w) u) as [r0 e]. cbn [fst] in Hout. rewrite Hout.
      intros Hrun. exists [EvGet u; EvSleep RateLimiting REQUEST_DELAY].
      split.
      * destruct use_cache; cbn in Hrun; injection Hrun as <- <-; cbn;
          by rewrite <- app_assoc.
      * intros u'. unfold requests_to. cbn [length].
        case_decide as Hu; subst;
          rewrite ?filter_cons_True, ?filter_cons_False, ?filter_nil
            by congruence; cbn; lia.
Qed.

Lemma scrape_page_requests use_cache u w r w' :
  scrape_page use_cache u w = Some (r, w') ->
  exists evs,
    trace w' = trace w ++ evs
    /\ forall u', requests_to u' evs
                  ≤ if decide (u' = u) then MAX_RETRIES else 0.
Proof.
  destruct (fetch_page_returns use_cache u w) as (fetched & w1 & Hfetch).
  rewrite (scrape_page_after_fetch _ _ _ _ _ Hfetch). intros Hpage.
  assert (w' = w1) as ->.
  { destruct fetched as [html|]; [|congruence].
    destruct (truthy html); [|congruence].
    destruct (page_of u html (now_isoformat (env w1))); congruence. }
  clear Hpage. revert Hfetch. unfold _fetch_page, mbind, M_bind.
  assert (forall u', 0 ≤ if decide (u' = u) then MAX_RETRIES else 0) as Hzero.
  { intros u'. case_decide; lia. }
  destruct use_cache.
  - unfold read_cache. cbv beta iota.
    destruct (cache_files w !! _get_cache_path u); cbn [fmap option_fmap option_map].
    + intros [= <- <-]. exists []. by rewrite app_nil_r.
    + apply fetch_attempts_requests.
  - unfold mret, M_ret. apply fetch_attempts_requests.
Qed.

Lemma calls_for_snoc u c k scraped' visited' frontier' :
  calls_for u (mkCrawl scraped' visited' frontier' (calls c ++ [k]))
  = calls_for u c + if decide (call_url k = u) then 1 else 0.
Proof.
  unfold calls_for. cbn [calls]. rewrite filter_app, length_app. f_equal.
  case_decide; by rewrite ?filter_cons_True, ?filter_cons_False by done.
Qed.

Lemma crawl_iteration_requests use_cache depth w0 c w c' w' :
  requests_inv w0 c w ->
  crawl_iteration use_cache depth c w = Some (c', w') ->
  requests_inv w0 c' w'.
Proof.
  intros (evs & Htr & Hreq).
  destruct (to_visit c) as [|[u d] rest] eqn:Hq.
  { unfold crawl_iteration. rewrite Hq. intros [= <- <-]. by exists evs. }
  intros Hit.
  destruct (crawl_iteration_cases use_cache depth c w u d rest Hq
              (mk_is_Some _ _ Hit))
    as [[_ Heq]|[(_ & _ & w1 & Hpage & Heq)
                |(_ & _ & page & w1 & Hpage & _ & Heq)]];
    rewrite Heq in Hit; injection Hit as <- <-.
  - by exists evs.
  - apply scrape_page_requests in Hpage as (evs1 & Htr1 & Hreq1).
    exists (evs ++ evs1). split; [by rewrite Htr1, Htr, app_assoc|].
    intros u'. rewrite requests_to_app, calls_for_snoc. cbn [call_url].
    specialize (Hreq u'). specialize (Hreq1 u').
    repeat case_decide; subst; try congruence; lia.
  - apply scrape_page_requests in Hpage as (evs1 & Htr1 & Hreq1).
    exists (evs ++ evs1). split; [by rewrite Htr1, Htr, app_assoc|].
    intros u'. rewrite requests_to_app, calls_for_snoc. cbn [call_url].
    specialize (Hreq u'). specialize (Hreq1 u').
    repeat case_decide; subst; try congruence; lia.
Qed.

Lemma crawl_after_requests use_cache depth n w0 c w c' w' :
  requests_inv w0 c w ->
  crawl_after use_cache depth n c w = Some (c', w') ->
  requests_inv w0 c' w'.
Proof.
  revert c w. induction n as [|n IH]; intros c w Hinv.
  - by intros [= <- <-].
  - cbn [crawl_after]. destruct (to_visit c) eqn:Hq; [by intros [= <- <-]|].
    unfold mbind, M_bind.
    destruct (crawl_iteration use_cache depth c w) as [[c1 w1]|] eqn:Hit;
      [|done].
    apply IH. by eapply crawl_iteration_requests.
Qed.

Lemma requests_inv_init w0 topic : requests_inv w0 (crawl_init topic) w0.
Proof.
  exists []. split; [by rewrite app_nil_r|].
  intros u. unfold requests_to. rewrite filter_nil. cbn [length]. lia.
Qed.

Lemma calls_for_absent u c :
  u ∉ call_url <$> calls c -> calls_for u c = 0.
Proof.
  unfold calls_for. induction (calls c) as [|k l IH]; [done|].
  cbn [fmap list_fmap]. intros [Hk Hl]%not_elem_of_cons.
  rewrite filter_cons_False by congruence. by apply IH.
Qed.

Lemma calls_for_le_1 u c :
  NoDup (call_url <$> calls c) -> calls_for u c ≤ 1.
Proof.
  unfold calls_for. induction (calls c) as [|k l IH]; [cbn; lia|].
  cbn [fmap list_fmap]. intros [Hk Hl]%NoDup_cons.
  destruct (decide (call_url k = u)) as [<-|Hne].
  - rewrite filter_cons_True by done. cbn [length].
    pose proof (calls_for_absent (call_url k) (mkCrawl [] ∅ [] l) Hk) as H0.
    unfold calls_for in H0. cbn [calls] in H0. lia.
  - rewrite filter_cons_False by done. by apply IH.
Qed.

End CrawlRequests.

(** *** The claims about the crawl *)

Section CrawlClaims.
Context `{Externals}.

Lemma crawl_iteration_discard use_cache depth c w u d rest :
  to_visit c = (u, d) :: rest ->
  u ∈ visited c ->
  crawl_iteration use_cache depth c w
  = Some (mkCrawl (scraped c) (visited c) rest (calls c), w).
Proof.
  intros Hq Hv. unfold crawl_iteration. rewrite Hq.
  by rewrite (bool_decide_eq_true_2 _ Hv).
Qed.

Lemma crawl_iteration_page use_cache depth c w u d rest page w1 :
  to_visit c = (u, d) :: rest ->
  u ∉ visited c ->
  (d ≤ depth)%Z ->
  scrape_page use_cache u w = Some (Some page, w1) ->
  crawl_iteration use_cache depth c w
  = Some (mkCrawl (scraped c ++ [page]) (visited c ∪ {[u]})
            (if (d <? depth)%Z
             then rest ++ child_entries (visited c ∪ {[u]}) d page
             else rest)
            (calls c ++ [mkCall u d true]), w1).
Proof.
  intros Hq Hv Hd Hrun. unfold crawl_iteration. rewrite Hq.
  rewrite (bool_decide_eq_false_2 _ Hv).
  destruct (depth <? d)%Z eqn:Hlt; [apply Z.ltb_lt in Hlt; lia|].
  by rewrite (bind_some _ _ _ _ _ Hrun).
Qed.

Lemma crawl_iteration_no_page use_cache depth c w u d rest w1 :
  to_visit c = (u, d) :: rest ->
  u ∉ visited c ->
  (d ≤ depth)%Z ->
  scrape_page use_cache u w = Some (None, w1) ->
  crawl_iteration use_cache depth c w
  = Some (mkCrawl (scraped c) (visited c ∪ {[u]}) rest
            (calls c ++ [mkCall u d false]), w1).
Proof.
  intros Hq Hv Hd Hrun. unfold crawl_iteration. rewrite Hq.
  rewrite (bool_decide_eq_false_2 _ Hv).
  destruct (depth <? d)%Z eqn:Hlt; [apply Z.ltb_lt in Hlt; lia|].
  by rewrite (bind_some _ _ _ _ _ Hrun).
Qed.

Lemma NoDup_fmap_eq {A B} (f : A -> B) (l : list A) x y :
  NoDup (f <$> l) -> x ∈ l -> y ∈ l -> f x = f y -> x = y.
Proof.
  induction l as [|a l IH]; cbn; [by intros _ ?%elem_of_nil|].
  intros [Ha Hl]%NoDup_cons [->|Hx]%elem_of_cons [->|Hy]%elem_of_cons Hf;
    [done|..].
  - exfalso. apply Ha. rewrite Hf. by apply list_elem_of_fmap_2.
  - exfalso. apply Ha. rewrite <- Hf. by apply list_elem_of_fmap_2.
  - by apply IH.
Qed.

(** C1: at every point of a crawl, no URL has been passed to [scrape_page]
    twice, however many pages link to it: two calls for the same URL are the
    same call, at one depth; a URL is in the visited set as soon as it has
    been asked for, whether the call gave a page or not; and a frontier entry
    whose URL is in the visited set is dropped with no fetch, the world being
    left as it is.  On the network, the crawl has sent at most the
    [MAX_RETRIES] requests of one fetch to any URL, and none to a URL it made
    no call for. *)
Theorem C1_each_url_fetched_at_most_once use_cache topic depth n w c w' :
  crawl_after use_cache depth n (crawl_init topic) w = Some (c, w') ->
  NoDup (call_url <$> calls c)
  /\ (forall k1 k2,
        k1 ∈ calls c -> k2 ∈ calls c -> call_url k1 = call_url k2 ->
        k1 = k2 /\ call_depth k1 = call_depth k2)
  /\ (forall k, k ∈ calls c -> call_url k ∈ visited c)
  /\ (forall u d rest w0,
        to_visit c = (u, d) :: rest -> u ∈ visited c ->
        crawl_iteration use_cache depth c w0
        = Some (mkCrawl (scraped c) (visited c) rest (calls c), w0))
  /\ (exists evs,
        trace w' = trace w ++ evs
        /\ forall u,
             requests_to u evs ≤ MAX_RETRIES
             /\ (u ∉ call_url <$> calls c -> requests_to u evs = 0)).
Proof.
  intros Hrun.
  destruct (crawl_after_inv _ _ _ _ _ _ _ (crawl_init_inv depth topic) Hrun)
    as [Hnd Hvis _ _ _].
  split; [done|].
  split.
  { intros k1 k2 H1 H2 Hu.
    assert (k1 = k2) as -> by by eapply (NoDup_fmap_eq call_url). done. }
  split.
  { intros k Hk. rewrite Hvis. apply elem_of_list_to_set.
    by apply list_elem_of_fmap_2. }
  split.
  { intros u d rest w0 Hq Hv. by eapply crawl_iteration_discard. }
  destruct (crawl_after_requests use_cache depth n w _ _ _ _
              (requests_inv_init w topic) Hrun) as (evs & Htr & Hreq).
  exists evs. split; [done|]. intros u. specialize (Hreq u).
  unfold MAX_RETRIES in *. split.
  - pose proof (calls_for_le_1 u c Hnd). lia.
  - intros Hu. rewrite (calls_for_absent u c Hu) in Hreq. lia.
Qed.

Lemma length_filter_split {A} (P : A -> bool) (l : list A) :
  length l = length (filter (fun x => P x = true) l)
             + length (filter (fun x => P x = false) l).
Proof.
  induction l as [|a l IH]; [done|].
  destruct (P a) eqn:Ha.
  - rewrite filter_cons_True, filter_cons_False by (done || congruence).
    cbn. lia.
  - rewrite filter_cons_False, filter_cons_True by (done || congruence).
    cbn. lia.
Qed.

(** A crawl raises only when a call of [scrape_page] raised: the call for
    the entry at the front of the frontier, after the iterations before it
    returned. *)
Lemma crawl_after_raised_by use_cache depth n c w :
  crawl_after use_cache depth n c w = None ->
  exists m c1 w1 u d rest,
    m < n
    /\ crawl_after use_cache depth m c w = Some (c1, w1)
    /\ to_visit c1 = (u, d) :: rest
    /\ (u ∉ visited c1) /\ (d ≤ depth)%Z
    /\ scrape_page use_cache u w1 = None.
Proof.
  revert c w. induction n as [|n IH]; intros c w; [done|].
  cbn [crawl_after]. destruct (to_visit c) as [|[u d] rest] eqn:Hq; [done|].
  unfold mbind, M_bind.
  destruct (crawl_iteration use_cache depth c w) as [[c' w']|] eqn:Hit.
  - intros (m & c1 & w1 & u1 & d1 & rest1 & Hm & Hrun & Hrest)%IH.
    exists (S m), c1, w1, u1, d1, rest1. split; [lia|]. split; [|done].
    by rewrite (crawl_after_step _ _ _ _ _ _ _ ltac:(by rewrite Hq) Hit).
  - intros _.
    destruct (crawl_iteration_ends use_cache depth c w u d rest Hq)
      as [(Hv & Hd & Hnone & _)|[[_ Heq]|[(_ & _ & w1 & _ & Heq)
                                 |(_ & _ & page & w1 & _ & _ & Heq)]]];
      [|congruence..].
    exists 0, c, w, u, d, rest. split; [lia|]. by repeat split.
Qed.

Lemma scrape_topic_not_out_of_fuel use_cache topic depth fuel w :
  scrape_topic use_cache topic depth fuel w ≠ OutOfFuel
  <-> crawl_run use_cache topic depth fuel w ≠ OutOfFuel.
Proof.
  unfold scrape_topic.
  by destruct (crawl_run use_cache topic depth fuel w).
Qed.

(** C3 as the script has it: the crawl always ends, in a result or in the
    exception of a call of [scrape_page] that raised, and what it returns is
    the list of the pages only, in the order in which their entries were
    popped, which is an order of non-decreasing depth.  There is no list of
    skipped URLs: a URL whose call gave no page stays in the visited set and
    is nowhere in the result.  The page URLs are pairwise different, the
    visited URLs are the URLs of the calls, and their number is the number of
    pages plus the number of calls that gave no page. *)
Theorem C3_pages_in_pop_order_without_skip_list use_cache topic depth w :
  (exists fuel,
      scrape_topic use_cache topic depth fuel w ≠ OutOfFuel
      /\ forall extra,
           scrape_topic use_cache topic depth (fuel + extra) w
           = scrape_topic use_cache topic depth fuel w)
  /\ (forall fuel,
      scrape_topic use_cache topic depth fuel w = Raised ->
      exists n c w1 u d rest,
        n < fuel
        /\ crawl_after use_cache depth n (crawl_init topic) w = Some (c, w1)
        /\ to_visit c = (u, d) :: rest
        /\ scrape_page use_cache u w1 = None)
  /\ (forall fuel c w',
      crawl_run use_cache topic depth fuel w = Returned c w' ->
      scrape_topic use_cache topic depth fuel w = Returned (scraped c) w'
      /\ url <$> scraped c
         = call_url <$> filter (fun k => call_ok k = true) (calls c)
      /\ StronglySorted Z.le (call_depth <$> calls c)
      /\ NoDup (url <$> scraped c)
      /\ (forall u, u ∈ visited c <-> u ∈ call_url <$> calls c)
      /\ size (visited c) = length (scraped c) + length (failed_calls c)
      /\ (forall k, k ∈ failed_calls c -> call_url k ∉ url <$> scraped c)).
Proof.
  split; [|split].
  - destruct (crawl_terminates use_cache topic depth w) as (fuel & Hrun).
    exists fuel. split; [by apply scrape_topic_not_out_of_fuel|].
    intros extra. unfold scrape_topic. by rewrite crawl_run_more_fuel.
  - intros fuel. unfold scrape_topic, crawl_run.
    destruct (crawl_after use_cache depth fuel (crawl_init topic) w)
      as [[c1 w1]|] eqn:Hafter; [by destruct (to_visit c1)|].
    intros _.
    destruct (crawl_after_raised_by _ _ _ _ _ Hafter)
      as (m & c1 & w1 & u & d & rest & Hm & Hrun & Hq & _ & _ & Hnone).
    by exists m, c1, w1, u, d, rest.
  - intros fuel c w' Hrun. split; [unfold scrape_topic; by rewrite Hrun|].
    unfold crawl_run in Hrun.
    destruct (crawl_after use_cache depth fuel (crawl_init topic) w)
      as [[c1 w1]|] eqn:Hafter; [|done].
    destruct (to_visit c1); [|done]. injection Hrun as -> ->.
    destruct (crawl_after_inv _ _ _ _ _ _ _ (crawl_init_inv depth topic) Hafter)
      as [Hnd Hvis Hscr _ _].
    destruct (crawl_after_bfs _ _ _ _ _ _ _ (crawl_init_bfs topic) Hafter)
      as (_ & _ & _ & _ & _ & _ & _ & Hsorted).
    split; [done|]. split; [done|].
    assert (NoDup (url <$> scraped c)) as Hpages.
    { rewrite Hscr. eapply sublist_NoDup; [done|].
      apply fmap_sublist, sublist_filter. }
    split; [done|]. split; [|split].
    + intros u. rewrite Hvis. apply elem_of_list_to_set.
    + rewrite Hvis, size_list_to_set, length_fmap by done.
      rewrite (length_filter_split call_ok (calls c)).
      unfold failed_calls. f_equal.
      by rewrite <- (length_fmap url), Hscr, length_fmap.
    + intros k [Hfail Hk]%list_elem_of_filter. rewrite Hscr.
      intros (k' & Hu & [Hok Hk']%list_elem_of_filter)%list_elem_of_fmap.
      assert (k = k') as -> by by eapply (NoDup_fmap_eq call_url).
      congruence.
Qed.

End CrawlClaims.

Section CrawlScenario.
Context `{Externals}.

(** At the depth bound nothing is added to the frontier, whatever the page
    links to. *)
Lemma crawl_iteration_at_bound use_cache depth c u rest w c' w' :
  to_visit c = (u, depth) :: rest ->
  crawl_iteration use_cache depth c w = Some (c', w') ->
  to_visit c' = rest.
Proof.
  intros Hq Hit.
  destruct (crawl_iteration_cases use_cache depth c w u depth rest Hq
              (mk_is_Some _ _ Hit))
    as [[_ Heq]|[(_ & _ & w1 & _ & Heq)|(_ & _ & page & w1 & _ & _ & Heq)]];
    rewrite Heq in Hit; injection Hit as <- <-; cbn; [done..|].
  by rewrite Z.ltb_irrefl.
Qed.

(** C4: in a crawl to depth 1 whose start page [A] links to [B] and [C] and
    where [B] links to [D], with or without the cache, [scrape_page] is
    called for [A], [B] and [C], each call in the world the one before left,
    and the result holds their three pages; [D] is never put on the frontier
    and never asked for, because an entry popped at the depth bound adds
    nothing to the frontier. *)
Theorem C4_depth_one_scenario use_cache topic (B C D : string)
    (pA pB pC : Page) (w w1 w2 w3 : World) :
  let A := topic_url topic in
  A ≠ B -> A ≠ C -> B ≠ C -> D ≠ A -> D ≠ B -> D ≠ C ->
  scrape_page use_cache A w = Some (Some pA, w1) -> links pA = [B; C] ->
  scrape_page use_cache B w1 = Some (Some pB, w2) -> links pB = [D] ->
  scrape_page use_cache C w2 = Some (Some pC, w3) ->
  (exists c,
      crawl_run use_cache topic 1 3 w = Returned c w3
      /\ scraped c = [pA; pB; pC]
      /\ url <$> scraped c = [A; B; C]
      /\ calls c = [mkCall A 0 true; mkCall B 1 true; mkCall C 1 true])
  /\ (forall n c w',
      crawl_after use_cache 1 n (crawl_init topic) w = Some (c, w') ->
      (D ∉ (fst <$> to_visit c)) /\ (D ∉ (call_url <$> calls c)))
  /\ (forall depth c u rest w0 c' w',
      to_visit c = (u, depth) :: rest ->
      crawl_iteration use_cache depth c w0 = Some (c', w') ->
      to_visit c' = rest).
Proof.
  intros A HAB HAC HBC HDA HDB HDC HrunA HlinksA HrunB HlinksB HrunC.
  assert (crawl_init topic = mkCrawl [] ∅ [(A, 0%Z)] []) as Hinit by done.
  unfold crawl_run. rewrite Hinit. clear Hinit. clearbody A.
  pose proof (scrape_page_url _ _ _ _ _ HrunA) as HurlA.
  pose proof (scrape_page_url _ _ _ _ _ HrunB) as HurlB.
  pose proof (scrape_page_url _ _ _ _ _ HrunC) as HurlC.
  set (c0 := mkCrawl [] ∅ [(A, 0%Z)] []).
  set (c1 := mkCrawl [pA] (∅ ∪ {[A]}) [(B, 1%Z); (C, 1%Z)] [mkCall A 0 true]).
  set (c2 := mkCrawl [pA; pB] (∅ ∪ {[A]} ∪ {[B]}) [(C, 1%Z)]
               [mkCall A 0 true; mkCall B 1 true]).
  set (c3 := mkCrawl [pA; pB; pC] (∅ ∪ {[A]} ∪ {[B]} ∪ {[C]}) []
               [mkCall A 0 true; mkCall B 1 true; mkCall C 1 true]).
  assert (crawl_iteration use_cache 1 c0 w = Some (c1, w1)) as H01.
  { rewrite (crawl_iteration_page use_cache 1 c0 w A 0 [] pA w1);
      [|done|set_solver|lia|done].
    unfold c1. cbn. unfold child_entries. rewrite HlinksA.
    rewrite !filter_cons_True, filter_nil by set_solver. done. }
  assert (crawl_iteration use_cache 1 c1 w1 = Some (c2, w2)) as H12.
  { rewrite (crawl_iteration_page use_cache 1 c1 w1 B 1 [(C, 1%Z)] pB w2);
      [done|done|unfold c1; cbn; set_solver|lia|done]. }
  assert (crawl_iteration use_cache 1 c2 w2 = Some (c3, w3)) as H23.
  { rewrite (crawl_iteration_page use_cache 1 c2 w2 C 1 [] pC w3);
      [done|done|unfold c2; cbn; set_solver|lia|done]. }
  assert (forall n, crawl_after use_cache 1 n c0 w
                    = Some (match n with
                            | 0 => c0 | 1 => c1 | 2 => c2 | _ => c3
                            end,
                            match n with
                            | 0 => w | 1 => w1 | 2 => w2 | _ => w3
                            end)) as Hafter.
  { assert (to_visit c0 ≠ []) as Hq0 by done.
    assert (to_visit c1 ≠ []) as Hq1 by done.
    assert (to_visit c2 ≠ []) as Hq2 by done.
    intros [|[|[|n]]]; [done|..].
    - by rewrite (crawl_after_step _ _ _ _ _ _ _ Hq0 H01).
    - rewrite (crawl_after_step _ _ _ _ _ _ _ Hq0 H01).
      by rewrite (crawl_after_step _ _ _ _ _ _ _ Hq1 H12).
    - rewrite (crawl_after_step _ _ _ _ _ _ _ Hq0 H01).
      rewrite (crawl_after_step _ _ _ _ _ _ _ Hq1 H12).
      rewrite (crawl_after_step _ _ _ _ _ _ _ Hq2 H23).
      by apply crawl_after_done. }
  split; [|split].
  - exists c3. rewrite Hafter. cbn.
    by rewrite HurlA, HurlB, HurlC.
  - intros n c w' Hn. rewrite Hafter in Hn.
    injection Hn as <- _.
    destruct n as [|[|[|n]]]; cbn; set_solver.
  - intros depth c u rest w0 c' w'. apply crawl_iteration_at_bound.
Qed.

(** C10: when the fetch succeeds with the empty string as body,
    [scrape_page] returns [None], and the crawl goes on as it does after a
    failed fetch: the URL is marked visited, no page is added and the
    frontier is not extended.  The converter itself would turn an empty
    document into the empty Markdown text. *)
Theorem C10_empty_body_gives_no_page use_cache u w w1 :
  _fetch_page use_cache u w = Some (Some "", w1) ->
  scrape_page use_cache u w = Some (None, w1)
  /\ (forall depth c d rest,
        to_visit c = (u, d) :: rest -> u ∉ visited c -> (d ≤ depth)%Z ->
        crawl_iteration use_cache depth c w
        = Some (mkCrawl (scraped c) (visited c ∪ {[u]}) rest
                  (calls c ++ [mkCall u d false]), w1))
  /\ (forall w0 w2 depth c d rest,
        _fetch_page use_cache u w0 = Some (None, w2) ->
        to_visit c = (u, d) :: rest -> u ∉ visited c -> (d ≤ depth)%Z ->
        crawl_iteration use_cache depth c w0
        = Some (mkCrawl (scraped c) (visited c ∪ {[u]}) rest
                  (calls c ++ [mkCall u d false]), w2))
  /\ (html_parser "" = Some [] -> _html_to_markdown "" u = Some "").
Proof.
  intros Hfetch.
  assert (scrape_page use_cache u w = Some (None, w1)) as Hpage.
  { by rewrite (scrape_page_after_fetch _ _ _ _ _ Hfetch). }
  split; [done|]. split; [|split].
  - intros depth c d rest Hq Hv Hd. by eapply crawl_iteration_no_page.
  - intros w0 w2 depth c d rest Hfail Hq Hv Hd.
    eapply crawl_iteration_no_page; [done..|].
    by rewrite (scrape_page_after_fetch _ _ _ _ _ Hfail).
  - intros Hparse. unfold _html_to_markdown, BeautifulSoup. by rewrite Hparse.
Qed.

End CrawlScenario.

(** *** The crawl on the small site *)

Section CrawlOnSite.
#[local] Existing Instance Site.externals.

Lemma site_crawl_run :
  crawl_after false 2 10 (crawl_init "bt") Site.fresh
  = Some (site_crawl.1, site_crawl.2).
Proof. by_evaluation. Qed.

Example site_crawl_calls :
  calls site_crawl.1
  = [mkCall Site.A 0 true; mkCall Site.B 1 true; mkCall Site.C 1 true;
     mkCall Site.D 2 true; mkCall Site.missing 2 false].
Proof. reflexivity. Qed.

(** C1 on the crawl of the small site to depth 2. *)
Lemma C1_witness :
  NoDup (call_url <$> calls site_crawl.1)
  /\ (forall k1 k2,
        k1 ∈ calls site_crawl.1 -> k2 ∈ calls site_crawl.1 ->
        call_url k1 = call_url k2 ->
        k1 = k2 /\ call_depth k1 = call_depth k2)
  /\ (forall k, k ∈ calls site_crawl.1 -> call_url k ∈ visited site_crawl.1)
  /\ (forall u d rest w0,
        to_visit site_crawl.1 = (u, d) :: rest -> u ∈ visited site_crawl.1 ->
        crawl_iteration false 2 site_crawl.1 w0
        = Some (mkCrawl (scraped site_crawl.1) (visited site_crawl.1) rest
                  (calls site_crawl.1), w0))
  /\ (exists evs,
        trace site_crawl.2 = trace Site.fresh ++ evs
        /\ forall u,
             requests_to u evs ≤ MAX_RETRIES
             /\ (u ∉ call_url <$> calls site_crawl.1 -> requests_to u evs = 0)).
Proof.
  apply (C1_each_url_fetched_at_most_once false "bt" 2 10 Site.fresh
           site_crawl.1 site_crawl.2).
  exact site_crawl_run.
Defined.

(** C3 as the script has it, on the crawl of the small site to depth 2:
    four pages, and one call that gave none. *)
Lemma C3_witness :
  scrape_topic false "bt" 2 10 Site.fresh
  = Returned (scraped site_crawl.1) site_crawl.2
  /\ url <$> scraped site_crawl.1 = [Site.A; Site.B; Site.C; Site.D]
  /\ size (visited site_crawl.1)
     = length (scraped site_crawl.1) + length (failed_calls site_crawl.1)
  /\ call_url <$> failed_calls site_crawl.1 = [Site.missing].
Proof.
  destruct (C3_pages_in_pop_order_without_skip_list false "bt" 2 Site.fresh)
    as (_ & _ & Hrun).
  destruct (Hrun 10 site_crawl.1 site_crawl.2)
    as (Hres & _ & _ & _ & _ & Hsize & _).
  { unfold crawl_run. by rewrite site_crawl_run. }
  split; [exact Hres|]. split; [reflexivity|]. split; [exact Hsize|reflexivity].
Defined.

(** C3, as the spec states it, fails: the crawl of a topic whose page is
    missing returns the empty list at depth 0, with one URL visited, and at
    depth -1, with none visited.  So no list of skipped URLs can be read off
    the result with [|visited| = |pages| + |skipped|]. *)
Lemma C3_result_has_no_skipped_list :
  (exists c w',
      crawl_run true "missing" 0 5 Site.fresh = Returned c w'
      /\ scraped c = [] /\ size (visited c) = 1)
  /\ (exists c w',
      crawl_run true "missing" (-1) 5 Site.fresh = Returned c w'
      /\ scraped c = [] /\ size (visited c) = 0)
  /\ ~ (exists skipped_of : list Page -> list string,
         forall depth c w',
           crawl_run true "missing" depth 5 Site.fresh = Returned c w' ->
           size (visited c)
           = length (scraped c) + length (skipped_of (scraped c))).
Proof.
  assert (crawl_run true "missing" 0 5 Site.fresh
          = Returned
              (mkCrawl [] (∅ ∪ {[Site.missing]}) []
                 [mkCall Site.missing 0 false])
              (mkWorld _ tt ∅
                 [EvGet Site.missing; EvSleep ExponentialBackoff 1;
                  EvGet Site.missing; EvSleep ExponentialBackoff 2;
                  EvGet Site.missing])) as Hrun0.
  { vm_compute. reflexivity. }
  assert (crawl_run true "missing" (-1) 5 Site.fresh
          = Returned (mkCrawl [] ∅ [] []) Site.fresh) as Hrun1.
  { vm_compute. reflexivity. }
  split; [|split].
  - eexists _, _. split; [exact Hrun0|]. split; [done|]. by vm_compute.
  - eexists _, _. split; [exact Hrun1|]. split; [done|]. by vm_compute.
  - intros (skipped_of & Hall).
    pose proof (Hall _ _ _ Hrun0) as H0. pose proof (Hall _ _ _ Hrun1) as H1.
    cbn [scraped visited length] in H0, H1.
    replace (size (∅ ∪ {[Site.missing]} : gset string)) with 1 in H0
      by (by vm_compute).
    rewrite size_empty in H1. lia.
Qed.

Lemma site_cached_scrape_A :
  scrape_page true Site.A Site.fresh
  = Some (Some site_cached_A.1, site_cached_A.2).
Proof. by_evaluation. Qed.

Lemma site_cached_scrape_B :
  scrape_page true Site.B site_cached_A.2
  = Some (Some site_cached_B.1, site_cached_B.2).
Proof. by_evaluation. Qed.

Lemma site_cached_scrape_C :
  scrape_page true Site.C site_cached_B.2
  = Some (Some site_cached_C.1, site_cached_C.2).
Proof. by_evaluation. Qed.

(** C4 on the small site, whose pages [A], [B] and [C] link as the scenario
    says, with the cache in use. *)
Lemma C4_witness :
  (exists c,
      crawl_run true "bt" 1 3 Site.fresh = Returned c site_cached_C.2
      /\ url <$> scraped c = [Site.A; Site.B; Site.C]
      /\ calls c = [mkCall Site.A 0 true; mkCall Site.B 1 true;
                    mkCall Site.C 1 true])
  /\ (forall n c w',
      crawl_after true 1 n (crawl_init "bt") Site.fresh = Some (c, w') ->
      (Site.D ∉ (fst <$> to_visit c)) /\ (Site.D ∉ (call_url <$> calls c))).
Proof.
  destruct (C4_depth_one_scenario true "bt" Site.B Site.C Site.D
              site_cached_A.1 site_cached_B.1 site_cached_C.1
              Site.fresh site_cached_A.2 site_cached_B.2 site_cached_C.2)
    as ((c & Hrun & _ & Hpages & Hcalls) & Hnever & _).
  1-6: by vm_compute.
  - exact site_cached_scrape_A.
  - reflexivity.
  - exact site_cached_scrape_B.
  - reflexivity.
  - exact site_cached_scrape_C.
  - split; [|exact Hnever]. exists c.
    split; [exact Hrun|]. split; [exact Hpages|exact Hcalls].
Defined.

(** A crawl raises when a page does: the parser gives up on the body of
    [Site.broken], and the exception leaves [scrape_page] and the loop. *)
Example site_crawl_raises :
  scrape_page false Site.broken Site.fresh = None
  /\ crawl_run false "broken" 0 5 Site.fresh = Raised
  /\ scrape_topic false "broken" 0 5 Site.fresh = Raised.
Proof. repeat split; by_evaluation. Qed.

(** C10 on the small site: [Site.blank] is answered with an empty body. *)
Lemma C10_witness :
  exists w1,
    _fetch_page true Site.blank Site.fresh = Some (Some "", w1)
    /\ scrape_page true Site.blank Site.fresh = Some (None, w1)
    /\ _html_to_markdown "" Site.blank = Some "".
Proof.
  eexists.
  destruct (C10_empty_body_gives_no_page true Site.blank Site.fresh _ eq_refl)
    as (Hpage & _ & _ & Hempty).
  split; [reflexivity|]. split; [exact Hpage|]. apply Hempty. reflexivity.
Defined.

End CrawlOnSite.

(** * Further properties *)

(** ** The fetcher and its cache *)

Section FetcherMore.
Context `{Externals}.

(** What a retry loop does to the cache directory. *)
Lemma fetch_attempts_cache use_cache u attempts w r w' :
  fetch_attempts use_cache u attempts w = Some (r, w') ->
  (forall path, path ≠ _get_cache_path u ->
                cache_files w' !! path = cache_files w !! path)
  /\ (use_cache = false -> cache_files w' = cache_files w)
  /\ (r = None -> cache_files w' = cache_files w)
  /\ (forall body, r = Some body -> use_cache = true ->
        cache_files w' !! _get_cache_path u
        = Some (os_newlines linesep body)).
Proof.
  revert w. induction attempts as [|a rest IH]; intros w.
  - intros [= <- <-]. repeat split; done.
  - destruct (raise_for_status (http_get (env w) u).1) as [exn|text] eqn:Hout.
    + rewrite (fetch_attempts_failure _ _ _ _ _ _ Hout). intros Hrun.
      apply IH in Hrun. exact Hrun.
    + cbn [fetch_attempts]. unfold mbind, M_bind, session_get.
      destruct (http_get (env w) u) as [r0 e]. cbn [fst] in Hout. rewrite Hout.
      destruct use_cache; cbn; intros [= <- <-]; cbn.
      * repeat split; try done.
        -- intros path Hpath. by rewrite lookup_insert_ne.
        -- intros body [= <-] _. by rewrite lookup_insert_eq.
      * repeat split; done.
Qed.

Lemma fetch_page_cache use_cache u w r w' :
  _fetch_page use_cache u w = Some (r, w') ->
  (forall path, path ≠ _get_cache_path u ->
                cache_files w' !! path = cache_files w !! path)
  /\ (use_cache = false -> cache_files w' = cache_files w)
  /\ (r = None -> cache_files w' = cache_files w)
  /\ (forall body, r = Some body -> use_cache = true ->
        match cache_files w !! _get_cache_path u with
        | Some stored => w' = w /\ body = universal_newlines stored
        | None => cache_files w' !! _get_cache_path u
                  = Some (os_newlines linesep body)
        end).
Proof.
  unfold _fetch_page, mbind, M_bind. destruct use_cache.
  - unfold read_cache. cbv beta iota.
    destruct (cache_files w !! _get_cache_path u) as [cached|] eqn:Hc;
      cbn [fmap option_fmap option_map].
    + intros [= <- <-]. split; [done|]. split; [done|]. split; [done|].
      intros ? [= <-] _. done.
    + intros Hrun.
      destruct (fetch_attempts_cache _ _ _ _ _ _ Hrun) as (H1 & H2 & H3 & H4).
      split; [done|]. split; [done|]. split; [done|].
      intros ? Hr Hu. by apply H4.
  - unfold mret, M_ret. intros Hrun.
    destruct (fetch_attempts_cache _ _ _ _ _ _ Hrun) as (H1 & H2 & H3 & _).
    repeat split; done.
Qed.

(** A text without carriage returns is read as it was written, whether the
    system ends a line with a newline or with a carriage return and a
    newline. *)
Lemma newlines_round_trip sep s :
  sep = String "010" "" \/ sep = String "013" (String "010" "") ->
  has_char "013" s = false ->
  universal_newlines (os_newlines sep s) = s.
Proof.
  intros Hsep. induction s as [|c s IH]; [done|].
  cbn [has_char]. intros [Hc Hs]%orb_false_iff. specialize (IH Hs).
  cbn [os_newlines]. destruct (Ascii.eqb c "010") eqn:Hnl.
  - apply Ascii.eqb_eq in Hnl as ->.
    destruct Hsep as [-> | ->].
    + change (universal_newlines (String "010" (os_newlines (String "010" "") s))
              = String "010" s).
      cbn [universal_newlines]. change (Ascii.eqb "010" "013") with false.
      cbv iota. by rewrite IH.
    + change (universal_newlines
                (String "013" (String "010"
                   (os_newlines (String "013" (String "010" "")) s)))
              = String "010" s).
      cbn [universal_newlines]. change (Ascii.eqb "013" "013") with true.
      change (Ascii.eqb "010" "010") with true. cbv iota. by rewrite IH.
  - cbn [universal_newlines]. rewrite Hc. by rewrite IH.
Qed.

(** X1: with the cache in use, after a fetch that returned a body the next
    fetch of the same URL, or of any URL with the same cache file name,
    returns a body too and leaves the world as it is: no request, no sleep.
    It returns the same body after a cache hit, and after a fetch from the
    network the body as [write_text] and [read_text] pass it on: the same
    body when it has no carriage return. *)
Theorem fetch_then_fetch_is_cache_hit u u2 w body w1 :
  _fetch_page true u w = Some (Some body, w1) ->
  _get_cache_path u2 = _get_cache_path u ->
  exists again,
    _fetch_page true u2 w1 = Some (Some again, w1)
    /\ (is_Some (cache_files w !! _get_cache_path u) -> again = body)
    /\ (cache_files w !! _get_cache_path u = None ->
        again = universal_newlines (os_newlines linesep body))
    /\ (linesep = String "010" ""
        \/ linesep = String "013" (String "010" "") ->
        has_char "013" body = false -> again = body).
Proof.
  intros Hrun Hpath.
  destruct (fetch_page_cache _ _ _ _ _ Hrun) as (_ & _ & _ & Hwritten).
  specialize (Hwritten body eq_refl eq_refl).
  unfold _fetch_page, mbind, M_bind, read_cache. cbv beta iota.
  rewrite Hpath.
  destruct (cache_files w !! _get_cache_path u) as [stored|] eqn:Hc.
  - destruct Hwritten as [-> ->]. rewrite Hc.
    exists (universal_newlines stored). repeat split; done.
  - rewrite Hwritten.
    exists (universal_newlines (os_newlines linesep body)).
    split; [done|]. split; [by intros [? ?]|]. split; [done|].
    apply newlines_round_trip.
Qed.

(** X2: a fetch changes at most the cache file of its own URL; it changes
    no cache file at all when the cache is not in use or when it fails. *)
Theorem fetch_touches_only_its_cache_file use_cache u w r w' :
  _fetch_page use_cache u w = Some (r, w') ->
  (forall path, path ≠ _get_cache_path u ->
                cache_files w' !! path = cache_files w !! path)
  /\ (use_cache = false \/ r = None -> cache_files w' = cache_files w).
Proof.
  intros Hrun.
  destruct (fetch_page_cache _ _ _ _ _ Hrun) as (Hframe & Hoff & Hfail & _).
  split; [done|]. intros [Hc|Hr]; auto.
Qed.

Lemma total_sleep_app evs1 evs2 :
  total_sleep (evs1 ++ evs2) = (total_sleep evs1 + total_sleep evs2)%Z.
Proof.
  unfold total_sleep.
  induction evs1 as [|[url|why s] evs1 IH]; cbn; [done|done|].
  rewrite IH. lia.
Qed.

Lemma network_attempts_app evs1 evs2 :
  network_attempts (evs1 ++ evs2)
  = network_attempts evs1 + network_attempts evs2.
Proof. unfold network_attempts. by rewrite filter_app, length_app. Qed.

Lemma backoff_budget_nonneg attempts : (0 ≤ backoff_budget attempts)%Z.
Proof.
  induction attempts as [|x l IH]; [done|].
  unfold backoff_budget. cbn [foldr]. fold (backoff_budget l).
  assert (0 ≤ 2 ^ Z.of_nat x)%Z as Hp by (apply Z.pow_nonneg; lia).
  set (p := (2 ^ Z.of_nat x)%Z) in *. clearbody p.
  destruct (x <? MAX_RETRIES - 1)%nat; lia.
Qed.

Lemma fetch_attempts_bounds use_cache u attempts w r w' :
  fetch_attempts use_cache u attempts w = Some (r, w') ->
  exists evs,
    trace w' = trace w ++ evs
    /\ network_attempts evs ≤ length attempts
    /\ (r = None -> network_attempts evs = length attempts)
    /\ (0 ≤ total_sleep evs ≤ backoff_budget attempts + REQUEST_DELAY)%Z.
Proof.
  revert w. induction attempts as [|a rest IH]; intros w.
  - intros [= <- <-]. exists []. rewrite app_nil_r.
    repeat split; try done; unfold REQUEST_DELAY; cbn; lia.
  - destruct (raise_for_status (http_get (env w) u).1) as [exn|text] eqn:Hout.
    + rewrite (fetch_attempts_failure _ _ _ _ _ _ Hout). intros Hrun.
      apply IH in Hrun as (evs & Htr & Hn & Hfail & Hs). cbn [trace] in Htr.
      exists (failed_attempt_events u a ++ evs).
      split; [by rewrite Htr, <- app_assoc|].
      rewrite network_attempts_app, total_sleep_app.
      assert (network_attempts (failed_attempt_events u a) = 1) as ->.
      { unfold failed_attempt_events. by destruct (a <? MAX_RETRIES - 1). }
      assert (total_sleep (failed_attempt_events u a)
              = if (a <? MAX_RETRIES - 1)%nat
                then (2 ^ Z.of_nat a)%Z else 0%Z) as ->.
      { unfold failed_attempt_events.
        destruct (a <? MAX_RETRIES - 1); cbn; lia. }
      cbn [length backoff_budget foldr].
      fold (backoff_budget rest).
      assert (0 ≤ if (a <? MAX_RETRIES - 1)%nat
                  then 2 ^ Z.of_nat a else 0)%Z.
      { destruct (a <? MAX_RETRIES - 1)%nat; [apply Z.pow_nonneg|]; lia. }
      set (p := (2 ^ Z.of_nat a)%Z) in *. clearbody p.
      destruct (a <? MAX_RETRIES - 1)%nat;
        (split; [lia|]); (split; [intros Hr; rewrite (Hfail Hr); lia|lia]).
    + cbn [fetch_attempts]. unfold mbind, M_bind, session_get.
      destruct (http_get (env w) u) as [r0 e]. cbn [fst] in Hout. rewrite Hout.
      intros Hrun. exists [EvGet u; EvSleep RateLimiting REQUEST_DELAY].
      pose proof (backoff_budget_nonneg (a :: rest)) as Hb.
      destruct use_cache; cbn in Hrun; injection Hrun as <- <-; cbn [trace];
        (split; [by rewrite <- app_assoc|]);
        (split; [change (network_attempts [EvGet u; _]) with 1;
                 cbn [length]; lia|]);
        (split; [done|]);
        change (total_sleep [EvGet u; _]) with (REQUEST_DELAY + 0)%Z;
        unfold REQUEST_DELAY; lia.
Qed.

(** X3: whatever the server does, one fetch sends at most [MAX_RETRIES = 3]
    requests, sends exactly that many when it fails, and sleeps at most 4
    seconds in all (backoff 1 and 2, politeness 1). *)
Theorem fetch_is_bounded use_cache u w r w' :
  _fetch_page use_cache u w = Some (r, w') ->
  exists evs,
    trace w' = trace w ++ evs
    /\ network_attempts evs ≤ MAX_RETRIES
    /\ (r = None -> network_attempts evs = MAX_RETRIES)
    /\ (0 ≤ total_sleep evs ≤ 4)%Z.
Proof.
  unfold _fetch_page, mbind, M_bind.
  assert (forall w0,
    fetch_attempts use_cache u (seq 0 MAX_RETRIES) w0 = Some (r, w') ->
    exists evs,
      trace w' = trace w0 ++ evs
      /\ network_attempts evs ≤ MAX_RETRIES
      /\ (r = None -> network_attempts evs = MAX_RETRIES)
      /\ (0 ≤ total_sleep evs ≤ 4)%Z) as Hloop.
  { intros w0 Hrun.
    apply fetch_attempts_bounds in Hrun as (evs & Htr & Hn & Hfail & Hs).
    exists evs. repeat split; try done; try lia.
    revert Hs. unfold REQUEST_DELAY. cbn. lia. }
  destruct use_cache.
  - unfold read_cache. cbv beta iota.
    destruct (cache_files w !! _get_cache_path u) as [cached|] eqn:Hc;
      cbn [fmap option_fmap option_map].
    + intros [= <- <-]. exists []. rewrite app_nil_r.
      repeat split; try done; cbn; lia.
    + apply Hloop.
  - unfold mret, M_ret. apply Hloop.
Qed.

End FetcherMore.

(** ** The link extractor *)

Section LinksMore.
Context `{Externals}.









End LinksMore.

(** ** The crawl *)

Section CrawlMore.
Context `{Externals}.

Lemma discovered_mono start c c' u d :
  scraped c `prefix_of` scraped c' ->
  calls c `prefix_of` calls c' ->
  discovered start c u d -> discovered start c' u d.
Proof.
  intros Hs Hk [Hstart|(page & Hp & Hl & Hc)]; [by left|].
  right. exists page. split; [by eapply elem_of_prefix|].
  split; [done|by eapply elem_of_prefix].
Qed.

Lemma crawl_iteration_provenance use_cache depth start c w c' w' :
  provenance_inv start c ->
  crawl_iteration use_cache depth c w = Some (c', w') ->
  provenance_inv start c'.
Proof.
  intros [Hq Hk].
  destruct (to_visit c) as [|[u d] rest] eqn:Hfront.
  { unfold crawl_iteration. rewrite Hfront. intros [= <- <-].
    split; by rewrite ?Hfront. }
  apply Forall_cons in Hq as [Hu Hrest]. cbn [fst snd] in Hu.
  intros Hit.
  destruct (crawl_iteration_cases use_cache depth c w u d rest Hfront
              (mk_is_Some _ _ Hit))
    as [[_ Heq]|[(_ & _ & w1 & _ & Heq)
                |(_ & _ & page & w1 & _ & Hurl & Heq)]];
    rewrite Heq in Hit; injection Hit as <- <-.
  - split; cbn [to_visit calls]; [|done].
    eapply Forall_impl; [exact Hrest|]. intros e. by apply discovered_mono.
  - assert (forall x y, discovered start c x y ->
              discovered start
                (mkCrawl (scraped c) (visited c ∪ {[u]}) rest
                   (calls c ++ [mkCall u d false])) x y) as Hmono.
    { intros x y. apply discovered_mono; cbn; [done|by apply prefix_app_r]. }
    split; cbn [to_visit calls].
    + eapply Forall_impl; [exact Hrest|]. intros e. apply Hmono.
    + apply Forall_app. split.
      * eapply Forall_impl; [exact Hk|]. intros k. apply Hmono.
      * apply Forall_singleton. cbn. by apply Hmono.
  - set (c1 := mkCrawl _ _ _ _).
    assert (forall x y, discovered start c x y -> discovered start c1 x y)
      as Hmono.
    { intros x y. apply discovered_mono; cbn; by apply prefix_app_r. }
    split; cbn [to_visit calls c1].
    + assert (Forall (fun e => discovered start c1 e.1 e.2) rest) as Hrest'.
      { eapply Forall_impl; [exact Hrest|]. intros e. apply Hmono. }
      destruct (d <? depth)%Z; [|done].
      apply Forall_app. split; [done|].
      unfold child_entries. apply Forall_fmap, Forall_forall.
      intros link [_ Hlink]%list_elem_of_filter. cbn.
      right. exists page. cbn.
      split; [apply elem_of_app; right; by apply list_elem_of_singleton|].
      split; [done|].
      apply elem_of_app. right. apply list_elem_of_singleton.
      rewrite Hurl. f_equal. lia.
    + apply Forall_app. split.
      * eapply Forall_impl; [exact Hk|]. intros k. apply Hmono.
      * apply Forall_singleton. cbn. by apply Hmono.
Qed.

Lemma crawl_after_provenance use_cache depth start n c w c' w' :
  provenance_inv start c ->
  crawl_after use_cache depth n c w = Some (c', w') ->
  provenance_inv start c'.
Proof.
  revert c w. induction n as [|n IH]; intros c w Hinv.
  - by intros [= <- <-].
  - cbn [crawl_after]. destruct (to_visit c) eqn:Hq; [by intros [= <- <-]|].
    unfold mbind, M_bind.
    destruct (crawl_iteration use_cache depth c w) as [[c1 w1]|] eqn:Hit;
      [|done].
    apply IH. by eapply crawl_iteration_provenance.
Qed.

(** X5: a crawl asks only for URLs it has discovered: every call of
    [scrape_page] is for the start URL at depth 0 or for a link of a page
    that the crawl scraped successfully one level higher. *)
Theorem crawl_fetches_only_discovered_urls use_cache topic depth n w c w' :
  crawl_after use_cache depth n (crawl_init topic) w = Some (c, w') ->
  forall k, k ∈ calls c ->
    (call_url k = topic_url topic /\ call_depth k = 0%Z)
    \/ exists page,
         page ∈ scraped c
         /\ call_url k ∈ links page
         /\ mkCall (url page) (call_depth k - 1) true ∈ calls c.
Proof.
  intros Hrun k Hk.
  destruct (crawl_after_provenance use_cache depth (topic_url topic) n
              (crawl_init topic) w c w') as [_ Hcalls]; [|done|].
  { split; [|done]. apply Forall_singleton. by left. }
  eapply Forall_forall in Hcalls; [|done]. exact Hcalls.
Qed.

(** X6: no page is asked for below the depth bound: every call is made at
    a depth between 0 and [depth].  With a negative [depth] the crawl makes no
    call at all, returns no page and leaves the world as it found it. *)
Theorem crawl_respects_depth use_cache topic depth n w c w' :
  crawl_after use_cache depth n (crawl_init topic) w = Some (c, w') ->
  Forall (fun k => (0 ≤ call_depth k ≤ depth)%Z) (calls c)
  /\ ((depth < 0)%Z -> calls c = [] /\ scraped c = [] /\ w' = w).
Proof.
  intros Hrun.
  destruct (crawl_after_inv _ _ _ _ _ _ _ (crawl_init_inv depth topic) Hrun)
    as [_ _ Hscr Hcd _].
  split; [done|]. intros Hneg.
  assert (calls c = []) as Hnone.
  { destruct (calls c) as [|k l]; [done|].
    apply Forall_cons in Hcd as [Hk _]. lia. }
  split; [done|]. split.
  - rewrite Hnone in Hscr. cbn in Hscr. by apply fmap_nil_inv in Hscr.
  - destruct n as [|n]; [by injection Hrun as _ <-|].
    assert (crawl_iteration use_cache depth (crawl_init topic) w
            = Some (mkCrawl [] ∅ [] [], w)) as Hit.
    { unfold crawl_iteration, crawl_init. cbn [to_visit visited scraped calls].
      rewrite bool_decide_eq_false_2 by set_solver.
      by apply Z.ltb_lt in Hneg as ->. }
    rewrite (crawl_after_step use_cache depth n (crawl_init topic) w _ _
               ltac:(done) Hit) in Hrun.
    rewrite crawl_after_done in Hrun by done. by injection Hrun as _ <-.
Qed.

End CrawlMore.

Section MarkdownShape.
Context `{Externals}.

(** X7: the Markdown text of a page is stripped (stripping it again changes
    nothing, so it neither begins nor ends with white space) and contains no
    three newlines in a row. *)
Theorem markdown_is_stripped_and_collapsed html base_url md :
  _html_to_markdown html base_url = Some md ->
  PyStr.strip md = md
  /\ starts_clean md
  /\ PyStr.contains three_newlines md = false.
Proof.
  rewrite html_to_markdown_of_content.
  destruct (content_of html) as [[parent content]|]; [|done].
  cbn [mbind option_bind].
  destruct (_process_element parent content [] base_url 0)
    as [lines|]; [|done].
  cbn. intros [= <-]. split; [apply strip_strip|]. split.
  - apply rstrip_starts_clean, lstrip_starts_clean.
  - destruct (PyStr.contains three_newlines _) eqn:Hn; [|done].
    apply contains_of_strip in Hn.
    by rewrite (proj2 (collapse_newlines_shape _ 0)) in Hn.
Qed.

End MarkdownShape.

(** ** The content the converter is given *)

Section CleanContent.

Lemma is_named_shallow names : shallow (is_named names).
Proof. intros bad n. by destruct n. Qed.

Lemma selects_shallow sel : shallow (selects sel).
Proof. intros bad n. by destruct n, sel. Qed.

(** What is below a node after [decompose_all] was below it before, was not
    selected, and has been treated in the same way. *)
Lemma decompose_all_descendants bad n :
  forall d, d ∈ descendants (decompose_all bad n) ->
    exists n0, (d.1, n0) ∈ descendants n
               /\ bad n0 = false /\ d.2 = decompose_all bad n0.
Proof.
  induction n as [s|name classes attrs children IH] using Node_ind_nested;
    intros d; [by intros ?%elem_of_nil|].
  cbn [decompose_all descendants].
  induction IH as [|c cs Hc _ IHcs]; [by intros ?%elem_of_nil|].
  destruct (bad c) eqn:Hbad.
  - intros (n0 & Hin & Hn0)%IHcs. exists n0. split; [|done].
    apply elem_of_cons. right. apply elem_of_app. by right.
  - intros [->|[Hd|Hd]%elem_of_app]%elem_of_cons.
    + exists c. split; [apply elem_of_cons; by left|done].
    + destruct (Hc d Hd) as (n0 & Hin & Hn0). exists n0. split; [|done].
      apply elem_of_cons. right. apply elem_of_app. by left.
    + destruct (IHcs Hd) as (n0 & Hin & Hn0). exists n0. split; [|done].
      apply elem_of_cons. right. apply elem_of_app. by right.
Qed.

Lemma decompose_all_removes bad n :
  shallow bad ->
  Forall (fun d => bad d.2 = false) (descendants (decompose_all bad n)).
Proof.
  intros Hsh. apply Forall_forall. intros d Hd.
  destruct (decompose_all_descendants bad n d Hd) as (n0 & _ & Hbad & ->).
  by rewrite Hsh.
Qed.

Lemma decompose_all_keeps_absent bad p n :
  shallow p ->
  Forall (fun d => p d.2 = false) (descendants n) ->
  Forall (fun d => p d.2 = false) (descendants (decompose_all bad n)).
Proof.
  intros Hsh Hall. apply Forall_forall. intros d Hd.
  destruct (decompose_all_descendants bad n d Hd) as (n0 & Hin & _ & ->).
  rewrite Hsh. by eapply Forall_forall in Hall; [|done].
Qed.

Lemma foldl_decompose_keeps_absent p sels : forall n,
  shallow p ->
  Forall (fun d => p d.2 = false) (descendants n) ->
  Forall (fun d => p d.2 = false)
    (descendants (foldl (fun c sel => decompose_all (selects sel) c) n sels)).
Proof.
  induction sels as [|sel sels IH]; intros n Hsh Hall; [done|].
  cbn [foldl]. apply IH; [done|]. by apply decompose_all_keeps_absent.
Qed.

Lemma foldl_decompose_removes sels : forall n sel,
  sel ∈ sels ->
  Forall (fun d => selects sel d.2 = false)
    (descendants (foldl (fun c sel => decompose_all (selects sel) c) n sels)).
Proof.
  induction sels as [|s sels IH]; intros n sel; [by intros ?%elem_of_nil|].
  cbn [foldl]. intros [->|Hin]%elem_of_cons; [|by apply IH].
  apply foldl_decompose_keeps_absent; [apply selects_shallow|].
  apply decompose_all_removes, selects_shallow.
Qed.

(** X8: nothing the converter is given is noise: below the cleaned content
    root there is no [script], [style], [nav], [footer], [header] or [aside]
    element, no element of class [breadcrumb], [sidebar], [toc] or
    [navigation] and no element with the role [navigation]. *)
Theorem clean_content_has_no_noise content :
  Forall (fun d => is_noise d.2 = false) (descendants (clean_content content)).
Proof.
  unfold clean_content.
  assert (Forall (fun d => is_named UNWANTED d.2 = false)
            (descendants
               (foldl (fun c sel => decompose_all (selects sel) c)
                  (decompose_all (is_named UNWANTED) content) NOISE)))
    as Hunwanted.
  { apply foldl_decompose_keeps_absent; [apply is_named_shallow|].
    apply decompose_all_removes, is_named_shallow. }
  apply Forall_forall. intros d Hd. unfold is_noise.
  rewrite (proj1 (Forall_forall _ _) Hunwanted d Hd). cbn [orb].
  apply not_true_iff_false. intros (sel & Hsel & Hsel')%existsb_exists.
  pose proof (foldl_decompose_removes NOISE
                (decompose_all (is_named UNWANTED) content) sel) as Hnone.
  rewrite <- list_elem_of_In in Hsel. specialize (Hnone Hsel).
  eapply Forall_forall in Hnone; [|done]. congruence.
Qed.

End CleanContent.

(** ** How the converter composes *)

Section ConverterCompose.
Context `{Externals}.

#[local] Ltac emits :=
  cbn [fmap option_fmap option_map];
  repeat (match goal with
          | |- context [if ?b then _ else _] => destruct b
          | |- context [mbind _ ?o] => destruct o
          end;
          cbn [mbind option_bind fmap option_fmap option_map]);
  cbn [app]; by rewrite ?app_nil_r.

Lemma table_rows_app (rows : list Node) (lines acc : list string) :
  foldl (fun lines row =>
           match row_cells row with
           | [] => lines
           | cells => lines ++ [table_line cells]
           end) (lines ++ acc) rows
  = lines ++ foldl (fun lines row =>
                      match row_cells row with
                      | [] => lines
                      | cells => lines ++ [table_line cells]
                      end) acc rows.
Proof.
  revert acc. induction rows as [|row rows IH]; intros acc; [done|].
  cbn [foldl]. destruct (row_cells row) as [|cell cells]; [apply IH|].
  by rewrite <- app_assoc, IH.
Qed.

Lemma process_table_app table lines :
  _process_table table lines = (app lines) <$> _process_table table [].
Proof.
  unfold _process_table.
  destruct (find_all (is_named ["tr"]) table) as [|row rows]; [emits|].
  cbn [first_row lookup list_lookup mbind option_bind tail fmap option_fmap
       option_map].
  f_equal. rewrite app_nil_l. destruct (row_cells row) as [|cell cells].
  - by rewrite table_rows_app, app_assoc.
  - rewrite <- (app_assoc lines), table_rows_app. by rewrite <- app_assoc.
Qed.

(** What [_process_element] appends does not depend on the lines that are
    there already. *)
Lemma process_element_app element :
  forall parent lines base_url depth,
    _process_element parent element lines base_url depth
    = (app lines) <$> _process_element parent element [] base_url depth.
Proof.
  induction element as [s|name classes attrs children IH] using Node_ind_nested;
    intros parent lines base_url depth.
  - cbn [_process_element]. emits.
  - cbn [_process_element].
    case_bool_decide.
    { destruct (PyStr.index (PyStr.lower name) 1) as [digit|]; [|done].
      cbn [mbind option_bind].
      destruct (PyStr.int_of_char digit); [|done].
      cbn [mbind option_bind]. emits. }
    case_bool_decide; [emits|].
    case_bool_decide; [emits|].
    destruct (if bool_decide (PyStr.lower name = "code") then _ else _)
      as [[]|]; cbn [mbind option_bind]; [emits| |done].
    case_bool_decide; [emits|].
    case_bool_decide; [apply process_table_app|].
    case_bool_decide; [emits|].
    case_bool_decide; [emits|].
    destruct (_ || _); [emits|].
    case_bool_decide; [|emits].
    clear -IH.
    match goal with
    | |- ?go children lines = _ =>
        assert (forall lines acc,
                  go children (lines ++ acc) = (app lines) <$> go children acc)
          as Hgo; [|by rewrite <- (app_nil_r lines) at 1]
    end.
    clear lines.
    induction IH as [|child cs Hchild _ IHcs]; intros lines acc; [done|].
    destruct (fits_stack (depth + 1)); [|done].
    rewrite (Hchild (Some name) (lines ++ acc) base_url (depth + 1)%Z).
    rewrite (Hchild (Some name) acc base_url (depth + 1)%Z).
    destruct (_process_element (Some name) child [] base_url (depth + 1))
      as [out|]; [|done].
    cbn [fmap option_fmap option_map mbind option_bind].
    rewrite <- app_assoc. apply IHcs.
Qed.

Lemma process_children_app parent_name cs1 cs2 lines base_url depth :
  process_children parent_name (cs1 ++ cs2) lines base_url depth
  = process_children parent_name cs1 lines base_url depth
    ≫= fun lines' => process_children parent_name cs2 lines' base_url depth.
Proof.
  revert lines. induction cs1 as [|c cs1 IH]; intros lines; [done|].
  cbn [app process_children]. destruct (fits_stack depth); [|done].
  destruct (_process_element (Some parent_name) c lines base_url depth);
    [apply IH|done].
Qed.

Lemma process_children_lines parent_name cs lines base_url depth :
  process_children parent_name cs lines base_url depth
  = (app lines) <$> process_children parent_name cs [] base_url depth.
Proof.
  assert (forall lines acc,
    process_children parent_name cs (lines ++ acc) base_url depth
    = (app lines) <$> process_children parent_name cs acc base_url depth)
    as Hgo; [|by rewrite <- (app_nil_r lines) at 1].
  clear lines. induction cs as [|c cs IH]; intros lines acc; [done|].
  cbn [process_children]. destruct (fits_stack depth); [|done].
  rewrite (process_element_app c (Some parent_name) (lines ++ acc)).
  rewrite (process_element_app c (Some parent_name) acc).
  destruct (_process_element (Some parent_name) c [] base_url depth)
    as [out|]; [|done].
  cbn [fmap option_fmap option_map mbind option_bind].
  rewrite <- app_assoc. apply IH.
Qed.

(** X9: conversion composes.  What an element appends is the same whatever
    was converted before it, and a container ([div], [section], [article],
    [main], [span], [body], no callout) gives the lines of its first
    children followed by the lines of the remaining ones. *)
Theorem conversion_composes parent base_url depth :
  (forall element lines,
      _process_element parent element lines base_url depth
      = (app lines) <$> _process_element parent element [] base_url depth)
  /\ (forall name classes attrs cs1 cs2,
      recurses (Tag name classes attrs (cs1 ++ cs2)) = true ->
      _process_element parent (Tag name classes attrs (cs1 ++ cs2)) []
        base_url depth
      = out1 ← _process_element parent (Tag name classes attrs cs1) []
                 base_url depth;
        out2 ← _process_element parent (Tag name classes attrs cs2) []
                 base_url depth;
        Some (out1 ++ out2)).
Proof.
  split.
  - intros element lines. apply process_element_app.
  - intros name classes attrs cs1 cs2 Hrec.
    assert (recurses (Tag name classes attrs cs1) = true) as H1 by done.
    assert (recurses (Tag name classes attrs cs2) = true) as H2 by done.
    rewrite !process_element_container by done.
    rewrite process_children_app.
    destruct (process_children name cs1 [] base_url (depth + 1))
      as [out1|]; [|done].
    cbn [mbind option_bind]. rewrite process_children_lines.
    by destruct (process_children name cs2 [] base_url (depth + 1)).
Qed.

End ConverterCompose.

(** ** Scraping one page, in full *)

Section ScrapePageMore.
Context `{Externals}.

(** X10: [scrape_page] does nothing to the world but fetch.  When it
    returns, it returns [None] exactly when the fetch failed or gave an empty
    body, and otherwise the page of the URL asked for, with the converted
    text, the title and the links of the body fetched, stamped with the time
    after the fetch.  It raises when the body is not empty and the converter
    or the link extractor raises on it, and only then. *)
Theorem scrape_page_is_fetch_then_convert use_cache u w fetched w1 :
  _fetch_page use_cache u w = Some (fetched, w1) ->
  match scrape_page use_cache u w with
  | Some (result, w2) =>
      w2 = w1
      /\ (result = None <-> fetched = None \/ fetched = Some "")
      /\ (forall page, result = Some page ->
            exists html soup,
              fetched = Some html
              /\ BeautifulSoup html = Some soup
              /\ url page = u
              /\ title page = page_title soup
              /\ _html_to_markdown html u = Some (markdown page)
              /\ _extract_links html u = Some (links page)
              /\ scraped_at page = now_isoformat (env w1))
  | None =>
      exists html,
        fetched = Some html /\ html ≠ ""
        /\ (_html_to_markdown html u = None \/ _extract_links html u = None)
  end.
Proof.
  intros Hfetch. rewrite (scrape_page_after_fetch _ _ _ _ _ Hfetch).
  destruct fetched as [html|].
  - destruct (truthy html) eqn:Ht.
    + assert (html ≠ "") as Hne by (by intros ->).
      unfold page_of.
      destruct (BeautifulSoup html) as [soup|] eqn:Hsoup.
      2: { exists html. split; [done|]. split; [done|]. left.
           unfold _html_to_markdown. by rewrite Hsoup. }
      cbn [mbind option_bind].
      destruct (_html_to_markdown html u) as [md|] eqn:Hmd.
      2: { exists html. auto. }
      cbn [mbind option_bind].
      destruct (_extract_links html u) as [links|] eqn:Hlinks.
      2: { exists html. auto. }
      cbn [mbind option_bind].
      split; [done|]. split.
      * split; [discriminate|]. intros [Hnone|Hempty]; [discriminate|].
        by injection Hempty.
      * intros page [= <-]. by exists html, soup.
    + split; [done|]. split.
      * split; [|done]. intros _. right. f_equal.
        unfold truthy in Ht. apply negb_false_iff in Ht.
        by apply String.eqb_eq in Ht.
      * by intros page.
  - split; [done|]. split; [split; auto|by intros page].
Qed.

End ScrapePageMore.

(** ** The file names and anchors of the writers *)

Section Names.

Lemma all_chars_app P s1 s2 :
  all_chars P (s1 +:+ s2) = all_chars P s1 && all_chars P s2.
Proof.
  induction s1 as [|c s1 IH]; [done|].
  change (String c s1 +:+ s2) with (String c (s1 +:+ s2)).
  cbn [all_chars]. by rewrite IH, andb_assoc.
Qed.

Lemma all_chars_impl (P Q : ascii -> bool) s :
  (forall c, P c = true -> Q c = true) ->
  all_chars P s = true -> all_chars Q s = true.
Proof.
  intros HPQ. induction s as [|c s IH]; [done|]. cbn [all_chars].
  intros [Hc Hs]%andb_prop. by rewrite (HPQ _ Hc), IH.
Qed.

Lemma all_chars_has_char P s c :
  all_chars P s = true -> has_char c s = true -> P c = true.
Proof.
  induction s as [|c' s IH]; [done|]. cbn [all_chars has_char].
  intros [Hc Hs]%andb_prop [Heq|Hin]%orb_prop; [|by apply IH].
  apply Ascii.eqb_eq in Heq. by subst.
Qed.

Lemma sub_other_chars s :
  all_chars Re.is_word_space_dash (Re.sub_other s) = true.
Proof.
  induction s as [|c s IH]; [done|]. cbn [Re.sub_other].
  destruct (Re.is_word_space_dash c) eqn:Hc; [|done].
  cbn [all_chars]. by rewrite Hc, IH.
Qed.

Lemma sub_spaces_chars s : forall in_run,
  all_chars Re.is_word_space_dash s = true ->
  all_chars (fun c => Re.is_word c || Ascii.eqb c "-") (Re.sub_spaces in_run s)
  = true.
Proof.
  induction s as [|c s IH]; intros in_run; [done|].
  cbn [all_chars Re.sub_spaces]. intros [Hc Hs]%andb_prop.
  destruct (PyStr.isspace c) eqn:Hsp.
  - destruct in_run; cbn [all_chars]; by rewrite ?IH.
  - cbn [all_chars]. rewrite IH by done.
    unfold Re.is_word_space_dash in Hc. rewrite Hsp, orb_false_r in Hc.
    by rewrite Hc.
Qed.

Lemma lower_char_word c :
  Re.is_word (PyStr.lower_char c) = Re.is_word c
  /\ PyStr.isspace (PyStr.lower_char c) = PyStr.isspace c
  /\ Ascii.eqb (PyStr.lower_char c) "-" = Ascii.eqb c "-"
  /\ Ascii.eqb (PyStr.lower_char c) " " = Ascii.eqb c " ".
Proof. by destruct c as [[] [] [] [] [] [] [] []]; vm_compute. Qed.

Lemma lower_chars (P : ascii -> bool) s :
  (forall c, P (PyStr.lower_char c) = P c) ->
  all_chars P (PyStr.lower s) = all_chars P s.
Proof.
  intros HP. induction s as [|c s IH]; [done|].
  cbn [PyStr.lower all_chars]. by rewrite HP, IH.
Qed.

Lemma replace_space_chars s :
  PyStr.replace " " "-" s
  = (fix go (s : string) : string :=
       match s with
       | "" => ""
       | String c s' => String (if Ascii.eqb c " " then "-"%char else c) (go s')
       end) s.
Proof.
  unfold PyStr.replace. induction s as [|c s IH]; [done|].
  cbn [PyStr.replace_from String.prefix String.length Nat.sub].
  rewrite IH. destruct (ascii_dec " " c) as [<-|Hne].
  - by destruct s.
  - destruct (Ascii.eqb_spec c " ") as [->|_]; done.
Qed.

(** X11: the file name [save_markdown] makes of a title is a stem followed
    by [.md], the only dot of the name, and it holds no path separator and no
    white space. *)
Theorem markdown_filename_is_safe title :
  (exists stem,
      markdown_filename title = stem +:+ ".md"
      /\ has_char "." stem = false)
  /\ has_char "/" (markdown_filename title) = false
  /\ all_chars (fun c => negb (PyStr.isspace c)) (markdown_filename title)
     = true.
Proof.
  set (word_dash := fun c => Re.is_word c || Ascii.eqb c "-").
  assert (all_chars word_dash
            (PyStr.lower (Re.sub_spaces false (Re.sub_other title))) = true)
    as Hstem.
  { rewrite lower_chars.
    - apply sub_spaces_chars, sub_other_chars.
    - intros c. unfold word_dash.
      destruct (lower_char_word c) as (-> & _ & -> & _). done. }
  assert (all_chars (fun c => word_dash c || Ascii.eqb c ".")
            (markdown_filename title) = true) as Hname.
  { unfold markdown_filename. rewrite all_chars_app. apply andb_true_intro.
    split; [|done]. eapply all_chars_impl; [|exact Hstem].
    by intros c ->. }
  split; [|split].
  - eexists. split; [done|].
    destruct (has_char "." _) eqn:Hdot; [|done].
    by pose proof (all_chars_has_char _ _ _ Hstem Hdot).
  - destruct (has_char "/" (markdown_filename title)) eqn:Hslash; [|done].
    by pose proof (all_chars_has_char _ _ _ Hname Hslash).
  - eapply all_chars_impl; [|exact Hname]. intros c. unfold word_dash.
    destruct c as [[] [] [] [] [] [] [] []]; by vm_compute.
Qed.

(** X12: no space, quote, angle bracket, parenthesis or [#] of a title
    reaches the anchor [save_combined] makes of it for the [<a name=...>]
    tag and the link of the table of contents. *)
Theorem anchor_is_inert title :
  Forall (fun c => has_char c (anchor_of title) = false)
    [" "; "034"; "<"; ">"; "("; ")"; "#"]%char.
Proof.
  assert (all_chars (fun c => Re.is_word_space_dash c && negb (Ascii.eqb c " "))
            (anchor_of title) = true) as Hanchor.
  { unfold anchor_of. rewrite replace_space_chars.
    assert (all_chars Re.is_word_space_dash (PyStr.lower (Re.sub_other title))
            = true) as Hlow.
    { rewrite lower_chars; [apply sub_other_chars|]. intros c.
      unfold Re.is_word_space_dash.
      by destruct (lower_char_word c) as (-> & -> & -> & _). }
    induction (PyStr.lower (Re.sub_other title)) as [|c s IH]; [done|].
    cbn [all_chars] in *. apply andb_prop in Hlow as [Hc Hs].
    rewrite IH by done. destruct (Ascii.eqb_spec c " ") as [->|Hne]; [done|].
    rewrite Hc. by destruct (Ascii.eqb_spec c " "). }
  repeat apply Forall_cons_2; [..|by apply Forall_nil];
    match goal with
    | |- has_char ?c ?s = false =>
        destruct (has_char c s) eqn:Hin; [|done];
        by pose proof (all_chars_has_char _ _ _ Hanchor Hin)
    end.
Qed.

End Names.

(** ** Saving one file per page *)

Section SaveEach.
Context `{Externals}.

Lemma save_each_lookup (results : list Page) :
  forall (out out' : gmap string string) name,
  save_each results out = Some out' ->
  out' !! name
  = match last (filter (fun p => markdown_filename (title p) = name) results)
    with
    | Some p => Some (markdown_file p)
    | None => out !! name
    end.
Proof.
  induction results as [|p results IH]; intros out out' name;
    [by intros [= <-]|].
  cbn [save_each]. unfold save_markdown, write_output.
  destruct (name_fits (markdown_filename (title p)));
    cbn [mbind option_bind fst]; [|done].
  intros Hrest. rewrite (IH _ _ name Hrest).
  destruct (decide (markdown_filename (title p) = name)) as [Heq|Hne].
  - rewrite filter_cons_True by done. rewrite Heq, lookup_insert_eq.
    rewrite last_cons. by destruct (last _).
  - rewrite filter_cons_False by done. by rewrite lookup_insert_ne.
Qed.

(** The loop raises when a page has a title whose file name the file system
    does not take, and only then. *)
Lemma save_each_raises (results : list Page) : forall out,
  save_each results out = None
  <-> exists p, p ∈ results
                /\ name_fits (markdown_filename (title p)) = false.
Proof.
  induction results as [|p results IH]; intros out.
  - split; [done|]. by intros (? & ?%elem_of_nil & _).
  - cbn [save_each]. unfold save_markdown, write_output.
    destruct (name_fits (markdown_filename (title p))) eqn:Hfits;
      cbn [mbind option_bind fst].
    + rewrite IH. split.
      * intros (q & Hin & Hq). exists q.
        split; [apply elem_of_cons; by right|done].
      * intros (q & [-> | Hin]%elem_of_cons & Hq); [congruence|].
        by exists q.
    + split; [|done]. intros _. exists p.
      split; [apply elem_of_cons; by left|done].
Qed.

End SaveEach.

(** ** The condensed text of the context file *)

Section Condense.
Context `{Externals}.

Lemma image_match_none s :
  String.prefix "![" s = false -> Re.image_match s = None.
Proof.
  destruct s as [|c [|c' s]]; [done..|]. cbn [String.prefix Re.image_match].
  destruct (ascii_dec "!" c) as [<-|Hne].
  - destruct (ascii_dec "[" c') as [<-|Hne']; [by destruct s|]. intros _.
    by destruct (Ascii.eqb_spec c' "[") as [->|_].
  - intros _. by destruct (Ascii.eqb_spec c "!") as [->|_].
Qed.

Lemma sub_images_no_marker s :
  PyStr.contains "![" s = false -> Re.sub_images s = s.
Proof.
  unfold Re.sub_images. induction s as [|c s IH]; [done|].
  cbn [PyStr.contains Re.sub_images_from].
  intros [Hhere Hlater]%orb_false_elim.
  by rewrite (image_match_none _ Hhere), IH.
Qed.

Lemma leading_newlines_bound s :
  PyStr.contains three_newlines s = false -> leading_newlines s ≤ 2.
Proof.
  destruct s as [|c s]; [cbn; lia|]. cbn [PyStr.contains].
  intros [Hhere _]%orb_false_elim. rewrite prefix_three_newlines in Hhere.
  cbn [leading_newlines]. destruct (Ascii.eqb c NEWLINE); [|lia].
  cbn [andb] in Hhere. apply Nat.leb_gt in Hhere. lia.
Qed.

Lemma collapse_newlines_id s : forall run,
  leading_newlines s + run ≤ 2 ->
  PyStr.contains three_newlines s = false ->
  PyStr.collapse_newlines run s = s.
Proof.
  induction s as [|c s IH]; intros run; [done|].
  cbn [PyStr.contains PyStr.collapse_newlines leading_newlines]. fold NEWLINE.
  intros Hrun [_ Hlater]%orb_false_elim.
  destruct (Ascii.eqb c NEWLINE).
  - destruct (Nat.ltb_spec run 2) as [_|?]; [|lia].
    rewrite IH; [done|lia|done].
  - rewrite IH; [done| |done].
    pose proof (leading_newlines_bound _ Hlater). lia.
Qed.

Lemma html_to_markdown_no_three_newlines html base_url md :
  _html_to_markdown html base_url = Some md ->
  PyStr.contains three_newlines md = false.
Proof.
  rewrite html_to_markdown_of_content.
  destruct (content_of html) as [[parent content]|]; [|done].
  cbn [mbind option_bind].
  destruct (_process_element parent content [] base_url 0)
    as [lines|]; [|done].
  cbn. intros [= <-].
  destruct (PyStr.contains three_newlines _) eqn:Hn; [|done].
  apply contains_of_strip in Hn.
  by rewrite (proj2 (collapse_newlines_shape _ 0)) in Hn.
Qed.

(** X13: [create_claude_context] leaves the Markdown of a page without an
    image marker as the converter made it: there is no image to remove, and
    the runs of newlines were collapsed already. *)
Theorem condense_keeps_page_without_images html base_url md :
  _html_to_markdown html base_url = Some md ->
  PyStr.contains "![" md = false ->
  condense md = md.
Proof.
  intros Hmd Hno. unfold condense. rewrite (sub_images_no_marker _ Hno).
  pose proof (html_to_markdown_no_three_newlines _ _ _ Hmd) as Hnl.
  apply collapse_newlines_id; [|done].
  pose proof (leading_newlines_bound _ Hnl). lia.
Qed.

Lemma to_bracket_paren_cons c c' s :
  Re.to_bracket_paren (String c (String c' s))
  = if Ascii.eqb c "]" && Ascii.eqb c' "(" then Some (2, s)
    else if Ascii.eqb c NEWLINE then None
    else '(n, rest) ← Re.to_bracket_paren (String c' s); Some (S n, rest).
Proof. done. Qed.

Lemma to_bracket_paren_app alt : forall rest,
  has_char NEWLINE alt = false ->
  PyStr.contains "](" alt = false ->
  Re.to_bracket_paren (alt +:+ "](" +:+ rest)
  = Some (String.length alt + 2, rest).
Proof.
  induction alt as [|c alt IH]; intros rest; [done|].
  cbn [has_char PyStr.contains String.length].
  intros [Hc Hnl]%orb_false_elim [Hhere Hlater]%orb_false_elim.
  specialize (IH rest Hnl Hlater).
  destruct alt as [|c' alt].
  - change (String c "" +:+ "](" +:+ rest)
      with (String c (String "]" (String "(" rest))).
    rewrite to_bracket_paren_cons.
    change (Ascii.eqb "]" "(") with false. by rewrite andb_false_r, Hc.
  - change (String c' alt +:+ "](" +:+ rest)
      with (String c' (alt +:+ "](" +:+ rest)) in IH.
    change (String c (String c' alt) +:+ "](" +:+ rest)
      with (String c (String c' (alt +:+ "](" +:+ rest))).
    assert (Ascii.eqb c "]" && Ascii.eqb c' "(" = false) as Hno.
    { destruct (Ascii.eqb_spec c "]") as [->|_]; [|done].
      destruct (Ascii.eqb_spec c' "(") as [->|_]; [|done].
      destruct alt; by vm_compute in Hhere. }
    by rewrite to_bracket_paren_cons, Hno, Hc, IH.
Qed.

Lemma to_paren_app src : forall rest,
  has_char NEWLINE src = false ->
  has_char ")" src = false ->
  Re.to_paren (src +:+ ")" +:+ rest) = Some (String.length src + 1).
Proof.
  induction src as [|c src IH]; intros rest; [done|].
  cbn [has_char String.length].
  intros [Hc Hnl]%orb_false_elim [Hp Hlater]%orb_false_elim.
  change (String c src +:+ ")" +:+ rest)
    with (String c (src +:+ ")" +:+ rest)).
  cbn [Re.to_paren]. by rewrite Hp, Hc, IH.
Qed.

Lemma sub_images_skip x : forall rest,
  Re.sub_images_from (String.length x) (x +:+ rest)
  = Re.sub_images_from 0 rest.
Proof.
  induction x as [|c x IH]; intros rest; [done|].
  change (String c x +:+ rest) with (String c (x +:+ rest)).
  cbn [String.length Re.sub_images_from].
  destruct (x +:+ rest) eqn:Hx.
  - destruct x; [|done]. by destruct rest.
  - rewrite <- Hx. apply IH.
Qed.

Lemma sub_images_before pre : forall rest,
  has_char "!" pre = false ->
  Re.sub_images (pre +:+ rest) = pre +:+ Re.sub_images rest.
Proof.
  unfold Re.sub_images.
  induction pre as [|c pre IH]; intros rest; [done|].
  cbn [has_char]. intros [Hc Hpre]%orb_false_elim.
  change (String c pre +:+ rest) with (String c (pre +:+ rest)).
  change (String c pre +:+ Re.sub_images_from 0 rest)
    with (String c (pre +:+ Re.sub_images_from 0 rest)).
  cbn [Re.sub_images_from]. rewrite image_match_none, IH; [done..|].
  cbn [String.prefix]. destruct (ascii_dec "!" c) as [<-|_]; done.
Qed.

(** X14: [create_claude_context] removes the image line the converter
    writes, whole: for a description without newline and without [](] and an
    address without newline and without [)], what is before an image (text
    without [!]) stays and what is after it is treated in the same way. *)
Theorem sub_images_removes_image pre alt src post :
  has_char "!" pre = false ->
  has_char NEWLINE alt = false ->
  PyStr.contains "](" alt = false ->
  has_char NEWLINE src = false ->
  has_char ")" src = false ->
  Re.sub_images (pre +:+ ("![" +:+ alt +:+ "](" +:+ src +:+ ")") +:+ post)
  = pre +:+ Re.sub_images post.
Proof.
  intros Hpre Halt1 Halt2 Hsrc1 Hsrc2.
  rewrite sub_images_before by done. f_equal.
  rewrite !append_assoc. unfold Re.sub_images.
  change ("![" +:+ alt +:+ "](" +:+ src +:+ ")" +:+ post)
    with (String "!" (String "[" (alt +:+ "](" +:+ src +:+ ")" +:+ post))).
  cbn [Re.sub_images_from Re.image_match Ascii.eqb Bool.eqb andb].
  rewrite to_bracket_paren_app by done. cbn [mbind option_bind].
  rewrite to_paren_app by done. cbn [mbind option_bind].
  replace (2 + (String.length alt + 2) + (String.length src + 1) - 1)
    with (String.length ("[" +:+ alt +:+ "](" +:+ src +:+ ")")).
  - rewrite <- (sub_images_skip ("[" +:+ alt +:+ "](" +:+ src +:+ ")") post).
    by rewrite !append_assoc.
  - rewrite !length_append. cbn [String.length]. lia.
Qed.

End Condense.

(** ** The command line *)

Section MainProperties.
Context `{Externals}.

(** Scraping comes to an end: with enough iterations of the crawl it
    returns or raises, and more iterations change nothing. *)
Lemma main_results_ends args w :
  exists fuel,
    main_results args fuel w ≠ OutOfFuel
    /\ forall extra,
         main_results args (fuel + extra) w = main_results args fuel w.
Proof.
  unfold main_results. destruct (given (arg_url args)).
  - exists 0. split; [|done].
    by destruct (scrape_page _ _ w) as [[result w']|].
  - destruct (given (arg_topic args)); [|by exists 0].
    destruct (crawl_terminates (negb (arg_no_cache args))
                (default "" (arg_topic args)) (arg_depth args) w)
      as (fuel & Hrun).
    exists fuel. split; [by apply scrape_topic_not_out_of_fuel|].
    intros extra. unfold scrape_topic. by rewrite crawl_run_more_fuel.
Qed.

(** X15: [main] comes to an end, whatever the arguments and the site: with
    enough iterations of the crawl it returns or ends in an uncaught
    exception, and more iterations change nothing.  When it returns, the
    status is 0 or 1 and status 1 leaves the output directory as it was;
    [--list-topics] changes nothing at all.  It raises only when the output
    directory cannot be made, when scraping raises or when a file cannot be
    written. *)
Theorem main_ends args w out :
  (exists fuel,
      main args fuel w out ≠ OutOfFuel
      /\ forall extra,
           main args (fuel + extra) w out = main args fuel w out)
  /\ (forall fuel status out' w',
        main args fuel w out = Returned (status, out') w' ->
        (status = 0 \/ status = 1)%Z /\ (status = 1%Z -> out' = out))
  /\ (arg_list_topics args = true ->
      forall fuel, main args fuel w out = Returned (0%Z, out) w)
  /\ (forall fuel,
        main args fuel w out = Raised ->
        mkdir_ok (output_dir_of args) = false
        \/ main_results args fuel w = Raised
        \/ exists results w',
             main_results args fuel w = Returned results w'
             /\ main_save args results w' out = None).
Proof.
  unfold main. split; [|split; [|split]].
  - destruct (arg_list_topics args); [by exists 0|].
    destruct (negb (given (arg_url args)) && negb (given (arg_topic args)));
      [by exists 0|].
    destruct (negb (mkdir_ok (output_dir_of args))); [by exists 0|].
    destruct (main_results_ends args w) as (fuel & Hend & Hmore).
    exists fuel. split; [|intros extra; by rewrite Hmore].
    destruct (main_results args fuel w) as [results w'| |]; [|done..].
    destruct results; [done|].
    by destruct (main_save args _ w' out).
  - intros fuel status out' w'.
    destruct (arg_list_topics args); [intros [= <- <- <-]; by auto|].
    destruct (negb (given (arg_url args)) && negb (given (arg_topic args)));
      [intros [= <- <- <-]; by auto|].
    destruct (negb (mkdir_ok (output_dir_of args))); [done|].
    destruct (main_results args fuel w) as [results w1| |]; [|done..].
    destruct results; [intros [= <- <- <-]; by auto|].
    destruct (main_save args _ w1 out); [|done].
    intros [= <- <- <-]. split; [by left|done].
  - by intros ->.
  - intros fuel.
    destruct (arg_list_topics args); [done|].
    destruct (negb (given (arg_url args)) && negb (given (arg_topic args)));
      [done|].
    destruct (mkdir_ok (output_dir_of args)); [|by left]. cbn [negb].
    destruct (main_results args fuel w) as [results w1| |]; [|by auto|done].
    destruct results as [|page results]; [done|].
    destruct (main_save args _ w1 out) eqn:Hsave; [done|].
    intros _. right. right. by exists (page :: results), w1.
Qed.

Lemma main_inv args fuel w out status out' w' :
  main args fuel w out = Returned (status, out') w' ->
  arg_list_topics args = false ->
  status = 0%Z ->
  exists results,
    main_results args fuel w = Returned results w'
    /\ results <> []
    /\ main_save args results w' out = Some out'.
Proof.
  unfold main. intros Hmain Hlist ->. rewrite Hlist in Hmain.
  destruct (negb (given (arg_url args)) && negb (given (arg_topic args)));
    [done|].
  destruct (negb (mkdir_ok (output_dir_of args))); [done|].
  destruct (main_results args fuel w) as [results w1| |]; [|done..].
  destruct results as [|page results]; [done|].
  destruct (main_save args _ w1 out) as [saved|] eqn:Hsave; [|done].
  injection Hmain as <- <-. by exists (page :: results).
Qed.

Lemma main_of_results args fuel w out results w' out' :
  arg_list_topics args = false ->
  given (arg_url args) || given (arg_topic args) = true ->
  mkdir_ok (output_dir_of args) = true ->
  main_results args fuel w = Returned results w' ->
  results <> [] ->
  main_save args results w' out = Some out' ->
  main args fuel w out = Returned (0%Z, out') w'.
Proof.
  unfold main. intros -> Htarget -> -> Hne Hsave.
  destruct (given (arg_url args)), (given (arg_topic args)); try done;
    destruct results; try done; by rewrite Hsave.
Qed.

(** X16: without [--combined] and [--claude-context], a successful run of
    [main] leaves under each name the file of the last scraped page whose
    title gives that name, and every other file as it was: of two pages
    whose titles give the same name, only the later one is kept. *)
Theorem main_saves_last_page_of_each_name args fuel w out out' w' :
  main args fuel w out = Returned (0%Z, out') w' ->
  arg_list_topics args = false ->
  arg_combined args = false ->
  arg_claude_context args = false ->
  exists results,
    main_results args fuel w = Returned results w'
    /\ results <> []
    /\ forall name,
        out' !! name
        = match last (filter (fun p => markdown_filename (title p) = name)
                        results)
          with
          | Some p => Some (markdown_file p)
          | None => out !! name
          end.
Proof.
  intros Hmain Hlist Hcombined Hcontext.
  destruct (main_inv _ _ _ _ _ _ _ Hmain Hlist eq_refl)
    as (results & Hrun & Hne & Hsave).
  exists results. split; [done|]. split; [done|]. intros name.
  unfold main_save in Hsave. rewrite Hcombined, Hcontext in Hsave.
  by apply save_each_lookup.
Qed.

(** X17: with [--combined] or [--claude-context], [main] writes no file per
    page: only [ue_docs_combined.md] and [UE_CONTEXT.md] can change, each
    is written exactly when its option is given and pages were scraped, and
    the combined file counts the pages scraped. *)
Theorem main_combined_writes_fixed_names args fuel w out status out' w' :
  main args fuel w out = Returned (status, out') w' ->
  arg_combined args || arg_claude_context args = true ->
  (forall name,
      name <> "ue_docs_combined.md" -> name <> "UE_CONTEXT.md" ->
      out' !! name = out !! name)
  /\ (arg_list_topics args = false -> status = 0%Z ->
      exists results,
        main_results args fuel w = Returned results w'
        /\ out' !! "ue_docs_combined.md"
           = (if arg_combined args
              then Some (combined_file results (now_isoformat (env w')))
              else out !! "ue_docs_combined.md")
        /\ out' !! "UE_CONTEXT.md"
           = (if arg_claude_context args
              then Some (context_file results (now_isoformat (env w')))
              else out !! "UE_CONTEXT.md"))
  /\ (status ≠ 0%Z -> out' = out).
Proof.
  intros Hmain Hmode.
  assert (forall results,
             main_save args results w' out = Some out' ->
             (forall name,
                 name <> "ue_docs_combined.md" -> name <> "UE_CONTEXT.md" ->
                 out' !! name = out !! name)
             /\ out' !! "ue_docs_combined.md"
                = (if arg_combined args
                   then Some (combined_file results (now_isoformat (env w')))
                   else out !! "ue_docs_combined.md")
             /\ out' !! "UE_CONTEXT.md"
                = (if arg_claude_context args
                   then Some (context_file results (now_isoformat (env w')))
                   else out !! "UE_CONTEXT.md")) as Hsave.
  { intros results. unfold main_save. rewrite Hmode.
    unfold save_combined, create_claude_context, write_output.
    destruct (arg_combined args), (arg_claude_context args);
      repeat (match goal with
              | |- context [if name_fits ?n then _ else _] =>
                  destruct (name_fits n)
              end;
              cbn [mbind option_bind fmap option_fmap option_map fst]);
      try done; intros [= <-];
      (split; [intros name Hn1 Hn2|split]);
      by rewrite ?lookup_insert_eq, ?lookup_insert_ne, ?lookup_insert_eq
        by done. }
  split; [|split].
  - revert Hmain. unfold main.
    destruct (arg_list_topics args); [by intros [= <- <- <-]|].
    destruct (negb (given (arg_url args)) && negb (given (arg_topic args)));
      [by intros [= <- <- <-]|].
    destruct (negb (mkdir_ok (output_dir_of args))); [done|].
    destruct (main_results args fuel w) as [results w1| |]; [|done..].
    destruct results as [|page results]; [by intros [= <- <- <-]|].
    destruct (main_save args _ w1 out) as [saved|] eqn:Hout; [|done].
    intros [= <- <- <-]. by apply (Hsave (page :: results)).
  - intros Hlist ->.
    destruct (main_inv _ _ _ _ _ _ _ Hmain Hlist eq_refl)
      as (results & Hrun & _ & Hout).
    exists results. split; [done|]. by apply Hsave.
  - revert Hmain. unfold main.
    destruct (arg_list_topics args); [by intros [= <- <- <-]|].
    destruct (negb (given (arg_url args)) && negb (given (arg_topic args)));
      [by intros [= <- <- <-]|].
    destruct (negb (mkdir_ok (output_dir_of args))); [done|].
    destruct (main_results args fuel w) as [results w1| |]; [|done..].
    destruct results as [|page results]; [by intros [= <- <- <-]|].
    destruct (main_save args _ w1 out) as [saved|]; [|done].
    by intros [= <- <- <-].
Qed.

(** X18: with [--url], [main] scrapes that one page: the topic, the depth
    and the bound on the iterations play no part, so the run ends; when it
    returns, at most [MAX_RETRIES] requests were made, all of them for the
    address given. *)
Theorem main_url_scrapes_one_page args w out :
  arg_list_topics args = false ->
  given (arg_url args) = true ->
  (forall topic depth fuel,
      main (mkArgs (arg_url args) topic depth (arg_combined args)
              (arg_claude_context args) (arg_output_dir args)
              (arg_no_cache args) false) fuel w out
      = main args 0 w out)
  /\ main args 0 w out ≠ OutOfFuel
  /\ (forall status out' w',
        main args 0 w out = Returned (status, out') w' ->
        exists evs,
          trace w' = trace w ++ evs
          /\ forall u,
              requests_to u evs
              ≤ if decide (u = default "" (arg_url args))
                then MAX_RETRIES else 0).
Proof.
  intros Hlist Hurl. unfold main, main_results, output_dir_of, main_save.
  cbn [arg_list_topics arg_url arg_topic arg_no_cache arg_output_dir
       arg_combined arg_claude_context].
  rewrite Hlist, Hurl. cbn [negb andb].
  split; [done|].
  destruct (negb (mkdir_ok _)); [done|].
  destruct (scrape_page (negb (arg_no_cache args))
              (default "" (arg_url args)) w) as [[r w1]|] eqn:Hpage; [|done].
  destruct (scrape_page_requests _ _ _ _ _ Hpage) as (evs & Htrace & Hreq).
  split.
  - destruct r as [page|]; [|done]. cbn [option_list].
    by destruct (if arg_combined args || arg_claude_context args
                 then _ else _).
  - intros status out' w'.
    destruct r as [page|]; cbn [option_list].
    + destruct (if arg_combined args || arg_claude_context args
                then _ else _); [|done].
      intros [= <- <- <-]. by exists evs.
    + intros [= <- <- <-]. by exists evs.
Qed.

End MainProperties.

(** ** The further properties on the small site *)

Section MoreOnSite.
#[local] Existing Instance Site.externals.

Lemma site_main_results :
  main_results site_args 3 Site.fresh = Returned site_pages.1 site_pages.2.
Proof. by_evaluation. Qed.

Lemma site_main :
  main site_args 3 Site.fresh ∅ = Returned (0%Z, site_saved) site_pages.2.
Proof. by_evaluation. Qed.

Lemma site_main_combined :
  main site_args_combined 3 Site.fresh ∅
  = Returned (0%Z, site_saved_combined) site_pages.2.
Proof. by_evaluation. Qed.

Lemma site_fetch_A :
  _fetch_page true Site.A Site.fresh = Some (Some "page-a", site_cached_A.2).
Proof. by_evaluation. Qed.

(** [main] raises when a page does: on markup the parser gives up on, on a
    reference [urljoin] raises on, and on a title that gives a file name of
    more than 255 characters. *)
Example site_main_raises :
  main (mkArgs (Some Site.broken) None 1 false false None true false)
    0 Site.fresh ∅ = Raised
  /\ main (mkArgs (Some Site.unjoinable) None 1 false false None true false)
       0 Site.fresh ∅ = Raised
  /\ main (mkArgs (Some Site.long_title) None 1 false false None true false)
       0 Site.fresh ∅ = Raised.
Proof. repeat split; by_evaluation. Qed.

(** X1 on the small site: [A] fetched from the network, and then again. *)
Lemma fetch_then_fetch_witness :
  _fetch_page true Site.A Site.fresh = Some (Some "page-a", site_cached_A.2)
  /\ exists again,
       _fetch_page true Site.A site_cached_A.2
       = Some (Some again, site_cached_A.2)
       /\ again = "page-a".
Proof.
  split; [exact site_fetch_A|].
  destruct (fetch_then_fetch_is_cache_hit Site.A Site.A Site.fresh "page-a"
              site_cached_A.2 site_fetch_A eq_refl)
    as (again & Hrun & _ & _ & Hsame).
  exists again. split; [exact Hrun|].
  apply Hsame; [left|]; reflexivity.
Defined.

(** X2 on the small site: the fetch of [A] without the cache. *)
Lemma fetch_touches_witness :
  exists w1,
    _fetch_page false Site.A Site.fresh = Some (Some "page-a", w1)
    /\ (forall path, path ≠ _get_cache_path Site.A ->
          cache_files w1 !! path = cache_files Site.fresh !! path)
    /\ (false = false \/ Some "page-a" = None ->
        cache_files w1 = cache_files Site.fresh).
Proof.
  eexists. split; [vm_compute; reflexivity|].
  apply (fetch_touches_only_its_cache_file false Site.A Site.fresh
           (Some "page-a")).
  vm_compute. reflexivity.
Defined.

(** X3 on the small site: the fetch of [flaky], which times out. *)
Lemma fetch_is_bounded_witness :
  exists w1,
    _fetch_page true Site.flaky Site.fresh = Some (None, w1)
    /\ exists evs,
         trace w1 = trace Site.fresh ++ evs
         /\ network_attempts evs ≤ MAX_RETRIES
         /\ (None = None :> option string ->
             network_attempts evs = MAX_RETRIES)
         /\ (0 ≤ total_sleep evs ≤ 4)%Z.
Proof.
  eexists. split; [vm_compute; reflexivity|].
  apply (fetch_is_bounded true Site.flaky Site.fresh None).
  vm_compute. reflexivity.
Defined.

(** X5 on the crawl of the small site to depth 2. *)
Lemma crawl_fetches_only_discovered_witness :
  crawl_after false 2 10 (crawl_init "bt") Site.fresh
  = Some (site_crawl.1, site_crawl.2)
  /\ forall k, k ∈ calls site_crawl.1 ->
       (call_url k = topic_url "bt" /\ call_depth k = 0%Z)
       \/ exists page,
            page ∈ scraped site_crawl.1
            /\ call_url k ∈ links page
            /\ mkCall (url page) (call_depth k - 1) true
               ∈ calls site_crawl.1.
Proof.
  split; [exact site_crawl_run|].
  exact (crawl_fetches_only_discovered_urls false "bt" 2 10 Site.fresh
           site_crawl.1 site_crawl.2 site_crawl_run).
Defined.

(** X6 on the crawl of the small site to depth 2. *)
Lemma crawl_respects_depth_witness :
  Forall (fun k => (0 ≤ call_depth k ≤ 2)%Z) (calls site_crawl.1)
  /\ ((2 < 0)%Z ->
      calls site_crawl.1 = [] /\ scraped site_crawl.1 = []
      /\ site_crawl.2 = Site.fresh).
Proof.
  exact (crawl_respects_depth false "bt" 2 10 Site.fresh
           site_crawl.1 site_crawl.2 site_crawl_run).
Defined.

(** X7 on the page [A] of the small site. *)
Lemma markdown_is_stripped_witness :
  exists md,
    _html_to_markdown "page-a" Site.A = Some md
    /\ PyStr.strip md = md
    /\ starts_clean md
    /\ PyStr.contains three_newlines md = false.
Proof.
  eexists. split; [vm_compute; reflexivity|].
  apply (markdown_is_stripped_and_collapsed "page-a" Site.A).
  vm_compute. reflexivity.
Defined.

(** X10 on the small site: the page [A]. *)
Lemma scrape_page_is_fetch_then_convert_witness :
  exists w1,
    _fetch_page false Site.A Site.fresh = Some (Some "page-a", w1)
    /\ match scrape_page false Site.A Site.fresh with
       | Some (result, w2) =>
           w2 = w1
           /\ (result = None <->
               Some "page-a" = None \/ Some "page-a" = Some "")
           /\ (forall page, result = Some page ->
                 exists html soup,
                   Some "page-a" = Some html
                   /\ BeautifulSoup html = Some soup
                   /\ url page = Site.A
                   /\ title page = page_title soup
                   /\ _html_to_markdown html Site.A = Some (markdown page)
                   /\ _extract_links html Site.A = Some (links page)
                   /\ scraped_at page = now_isoformat (env w1))
       | None =>
           exists html,
             Some "page-a" = Some html /\ html ≠ ""
             /\ (_html_to_markdown html Site.A = None
                 \/ _extract_links html Site.A = None)
       end.
Proof.
  eexists. split; [vm_compute; reflexivity|].
  apply (scrape_page_is_fetch_then_convert false Site.A Site.fresh
           (Some "page-a")).
  vm_compute. reflexivity.
Defined.

(** X13 on the page [D] of the small site, which has no image. *)
Lemma condense_keeps_witness :
  exists md,
    _html_to_markdown "page-d" Site.D = Some md
    /\ PyStr.contains "![" md = false
    /\ condense md = md.
Proof.
  eexists. split; [vm_compute; reflexivity|]. split; [vm_compute; reflexivity|].
  apply (condense_keeps_page_without_images "page-d" Site.D);
    vm_compute; reflexivity.
Defined.

(** X14 on a line with an image between two words. *)
Lemma sub_images_removes_image_witness :
  Re.sub_images
    ("See " +:+ ("![" +:+ "Tree" +:+ "](" +:+ "https://example.com/t.png"
                 +:+ ")") +:+ " here")
  = "See " +:+ Re.sub_images " here".
Proof.
  apply (sub_images_removes_image "See " "Tree" "https://example.com/t.png"
           " here"); reflexivity.
Defined.

(** X16 on the small site: the crawl from [A] to depth 1, one file per
    page. *)
Lemma main_saves_witness :
  main site_args 3 Site.fresh ∅ = Returned (0%Z, site_saved) site_pages.2
  /\ exists results,
    main_results site_args 3 Site.fresh = Returned results site_pages.2
    /\ results <> []
    /\ forall name,
        site_saved !! name
        = match last (filter (fun p => markdown_filename (title p) = name)
                        results)
          with
          | Some p => Some (markdown_file p)
          | None => (∅ : gmap string string) !! name
          end.
Proof.
  split; [exact site_main|].
  apply (main_saves_last_page_of_each_name site_args 3 Site.fresh ∅ _ _
           site_main); reflexivity.
Defined.

(** X17 on the small site: the crawl from [A] to depth 1, combined. *)
Lemma main_combined_witness :
  main site_args_combined 3 Site.fresh ∅
  = Returned (0%Z, site_saved_combined) site_pages.2
  /\ forall name,
       name <> "ue_docs_combined.md" -> name <> "UE_CONTEXT.md" ->
       site_saved_combined !! name = (∅ : gmap string string) !! name.
Proof.
  split; [exact site_main_combined|].
  exact (proj1 (main_combined_writes_fixed_names site_args_combined 3
                  Site.fresh ∅ _ _ _ site_main_combined eq_refl)).
Defined.

(** X18 on the small site: [--url A] beside [--topic bt]. *)
Lemma main_url_witness :
  (forall topic depth fuel,
      main (mkArgs (Some Site.A) topic depth false false None false false)
        fuel Site.fresh ∅
      = main site_args_url 0 Site.fresh ∅)
  /\ main site_args_url 0 Site.fresh ∅ ≠ OutOfFuel
  /\ (forall status out' w',
        main site_args_url 0 Site.fresh ∅ = Returned (status, out') w' ->
        exists evs,
          trace w' = trace Site.fresh ++ evs
          /\ forall u,
              requests_to u evs
              ≤ if decide (u = default "" (Some Site.A))
                then MAX_RETRIES else 0).
Proof.
  apply (main_url_scrapes_one_page site_args_url Site.fresh ∅); reflexivity.
Defined.

End MoreOnSite.
